(** * cbfind: indexing and searching a bibliography

    A shallow embedding of [cbfind.py].  Python [str] values are modelled as
    [string]: a sequence of characters, each character an [ascii] read as the
    code point 0..255.  Dictionaries are modelled as association lists that
    keep insertion order, because several loops of the program depend on the
    order in which a [dict] is iterated.  Exceptions are modelled by the type
    [result]; code that also changes the index store runs in the monad [M].

    What the program calls and does not define is a parameter of the model:
    the parser and serializer of [pybtex] and the file system ([World]), the
    query grammar, analysis, scoring and highlighting of the search engine
    ([Engine]), the terminal and [textwrap].  What the engine does with these
    (matching, ranking, cutting at the limit) and what the store does on
    [create] and [commit] is modelled from the specification, and marked so.

    The first part holds the definitions, the second part the properties. *)

From Stdlib Require Import List Ascii String Bool Arith Lia ZArith.
From Stdlib Require Import Sorting.Sorted Sorting.Permutation.
Import ListNotations.
Open Scope string_scope.
Open Scope list_scope.

(** ** Python strings *)

Module Str.

Definition newline : ascii := "010"%char.

(** Code point of a character. *)
Definition ord (c : ascii) : nat := nat_of_ascii c.

(** [\d] of the [re] module on a [str] pattern: a decimal digit.  Below code
    point 256 the only decimal digits are [0]..[9]. *)
Definition isdigit (c : ascii) : bool :=
  ((48 <=? ord c) && (ord c <=? 57))%nat.

(** [c.isupper()] for a single character.  Below code point 256 the
    upper-case letters are [A]..[Z], U+00C0..U+00D6 and U+00D8..U+00DE. *)
Definition isupper (c : ascii) : bool :=
  (((65 <=? ord c) && (ord c <=? 90))
   || ((192 <=? ord c) && (ord c <=? 214))
   || ((216 <=? ord c) && (ord c <=? 222)))%nat.

(** [c in chars] *)
Fixpoint mem (c : ascii) (chars : string) : bool :=
  match chars with
  | EmptyString => false
  | String x chars' => Ascii.eqb c x || mem c chars'
  end.

(** [''.join(c for c in s if p(c))] *)
Fixpoint filter (p : ascii -> bool) (s : string) : string :=
  match s with
  | EmptyString => EmptyString
  | String c s' => if p c then String c (filter p s') else filter p s'
  end.

Fixpoint forallb (p : ascii -> bool) (s : string) : bool :=
  match s with
  | EmptyString => true
  | String c s' => p c && forallb p s'
  end.

(** [s.split(sep)] for a one-character separator: never the empty list. *)
Fixpoint split (sep : ascii) (s : string) : list string :=
  match s with
  | EmptyString => [EmptyString]
  | String c s' =>
      if Ascii.eqb c sep then EmptyString :: split sep s'
      else match split sep s' with
           | piece :: pieces => String c piece :: pieces
           | [] => [String c EmptyString]
           end
  end.

(** [s.lstrip(chars)]: drops leading characters as long as they belong to
    the set [chars]. *)
Fixpoint lstrip (chars : string) (s : string) : string :=
  match s with
  | EmptyString => EmptyString
  | String c s' => if mem c chars then lstrip chars s' else s
  end.

(** [s.translate(table)] for a table given as a function: [Some t] replaces
    the character by the text [t], [None] leaves it (a table entry [None]
    of Python, which deletes, is [Some ""] here). *)
Fixpoint translate (table : ascii -> option string) (s : string) : string :=
  match s with
  | EmptyString => EmptyString
  | String c s' =>
      match table c with
      | Some t => (t ++ translate table s')%string
      | None => String c (translate table s')
      end
  end.

(** [s[:-n]] *)
Definition drop_last (n : nat) (s : string) : string :=
  substring 0 (length s - n) s.

(** The last character, if any. *)
Fixpoint last_char (s : string) : option ascii :=
  match s with
  | EmptyString => None
  | String c EmptyString => Some c
  | String _ s' => last_char s'
  end.

End Str.

(** ** A backtracking matcher for the regular expressions the program uses *)

Module Re.

Inductive regex : Type :=
| Class (p : ascii -> bool)        (* one character of a class *)
| Plus (p : ascii -> bool)         (* [c+], greedy, over a class *)
| Opt (r : regex)                  (* [r?], greedy *)
| Seq (r1 r2 : regex)
| Dollar.                          (* [$] *)

(** [$] without [re.MULTILINE] matches at the end of the text and just
    before a newline that is the last character of the text. *)
Definition at_end (s : string) : bool :=
  match s with
  | EmptyString => true
  | String c EmptyString => Ascii.eqb c Str.newline
  | _ => false
  end.

(** Greedy repetition: take as many characters as possible, and give one
    back at a time when the continuation fails. *)
Fixpoint plus_match (p : ascii -> bool) (s : string)
    (k : string -> option string) : option string :=
  match s with
  | EmptyString => None
  | String c s' =>
      if p c then
        match plus_match p s' k with
        | Some rest => Some rest
        | None => k s'
        end
      else None
  end.

(** [rmatch r s k]: match [r] at the start of [s], then [k] on what is
    left; the result is the text left after the whole match. *)
Fixpoint rmatch (r : regex) (s : string)
    (k : string -> option string) : option string :=
  match r with
  | Class p =>
      match s with
      | String c s' => if p c then k s' else None
      | EmptyString => None
      end
  | Plus p => plus_match p s k
  | Opt r1 =>
      match rmatch r1 s k with
      | Some rest => Some rest
      | None => k s
      end
  | Seq r1 r2 => rmatch r1 s (fun s1 => rmatch r2 s1 k)
  | Dollar => if at_end s then k s else None
  end.

(** [re.search(r, s)] followed by [.group()]: the first start position,
    from the left, at which [r] matches; the result is the matched text. *)
Fixpoint search (r : regex) (s : string) : option string :=
  match rmatch r s Some with
  | Some rest => Some (substring 0 (length s - length rest) s)
  | None =>
      match s with
      | EmptyString => None
      | String _ s' => search r s'
      end
  end.

End Re.

(** ** The acronym deriver *)

(** [r'\d+[abcdefgh]?$'] (line 136) *)
Definition year_re : Re.regex :=
  Re.Seq (Re.Plus Str.isdigit)
         (Re.Seq (Re.Opt (Re.Class (fun c => Str.mem c "abcdefgh"))) Re.Dollar).

(** [acronyms_from_ID], lines 130-149. *)
Definition acronyms_from_ID (id : string) : list string :=
  let id := last (Str.split ":" id) EmptyString in
  match Re.search year_re id with
  | None => []
  | Some year =>
      let initials := Str.filter Str.isupper id in
      if (2 <? length initials)%nat then [initials; (initials ++ year)%string]
      else if (length initials =? 2)%nat then [(initials ++ year)%string]
      else [id]
  end.


(** ** Python values, dictionaries and exceptions *)

(** The values the program stores in a formatted entry: text, and the flag
    [True] under the key ['ignore']. *)
Inductive pyval : Type :=
| PStr (s : string)
| PBool (b : bool).

(** Keys of a dictionary: a type with a decidable equality. *)
Class Hashable (K : Type) : Type := {
  key_eqb : K -> K -> bool;
  key_eqb_spec : forall x y, reflect (x = y) (key_eqb x y)
}.

#[export] Instance string_Hashable : Hashable string :=
  {| key_eqb := String.eqb; key_eqb_spec := String.eqb_spec |}.

Definition pyval_eqb (x y : pyval) : bool :=
  match x, y with
  | PStr a, PStr b => String.eqb a b
  | PBool a, PBool b => Bool.eqb a b
  | _, _ => false
  end.

#[export] Instance pyval_Hashable : Hashable pyval.
Proof.
  refine {| key_eqb := pyval_eqb |}.
  intros [a|a] [b|b]; simpl; try (constructor; discriminate).
  - destruct (String.eqb_spec a b); constructor; congruence.
  - destruct (Bool.eqb_spec a b); constructor; congruence.
Defined.

(** A [dict]: keys in insertion order, no key twice. *)
Module Dict.
Section Ops.
Context {K V : Type} `{Hashable K}.

Definition t : Type := list (K * V).

(** [d.get(k)] *)
Fixpoint get (k : K) (d : t) : option V :=
  match d with
  | [] => None
  | (k', v) :: d' => if key_eqb k k' then Some v else get k d'
  end.

(** [k in d] *)
Definition mem (k : K) (d : t) : bool :=
  match get k d with Some _ => true | None => false end.

(** [d[k] = v]: a key already present keeps its place, a new key goes
    last. *)
Fixpoint set (k : K) (v : V) (d : t) : t :=
  match d with
  | [] => [(k, v)]
  | (k', v') :: d' =>
      if key_eqb k k' then (k', v) :: d' else (k', v') :: set k v d'
  end.

(** [d.keys()] *)
Definition keys (d : t) : list K := map fst d.
End Ops.
Arguments t : clear implicits.
End Dict.

Inductive exn : Type :=
| KeyError (k : string)
| OSError (path : string)          (* a file or directory that cannot be opened *)
| PybtexError                      (* the bibliography does not parse *)
| StorageError                     (* the index store fails to commit *)
| ValueError                       (* the writer cannot take a value *)
| QueryError.                      (* the query does not parse *)

Inductive result (A : Type) : Type :=
| Ok (a : A)
| Raise (e : exn).
Arguments Ok {A} a.
Arguments Raise {A} e.

Definition rbind {A B : Type} (r : result A) (k : A -> result B) : result B :=
  match r with
  | Ok a => k a
  | Raise e => Raise e
  end.

(** A [for] loop whose body may raise: the first exception ends it. *)
Fixpoint for_each {A S : Type} (body : S -> A -> result S) (xs : list A) (s : S)
    : result S :=
  match xs with
  | [] => Ok s
  | x :: xs' => rbind (body s x) (for_each body xs')
  end.

(** ** Bibliography entries and documents *)

(** A person of [pybtex]: lists of name parts. *)
Record Person : Type := {
  first_names : list string;
  middle_names : list string;
  prelast_names : list string;
  last_names : list string
}.

(** An entry of the parsed bibliography: [entry.key], [entry.persons] (role
    to persons) and [entry.fields] (field name to raw text). *)
Record Entry : Type := {
  key : string;
  persons : Dict.t string (list Person);
  fields : Dict.t string string
}.

(** [cryptobib_db.entries.items()]: the bibliography maps each citation key to
    the entry that carries it. *)
Definition items (db : list Entry) : list (string * Entry) :=
  map (fun e => (key e, e)) db.

(** A formatted entry, and a document of the index: field name to value. *)
Abbreviation Document := (Dict.t string pyval).

(** [eprint_urls]: title to (note, citation key). *)
Abbreviation Urls := (Dict.t pyval (pyval * string)).

(** [formatted_entries]: citation key to formatted entry.  The entries are
    shared objects: the second loop changes them in place, so it is modelled
    on this store. *)
Abbreviation Formatted := (Dict.t string (Dict.t string pyval)).

Definition BIBTEX_FIELDS : list string := ["title"; "author"; "year"; "note"].
Definition SEARCHABLE_FIELDS : list string := ["title"; "author"; "year"; "acronyms"].
Definition ABBREV_DEFAULT : string := "abbrev3.bib".

(** ** The entry normalizer *)

(** The table of [translate]: a newline becomes a space, braces vanish. *)
Definition strip_table (c : ascii) : option string :=
  if Ascii.eqb c Str.newline then Some " "
  else if Ascii.eqb c "{" then Some ""
  else if Ascii.eqb c "}" then Some ""
  else None.

(** [str(v).translate({...}).lstrip('\\url')] *)
Definition clean_field (v : string) : string :=
  Str.lstrip "\url" (Str.translate strip_table v).

(** [' '.join(person.first_names + person.middle_names + person.prelast_names
    + person.last_names)] *)
Definition person_name (p : Person) : string :=
  String.concat " "
    (first_names p ++ middle_names p ++ prelast_names p ++ last_names p).

(** The value of [authors] after the loop over [entry.persons['author']]. *)
Definition authors_of (entry : Entry) : string :=
  match Dict.get "author" (persons entry) with
  | Some people =>
      fold_left (fun authors person => (authors ++ person_name person ++ ", ")%string)
                people ""
  | None => ""
  end.

(** The loop over [BIBTEX_FIELDS]. *)
Definition copy_fields (entry : Entry) (formatted_entry : Document) : Document :=
  fold_left
    (fun fe k =>
       match Dict.get k (fields entry) with
       | Some v => Dict.set k (PStr (clean_field v)) fe
       | None => fe
       end)
    BIBTEX_FIELDS formatted_entry.

Section Format.
(** [BibliographyData({ID: entry}).to_string('bibtex')], of [pybtex]. *)
Variable to_bibtex : string -> Entry -> string.
(** Whether the engine can make a number of a text: the conversion of its
    [NUMERIC] field type. *)
Variable numeric_ok : string -> bool.

(** The body of the first loop up to [formatted_entries[ID] = ...]
    (lines 94-110): the formatted entry of [entry]. *)
Definition format_entry (ID : string) (entry : Entry) : Document :=
  let fe := [("ID", PStr (key entry))] in
  let fe := Dict.set "bibtex" (PStr (to_bibtex ID entry)) fe in
  let fe := Dict.set "author" (PStr (Str.drop_last 2 (authors_of entry))) fe in
  let fe := copy_fields entry fe in
  Dict.set "acronyms" (PStr (String.concat "," (acronyms_from_ID ID))) fe.

(** ** The duplicate merger *)

(** One round of the first loop (lines 93-114). *)
Definition format_step (st : Urls * Formatted) (item : string * Entry)
    : result (Urls * Formatted) :=
  let '(eprint_urls, formatted_entries) := st in
  let '(ID, entry) := item in
  let formatted_entry := format_entry ID entry in
  let formatted_entries := Dict.set ID formatted_entry formatted_entries in
  if prefix "EPRINT" ID && Dict.mem "title" (fields entry) then
    match Dict.get "note" formatted_entry with
    | None => Raise (KeyError "note")
    | Some url =>
        match Dict.get "title" formatted_entry with
        | None => Raise (KeyError "title")
        | Some title =>
            Ok (Dict.set title (url, ID) eprint_urls, formatted_entries)
        end
    end
  else Ok (eprint_urls, formatted_entries).

(** [writer.add_document] on the fields of [entry], line 126, with the schema of [get_schema]
    (lines 63-72): [year] is the one field that is not a text field; the
    writer makes a number of its text and raises [ValueError] when it cannot.
    [written] is what the writer has taken so far. *)
Definition add_document (entry : Document) (written : list Document)
    : result (list Document) :=
  match Dict.get "year" entry with
  | Some (PStr year) =>
      if numeric_ok year then Ok (written ++ [entry]) else Raise ValueError
  | _ => Ok (written ++ [entry])
  end.

(** One round of the second loop (lines 116-126), on the key [ID]; [written] is what
    [writer.add_document] has received so far.  The entry is read from the
    store, and read again after the assignments, since [entry] and
    [formatted_entries[ID]] are one object. *)
Definition merge_step (eprint_urls : Urls) (st : Formatted * list Document)
    (ID : string) : result (Formatted * list Document) :=
  let '(formatted_entries, written) := st in
  rbind
    (match Dict.get ID formatted_entries with
     | None => Raise (KeyError ID)
     | Some entry =>
         if negb (prefix "EPRINT" ID) && Dict.mem "title" entry then
           match Dict.get "title" entry with
           | None => Raise (KeyError "title")
           | Some title =>
               match Dict.get title eprint_urls with
               | None => Ok formatted_entries
               | Some (url, eprint_ID) =>
                   let fes := Dict.set ID (Dict.set "note" url entry)
                                       formatted_entries in
                   match Dict.get eprint_ID fes with
                   | None => Raise (KeyError eprint_ID)
                   | Some eprint =>
                       Ok (Dict.set eprint_ID
                             (Dict.set "ignore" (PBool true) eprint) fes)
                   end
               end
           end
         else Ok formatted_entries
     end)
    (fun formatted_entries =>
       match Dict.get ID formatted_entries with
       | None => Raise (KeyError ID)
       | Some entry =>
           if Dict.mem "ignore" entry then Ok (formatted_entries, written)
           else rbind (add_document entry written)
                      (fun written => Ok (formatted_entries, written))
       end).

(** Both loops of [create_index]: from the parsed bibliography to the
    documents handed to the writer, in order. *)
Definition build_documents (db : list Entry) : result (list Document) :=
  rbind (for_each format_step (items db) ([], []))
    (fun '(eprint_urls, formatted_entries) =>
       rbind (for_each (merge_step eprint_urls) (Dict.keys formatted_entries)
                       (formatted_entries, []))
         (fun '(_, written) => Ok written)).
End Format.

(** ** The index store and the outside world *)

(** What a directory holds: nothing usable, or an index (the documents a
    search sees). *)
Inductive dir_state : Type :=
| Missing
| Directory (index : option (list Document)).

Definition Storage : Type := string -> dir_state.

Definition store (st : Storage) (dir : string) (d : dir_state) : Storage :=
  fun dir' => if String.eqb dir' dir then d else st dir'.

(** The documents a search-only run finds at [dir]: [index.open_dir]. *)
Definition open_dir (st : Storage) (dir : string) : result (list Document) :=
  match st dir with
  | Directory (Some docs) => Ok docs
  | _ => Raise (OSError dir)
  end.

(** The collaborators of [create_index] that are not part of the program:
    path arithmetic, the file system, the parser and serializer of [pybtex],
    and whether the store manages to commit. *)
Record World : Type := {
  path_dirname : string -> string;
  path_join : string -> string -> string;
  read_file : string -> option string;
  parse_file : string -> option (list Entry);
  to_bibtex : string -> Entry -> string;
  numeric_ok : string -> bool;
  commit_ok : list Document -> bool
}.

(** Code that changes the store and may raise: an exception keeps the changes
    made before it. *)
Definition M (A : Type) : Type := Storage -> result A * Storage.

Definition ret {A : Type} (a : A) : M A := fun st => (Ok a, st).

Definition bind {A B : Type} (m : M A) (k : A -> M B) : M B :=
  fun st =>
    match m st with
    | (Ok a, st') => k a st'
    | (Raise e, st') => (Raise e, st')
    end.

Definition lift {A : Type} (r : result A) : M A := fun st => (r, st).

Notation "x <- m ;; k" := (bind m (fun x => k))
  (at level 61, m at next level, right associativity).

(** Modelled from the spec: the store's [create] (section 4.4, creating an
    index at a location that already holds one replaces it entirely); the
    directory must exist.  The result is the handle of the new, empty index. *)
Definition create_in (indexdir : string) : M string :=
  fun st =>
    match st indexdir with
    | Missing => (Raise (OSError indexdir), st)
    | Directory _ => (Ok indexdir, store st indexdir (Directory (Some [])))
    end.

(** The stored fields of a document as the index gives them back in a hit:
    the writer takes the fields of a document in the order of their names. *)
Fixpoint insert_field (kv : string * pyval) (d : Document) : Document :=
  match d with
  | [] => [kv]
  | kv' :: d' =>
      if String.leb (fst kv) (fst kv') then kv :: d else kv' :: insert_field kv d'
  end.

Definition stored_fields (d : Document) : Document :=
  fold_right insert_field [] d.

(** Modelled from the spec: the store's [commit] (sections 4.4 and 5, one
    all-or-nothing batch write): the documents become searchable together, or
    the commit raises and changes nothing.  What is searchable of a document
    is its stored fields. *)
Definition commit (w : World) (idx : string) (written : list Document) : M unit :=
  fun st =>
    if commit_ok w written
    then (Ok tt, store st idx (Directory (Some (map stored_fields written))))
    else (Raise StorageError, st).

(** [open(path).read()] *)
Definition open_read (w : World) (path : string) : M string :=
  lift (match read_file w path with
        | Some text => Ok text
        | None => Raise (OSError path)
        end).

(** [bibtex.Parser().parse_file('tmp.bib')] on the text written there. *)
Definition parse (w : World) (text : string) : M (list Entry) :=
  lift (match parse_file w text with
        | Some db => Ok db
        | None => Raise PybtexError
        end).

(** [create_index], lines 74-128.  The log messages and the temporary file
    (written, parsed, removed) leave no trace in the model: the parser gets the
    text written there. *)
Definition create_index (w : World) (cryptobib indexdir : string) : M string :=
  let abbrevbib := path_join w (path_dirname w cryptobib) ABBREV_DEFAULT in
  idx <- create_in indexdir ;;
  f1 <- open_read w abbrevbib ;;
  f2 <- open_read w cryptobib ;;
  cryptobib_db <- parse w (f1 ++ String Str.newline f2)%string ;;
  written <- lift (build_documents (to_bibtex w) (numeric_ok w) cryptobib_db) ;;
  _ <- commit w idx written ;;
  ret idx.

(** ** The query engine *)

(** A parsed query: a term, bare or restricted to a field, and the boolean
    operators. *)
Inductive Query : Type :=
| Term (field : option string) (text : string)
| And (q1 q2 : Query)
| Or (q1 q2 : Query).

(** The parts of the engine the program relies on and does not define: the
    query grammar, the analysis that says whether a term occurs in the text
    of a field, the relevance score, the number a sortable field holds, and
    the spans of a stored text that match a query. *)
Record Engine : Type := {
  parse_query : string -> option Query;
  term_in : string -> string -> string -> bool;
  score : Query -> Document -> Z;
  sortable : string -> Document -> Z;
  spans : Query -> string -> string -> list (bool * string)
}.

Section Search.
Variable eng : Engine.

(** The term [text] occurs in the field [f] of [doc]. *)
Definition field_has (f text : string) (doc : Document) : bool :=
  match Dict.get f doc with
  | Some (PStr v) => term_in eng f text v
  | _ => false
  end.

(** Modelled from the spec: the multi-field query of section 4.5: a bare term
    is looked for in each field of the scope, a field-scoped term in its field
    only. *)
Fixpoint matches (scope : list string) (q : Query) (doc : Document) : bool :=
  match q with
  | Term None text => existsb (fun f => field_has f text doc) scope
  | Term (Some f) text => field_has f text doc
  | And q1 q2 => matches scope q1 doc && matches scope q2 doc
  | Or q1 q2 => matches scope q1 doc || matches scope q2 doc
  end.

(** Modelled from the spec: the ranking of section 4.5: by the sort field,
    descending when [reverse], ties by descending relevance score. *)
Definition ranks_before (q : Query) (sortedby : string) (reverse : bool)
    (a b : Document) : bool :=
  let ka := sortable eng sortedby a in
  let kb := sortable eng sortedby b in
  ((if reverse then kb <? ka else ka <? kb)
   || ((ka =? kb) && (score eng q b <=? score eng q a)))%Z.

Fixpoint insert_ranked (before : Document -> Document -> bool) (d : Document)
    (ranked : list Document) : list Document :=
  match ranked with
  | [] => [d]
  | d' :: ranked' =>
      if before d d' then d :: ranked
      else d' :: insert_ranked before d ranked'
  end.

(** A stable sort: documents that rank alike keep the order of the index. *)
Fixpoint rank (before : Document -> Document -> bool) (docs : list Document)
    : list Document :=
  match docs with
  | [] => []
  | d :: docs' => insert_ranked before d (rank before docs')
  end.

(** Modelled from the spec: the store's [search] (sections 4.5 and 6): the
    matching documents, ranked, cut at the limit. *)
Definition search (idx : list Document) (scope : list string) (q : Query)
    (limit : nat) (sortedby : string) (reverse : bool) : list Document :=
  firstn limit (rank (ranks_before q sortedby reverse) (filter (matches scope q) idx)).

(** The [results] of [search_index]: the query is parsed against
    [SEARCHABLE_FIELDS] and run with [sortedby='year', reverse=True]. *)
Definition search_results (idx : list Document) (query : string) (searchlimit : nat)
    : result (list Document) :=
  match parse_query eng query with
  | None => Raise QueryError
  | Some q => Ok (search idx SEARCHABLE_FIELDS q searchlimit "year" true)
  end.

(** ** The result renderer *)

(** [MyFormatter.format_token] *)
Definition format_token (ttext : string) : string := ("|<" ++ ttext ++ "|")%string.

(** [hit.highlights(field, minscore=0)] with the whole text as one fragment:
    the text, each matched span formatted by [format_token]. *)
Definition highlights (q : Query) (field text : string) : string :=
  String.concat ""
    (map (fun span : bool * string =>
            let (matched, t) := span in if matched then format_token t else t)
         (spans eng q field text)).

Section Render.
(** [sys.stdout.isatty()] and [wrapper.fill] of [textwrap]. *)
Variable isatty : bool.
Variable fill : string -> string.

Definition esc : ascii := "027"%char.

Definition highlight_str (s : string) (color bold : bool) : string :=
  if isatty then
    let attr := (if color then ["32"] else []) ++ (if bold then ["1"] else []) in
    (String esc "[" ++ String.concat ";" attr ++ "m" ++ s ++ String esc "[0m")%string
  else s.

(** The loop over the tokens of a highlighted text. *)
Definition colour_tokens (tokens : list string) : string :=
  fold_left
    (fun output token =>
       if prefix "<" token
       then (output ++ highlight_str (substring 1 (length token - 1) token) true false)%string
       else (output ++ token)%string)
    tokens "".

(** One round of the loop over [hit.fields()] (lines 184-198), on the field
    [field]. *)
Definition render_field (q : Query) (hit : Document) (all_output : list string)
    (field : string) : result (list string) :=
  if String.eqb field "ID" || String.eqb field "bibtex" then Ok all_output
  else
    match Dict.get field hit with
    | Some (PStr text) =>
        let tokens := Str.split "|" (highlights q field text) in
        let output := colour_tokens tokens in
        let output :=
          if negb (String.eqb field (last (Dict.keys hit) ""))
          then (output ++ ",")%string else output in
        Ok (all_output ++ [fill output])
    | _ => Raise (KeyError field)
    end.

Definition get_str (k : string) (hit : Document) : result string :=
  match Dict.get k hit with
  | Some (PStr s) => Ok s
  | _ => Raise (KeyError k)
  end.

(** The body of the loop over [results] (lines 183-200).  The stored fields
    of a hit are taken in the order of the document given; in which order an
    engine returns them is its own matter. *)
Definition render_hit (q : Query) (outputbibtex : bool) (all_output : list string)
    (hit : Document) : result (list string) :=
  rbind (get_str "ID" hit) (fun id =>
  let all_output := all_output ++ [highlight_str (String Str.newline id) false true] in
  rbind (for_each (render_field q hit) (Dict.keys hit) all_output) (fun all_output =>
  if outputbibtex
  then rbind (get_str "bibtex" hit) (fun b => Ok (all_output ++ [b]))
  else Ok all_output)).

(** [search_index], lines 168-203: the text handed to the pager (the line
    printed before it is not modelled). *)
Definition search_index (idx : list Document) (query : string) (searchlimit : nat)
    (outputbibtex : bool) : result string :=
  match parse_query eng query with
  | None => Raise QueryError
  | Some q =>
      let results := search idx SEARCHABLE_FIELDS q searchlimit "year" true in
      rbind (for_each (render_hit q outputbibtex) results [])
            (fun all_output => Ok (String.concat (String Str.newline "") all_output))
  end.
End Render.
End Search.

(** ** The schema and the command line *)

(** The field types of the engine, with the options the program sets. *)
Inductive field_type : Type :=
| ID_field                                    (* [ID(stored=True)] *)
| TEXT_field                                  (* [TEXT(stored=True)] *)
| NUMERIC_field (sortable_column : bool)      (* [NUMERIC(stored=True, sortable=...)] *)
| KEYWORD_field (commas lowercase : bool).    (* [KEYWORD(stored=True, commas=..., lowercase=...)] *)

(** [get_schema], lines 63-72: field name to field type; every field is
    stored. *)
Definition get_schema : list (string * field_type) :=
  [("ID", ID_field);
   ("title", TEXT_field);
   ("author", TEXT_field);
   ("year", NUMERIC_field true);
   ("note", ID_field);
   ("bibtex", TEXT_field);
   ("acronyms", KEYWORD_field true true)].

(** The names of the fields of the schema. *)
Definition schema_names : list string := map fst get_schema.

(** The options of the command line after [parser.parse_args()]:
    [options.limit] is given by the value of [int(options.limit)], [None]
    when the conversion raises. *)
Record Options : Type := {
  opt_cryptobib : string;
  opt_indexdir : string;
  opt_update : bool;
  opt_bibtex : bool;
  opt_limit : option nat
}.

(** How a run of [main] ends. *)
Inductive outcome : Type :=
| Help                       (* [parser.print_help()], then return *)
| Finished                   (* the index was built, nothing was asked *)
| Paged (text : string)      (* the text handed to the pager *)
| Failed (e : exn)           (* an exception of the program or its libraries *)
| BadLimit.                  (* [int(options.limit)] raised *)

(** [os.path.exists(path)] for a directory of the store. *)
Definition path_exists (st : Storage) (path : string) : bool :=
  match st path with
  | Missing => false
  | Directory _ => true
  end.

(** [os.mkdir(path)]: the directory is there, with no index in it. *)
Definition mkdir (st : Storage) (path : string) : Storage :=
  store st path (Directory None).

Section Main.
Variable w : World.
Variable eng : Engine.
Variable isatty : bool.
Variable fill : string -> string.

(** The index object of lines 230-235: built anew, or opened; the documents
    a search on it sees, which are what the store holds at the directory:
    after a build, the stored fields of the documents written. *)
Definition obtain_index (options : Options) (st : Storage)
    : result (list Document) * Storage :=
  if negb (path_exists st (opt_indexdir options)) || opt_update options then
    let st := if negb (path_exists st (opt_indexdir options))
              then mkdir st (opt_indexdir options) else st in
    match create_index w (opt_cryptobib options) (opt_indexdir options) st with
    | (Ok idx, st') => (open_dir st' idx, st')
    | (Raise e, st') => (Raise e, st')
    end
  else (open_dir st (opt_indexdir options), st).

(** [main], lines 205-238, after the options are parsed. *)
Definition main (options : Options) (args : list string) (st : Storage)
    : outcome * Storage :=
  if (List.length args <? 1)%nat && negb (opt_update options) then (Help, st)
  else
    match obtain_index options st with
    | (Raise e, st') => (Failed e, st')
    | (Ok idx, st') =>
        let query := String.concat " " args in
        if (1 <=? List.length args)%nat then
          match opt_limit options with
          | None => (BadLimit, st')
          | Some searchlimit =>
              match search_index eng isatty fill idx query searchlimit
                      (opt_bibtex options) with
              | Ok text => (Paged text, st')
              | Raise e => (Failed e, st')
              end
          end
        else (Finished, st')
    end.
End Main.

(** ** The vocabulary of the specification

    The notions the specification uses to say what the program does; they
    follow its words, not the code. *)

(** The letters that may follow the digits of a year. *)
Definition is_letter (c : ascii) : bool := Str.mem c "abcdefgh".

(** Nothing, or one letter [a]..[h]. *)
Definition letter_opt (l : string) : Prop :=
  l = "" \/ exists c, l = String c "" /\ is_letter c = true.

(** A run of digits, then nothing or one letter [a]..[h]. *)
Definition year_shape (y : string) : Prop :=
  exists d l, y = (d ++ l)%string /\ d <> "" /\ Str.forallb Str.isdigit d = true
              /\ letter_opt l.

(** [p] does not end in a digit: a run of digits that follows [p] is whole. *)
Definition no_digit_end (p : string) : Prop :=
  forall c, Str.last_char p = Some c -> Str.isdigit c = false.

(** [rest] is what is left of [key] once everything up to and including its
    last [:] is discarded (the whole key when it has none). *)
Definition after_last_colon (key rest : string) : Prop :=
  Str.mem ":" rest = false
  /\ (key = rest \/ exists p, key = (p ++ String ":" rest)%string).

(** [y] is the year suffix of [rest]: the trailing run of digits, optionally
    followed by one letter [a]..[h], that ends [rest]. *)
Definition year_suffix (rest y : string) : Prop :=
  exists p, rest = (p ++ y)%string /\ year_shape y /\ no_digit_end p.

(** The cleaning of a field: each newline becomes one space, every brace is
    deleted. *)
Definition is_brace (c : ascii) : bool := Ascii.eqb c "{" || Ascii.eqb c "}".

Fixpoint newlines_to_spaces (s : string) : string :=
  match s with
  | EmptyString => EmptyString
  | String c s' =>
      String (if Ascii.eqb c Str.newline then " "%char else c) (newlines_to_spaces s')
  end.

Definition unbraced (v : string) : string :=
  newlines_to_spaces (Str.filter (fun c => negb (is_brace c)) v).

(** Neither a newline nor a brace. *)
Definition plain (c : ascii) : bool :=
  negb (Ascii.eqb c Str.newline) && negb (is_brace c).

(** A preprint entry with a title and no note. *)
Definition noteless_preprint (e : Entry) : Prop :=
  prefix "EPRINT" (key e) = true
  /\ Dict.mem "title" (fields e) = true
  /\ Dict.mem "note" (fields e) = false.

(** [a] ranks before [b]: a later year, or the same year and a score at
    least as high. *)
Definition ranks_first (eng : Engine) (q : Query) (a b : Document) : Prop :=
  (sortable eng "year" b < sortable eng "year" a
   \/ (sortable eng "year" a = sortable eng "year" b
       /\ score eng q b <= score eng q a))%Z.

(** The matching documents of the index, ranked. *)
Definition ranking (eng : Engine) (idx : list Document) (q : Query) : list Document :=
  rank (ranks_before eng q "year" true) (filter (matches eng SEARCHABLE_FIELDS q) idx).

(** A field that gets a line of its own: every field but [ID] and [bibtex]. *)
Definition displayed (field : string) : bool :=
  negb (String.eqb field "ID" || String.eqb field "bibtex").

(** The text ends in a comma. *)
Definition comma_terminated (line : string) : bool :=
  match Str.last_char line with
  | Some c => Ascii.eqb c ","
  | None => false
  end.

(** The highlighted text of a field, before the comma and the wrapping. *)
Definition field_body (eng : Engine) (isatty : bool) (q : Query) (hit : Document)
    (field : string) : string :=
  match Dict.get field hit with
  | Some (PStr text) =>
      colour_tokens isatty (Str.split "|" (highlights eng q field text))
  | _ => ""
  end.

(** The line of a field: a comma is appended unless the field is the last
    key of the hit. *)
Definition field_line (eng : Engine) (isatty : bool) (fill : string -> string)
    (q : Query) (hit : Document) (field : string) : string :=
  fill (field_body eng isatty q hit field
        ++ (if String.eqb field (last (Dict.keys hit) "") then "" else ","))%string.

(** ** Auxiliary functions of the proofs *)

(** What follows the digits in [year_re]. *)
Definition tail_k (s : string) : option string :=
  Re.rmatch (Re.Seq (Re.Opt (Re.Class is_letter)) Re.Dollar) s Some.

(** One attempt of the search, at the start of [s]. *)
Definition try_at (s : string) : option string := Re.rmatch year_re s Some.

(** Dropping the leading digits of a text. *)
Fixpoint drop_digits (s : string) : string :=
  match s with
  | EmptyString => EmptyString
  | String c s' => if Str.isdigit c then drop_digits s' else s
  end.

Definition no_digit (s : string) : bool :=
  Str.forallb (fun c => negb (Str.isdigit c)) s.

(** ** Notions for the properties of the whole build *)

(** A field of the schema that holds a text. *)
Definition schema_text (kv : string * pyval) : Prop :=
  In (fst kv) schema_names /\ exists s, snd kv = PStr s.

(** A document the writer can take under the key [k]: its [ID] is [k], each
    of its fields is a field of the schema and holds a text, and it has its
    [bibtex] text. *)
Definition indexable (k : string) (d : Document) : Prop :=
  Dict.get "ID" d = Some (PStr k)
  /\ Forall schema_text d
  /\ Dict.mem "bibtex" d = true.

(** [f] is the formatted entry of an entry of [db] with the key [k]. *)
Definition formatted_in (to_bibtex : string -> Entry -> string) (db : list Entry)
    (k : string) (f : Document) : Prop :=
  exists e, In e db /\ key e = k /\ f = format_entry to_bibtex k e.

(** [d] is [f] up to what the merger may do to the entry of key [k]: set the
    flag, and, for a published entry, set the note. *)
Definition merged_from (k : string) (f d : Document) : Prop :=
  forall field,
    field <> "ignore" ->
    (field = "note" -> prefix "EPRINT" k = true) ->
    Dict.get field d = Dict.get field f.

(** The writer takes the document: it has no year, or its year is a number
    for the engine. *)
Definition taken (numeric_ok : string -> bool) (d : Document) : bool :=
  match Dict.get "year" d with
  | Some (PStr year) => numeric_ok year
  | _ => true
  end.

(** The same of an entry of the bibliography, whose year is cleaned before it
    reaches the writer. *)
Definition year_taken (numeric_ok : string -> bool) (e : Entry) : bool :=
  match Dict.get "year" (fields e) with
  | Some year => numeric_ok (clean_field year)
  | None => true
  end.

(** The decision of [noteless_preprint]. *)
Definition noteless_preprintb (e : Entry) : bool :=
  prefix "EPRINT" (key e) && Dict.mem "title" (fields e)
  && negb (Dict.mem "note" (fields e)).

Section Emitted.
Variable to_bibtex : string -> Entry -> string.
Variable db : list Entry.

(** A document written for the key [k]: indexable, not flagged, and the
    formatted entry of an entry of the bibliography but for the note of a
    published entry. *)
Definition written_for (k : string) (d : Document) : Prop :=
  indexable k d
  /\ Dict.mem "ignore" d = false
  /\ exists f, formatted_in to_bibtex db k f /\ merged_from k f d.

(** What holds of every entry of the store of formatted entries, under its
    key [k], all along both loops. *)
Definition entry_ok (k : string) (d : Document) : Prop :=
  Dict.get "ID" d = Some (PStr k)
  /\ Forall (fun kv => schema_text kv \/ kv = ("ignore", PBool true)) d
  /\ Dict.mem "bibtex" d = true
  /\ (prefix "EPRINT" k = false -> Dict.mem "ignore" d = false)
  /\ exists f, formatted_in to_bibtex db k f /\ merged_from k f d.

Definition store_ok (fes : Formatted) : Prop :=
  forall k d, In (k, d) fes -> entry_ok k d.

(** What holds of [eprint_urls]: its notes are texts, its keys are keys of
    preprints that are in the store. *)
Definition urls_ok (fes : Formatted) (urls : Urls) : Prop :=
  forall title url id,
    In (title, (url, id)) urls ->
    prefix "EPRINT" id = true
    /\ Dict.get id fes <> None
    /\ exists s, url = PStr s.

(** [emitted ks docs]: the documents [docs] are written for keys of [ks], in
    the order of [ks]; a key without document is the key of a preprint. *)
Inductive emitted : list string -> list Document -> Prop :=
| emitted_nil : emitted [] []
| emitted_doc (k : string) (d : Document) (ks : list string) (docs : list Document) :
    written_for k d -> emitted ks docs -> emitted (k :: ks) (d :: docs)
| emitted_skip (k : string) (ks : list string) (docs : list Document) :
    prefix "EPRINT" k = true -> emitted ks docs -> emitted (k :: ks) docs.
End Emitted.

(** ** The acronyms and the authors *)

(** The remainder of a key, the text after its last colon. *)
Definition remainder (key : string) : string := last (Str.split ":" key) "".

(** The names, each followed by the separator of the loop. *)
Fixpoint with_trailing (names : list string) : string :=
  match names with
  | [] => ""
  | name :: names' => (name ++ ", " ++ with_trailing names')%string
  end.

(** ** The highlighted spans *)

(** What the token loop of [search_index] makes of one token. *)
Definition paint (isatty : bool) (token : string) : string :=
  if prefix "<" token
  then highlight_str isatty (substring 1 (length token - 1) token) true false
  else token.

(** A span the markers of [format_token] can carry: its text holds no [|],
    and an unmatched text does not begin with [<]. *)
Definition markable (span : bool * string) : Prop :=
  Str.mem "|" (snd span) = false
  /\ (fst span = false -> prefix "<" (snd span) = false).

(** A span as it should be shown: a matched text in colour, an unmatched
    text as it is. *)
Definition shown (isatty : bool) (span : bool * string) : string :=
  if fst span then highlight_str isatty (snd span) true false else snd span.

(** ** The build, written without a store *)

(** A preprint entry records its note under its cleaned title. *)
Definition record_title (urls : Urls) (e : Entry) : Urls :=
  if prefix "EPRINT" (key e) then
    match Dict.get "title" (fields e), Dict.get "note" (fields e) with
    | Some t, Some n =>
        Dict.set (PStr (clean_field t)) (PStr (clean_field n), key e) urls
    | _, _ => urls
    end
  else urls.

(** The notes of the preprints by title: a later preprint of the same title
    takes the place of an earlier one. *)
Definition preprint_titles (db : list Entry) : Urls :=
  fold_left record_title db [].

(** The preprint whose note a formatted entry takes, if any. *)
Definition merge_target (urls : Urls) (f : Document) : option (pyval * string) :=
  match Dict.get "title" f with
  | Some title => Dict.get title urls
  | None => None
  end.

Section Merged.
Variable to_bibtex : string -> Entry -> string.

(** The documents of the entries [db], in order, given the titles [urls] of
    the preprints and the keys [flagged] of the preprints that published
    entries have pointed at so far: a published entry gives its formatted
    entry, with the note of the preprint of its title if there is one; a
    preprint gives its formatted entry unless it is flagged. *)
Fixpoint merged_documents (urls : Urls) (flagged : list string) (db : list Entry)
    : list Document :=
  match db with
  | [] => []
  | e :: db' =>
      let f := format_entry to_bibtex (key e) e in
      if prefix "EPRINT" (key e) then
        if existsb (String.eqb (key e)) flagged
        then merged_documents urls flagged db'
        else f :: merged_documents urls flagged db'
      else
        match merge_target urls f with
        | Some (url, eprint_ID) =>
            Dict.set "note" url f :: merged_documents urls (eprint_ID :: flagged) db'
        | None => f :: merged_documents urls flagged db'
        end
  end.

(** The store of the formatted entries of [db], in order. *)
Definition formatted_store (db : list Entry) : Formatted :=
  map (fun e => (key e, format_entry to_bibtex (key e) e)) db.

(** The published entry [p] takes the note of the preprint [e]. *)
Definition points_at (urls : Urls) (e p : Entry) : bool :=
  negb (prefix "EPRINT" (key p))
  && match merge_target urls (format_entry to_bibtex (key p) p) with
     | Some (_, eprint_ID) => String.eqb eprint_ID (key e)
     | None => false
     end.

(** The entry of a preprint in the store, flagged or not. *)
Definition flagged_form (flagged : list string) (e : Entry) : Document :=
  if existsb (String.eqb (key e)) flagged
  then Dict.set "ignore" (PBool true) (format_entry to_bibtex (key e) e)
  else format_entry to_bibtex (key e) e.
End Merged.

(** ** Concrete collaborators, to run the model on given inputs *)

(** An engine's conversion that takes the texts made of digits. *)
Definition digits (text : string) : bool :=
  negb (String.eqb text "") && Str.forallb Str.isdigit text.

(** A serializer that writes the entry type and the key only. *)
Definition plain_bibtex (ID : string) (entry : Entry) : string :=
  ("@misc{" ++ ID ++ "}")%string.

(** A world where every file is there and empty, the parser answers [db],
    and the store commits. *)
Definition world_of (db : list Entry) : World :=
  {| path_dirname := fun path => path;
     path_join := fun a b => (a ++ "/" ++ b)%string;
     read_file := fun _ => Some "";
     parse_file := fun _ => Some db;
     to_bibtex := plain_bibtex;
     numeric_ok := digits;
     commit_ok := fun _ => true |}.

(** A store where every directory exists and holds no index yet. *)
Definition empty_storage : Storage := fun _ => Directory None.

(** An entry without persons. *)
Definition entry_of (k : string) (fs : list (string * string)) : Entry :=
  {| key := k; persons := []; fields := fs |}.

(** The [ID] values of a list of documents. *)
Definition ids (docs : list Document) : list (option pyval) :=
  map (Dict.get "ID") docs.


(** The entries of the duplicate-merge examples: a published entry and two
    preprints of the same title. *)
Definition c_foo : Entry := entry_of "C:Foo" [("title", "X")].
Definition eprint_foo : Entry := entry_of "EPRINT:Foo" [("title", "X"); ("note", "N")].
Definition eprint_foo2 : Entry := entry_of "EPRINT:Foo2" [("title", "X"); ("note", "N2")].

(** A preprint with a title and no note. *)
Definition eprint_bare : Entry := entry_of "EPRINT:Bar" [("title", "Y")].

(** A store where every directory exists and holds the index [docs]. *)
Definition storage_with (docs : list Document) : Storage :=
  fun _ => Directory (Some docs).

(** A world whose bibliography does not parse. *)
Definition unparsable_world : World :=
  {| path_dirname := fun path => path;
     path_join := fun a b => (a ++ "/" ++ b)%string;
     read_file := fun _ => Some "";
     parse_file := fun _ => None;
     to_bibtex := plain_bibtex;
     numeric_ok := digits;
     commit_ok := fun _ => true |}.

(** A document of an index built before. *)
Definition prior_document : Document :=
  [("ID", PStr "C:Old"); ("title", PStr "Old")].

(** A small engine: a query is one bare term; a term occurs in a text when
    it is one of the words of the text (cut at spaces and commas), letter case
    apart; every score is 0; a sortable field holds the number its text
    starts with; nothing is highlighted. *)
Definition lower_char (c : ascii) : ascii :=
  if ((65 <=? Str.ord c) && (Str.ord c <=? 90))%nat
  then ascii_of_nat (Str.ord c + 32) else c.

Fixpoint lower (s : string) : string :=
  match s with
  | EmptyString => EmptyString
  | String c s' => String (lower_char c) (lower s')
  end.

Fixpoint commas_to_spaces (s : string) : string :=
  match s with
  | EmptyString => EmptyString
  | String c s' =>
      String (if Ascii.eqb c "," then " "%char else c) (commas_to_spaces s')
  end.

Definition words (s : string) : list string :=
  filter (fun w => negb (String.eqb w "")) (Str.split " " (commas_to_spaces s)).

Fixpoint leading_number (acc : Z) (s : string) : Z :=
  match s with
  | EmptyString => acc
  | String c s' =>
      if Str.isdigit c
      then leading_number (10 * acc + Z.of_nat (Str.ord c - 48)) s'
      else acc
  end.

Definition word_engine : Engine :=
  {| parse_query := fun query => Some (Term None query);
     term_in := fun _ term text =>
                  existsb (String.eqb (lower term)) (words (lower text));
     score := fun _ _ => 0%Z;
     sortable := fun f doc =>
                   match Dict.get f doc with
                   | Some (PStr v) => leading_number 0 v
                   | _ => 0%Z
                   end;
     spans := fun _ _ text => [(false, text)] |}.

(** The same engine with highlighting: the first word of a text is a matched
    span when the query is that word, letter case apart. *)
Fixpoint first_word (s : string) : string * string :=
  match s with
  | EmptyString => (EmptyString, EmptyString)
  | String c s' =>
      if Ascii.eqb c " " then (EmptyString, s)
      else let (w, rest) := first_word s' in (String c w, rest)
  end.

Definition marking_engine : Engine :=
  {| parse_query := parse_query word_engine;
     term_in := term_in word_engine;
     score := score word_engine;
     sortable := sortable word_engine;
     spans := fun q _ text =>
                match q with
                | Term _ term =>
                    let (w, rest) := first_word text in
                    if String.eqb (lower w) (lower term)
                    then [(true, w); (false, rest)]
                    else [(false, text)]
                | _ => [(false, text)]
                end |}.

(** [wrapper.fill] on a text that fits one line: the indent, then the text. *)
Definition fill_line (output : string) : string :=
  if String.eqb output "" then "" else ("        " ++ output)%string.

(** Three documents of the years 2020, 2015 and 2023, with the word [zk] in
    their titles. *)
Definition doc_2020 : Document :=
  [("ID", PStr "C:A20"); ("title", PStr "zk one"); ("year", PStr "2020")].
Definition doc_2015 : Document :=
  [("ID", PStr "C:B15"); ("title", PStr "zk two"); ("year", PStr "2015")].
Definition doc_2023 : Document :=
  [("ID", PStr "C:C23"); ("title", PStr "zk three"); ("year", PStr "2023")].

(** An entry with no author, no field, and a key without digits. *)
Definition bare_entry : Entry := entry_of "NoDigitsHere" [].

(** An entry whose key is its own acronym. *)
Definition groth16 : Entry :=
  entry_of "Groth16" [("title", "On the Size of Pairing-Based Arguments");
                      ("year", "2016")].

(** An entry with two authors. *)
Definition two_authors : Entry :=
  {| key := "C:BonFra01";
     persons :=
       [("author",
         [{| first_names := ["Dan"]; middle_names := []; prelast_names := [];
             last_names := ["Boneh"] |};
          {| first_names := ["Matthew"]; middle_names := ["K."];
             prelast_names := []; last_names := ["Franklin"] |}])];
     fields := [("title", "Identity-Based Encryption from the Weil Pairing");
                ("year", "2001")] |}.

(** The options of a search run with the defaults of the command line:
    neither [-u] nor [-t], the limit 30. *)
Definition search_options : Options :=
  {| opt_cryptobib := "crypto.bib"; opt_indexdir := "idx";
     opt_update := false; opt_bibtex := false; opt_limit := Some 30 |}.

(** The document of [c_foo] once it has the note of [eprint_foo]. *)
Definition c_foo_merged : Document :=
  [("ID", PStr "C:Foo"); ("bibtex", PStr "@misc{C:Foo}"); ("author", PStr "");
   ("title", PStr "X"); ("acronyms", PStr ""); ("note", PStr "N")].

(** A hit, its stored fields in the order of their names. *)
Definition hit_foo : Document :=
  [("ID", PStr "C:Foo12"); ("acronyms", PStr "Foo12"); ("author", PStr "Ann Foo");
   ("bibtex", PStr "@misc{C:Foo12}"); ("title", PStr "Zk proofs");
   ("year", PStr "2012")].

(** * Properties *)

(** ** Strings *)

Module StrFacts.

Lemma append_empty_r (s : string) : (s ++ "")%string = s.
Proof. induction s as [|c s IH]; simpl; congruence. Qed.

Lemma append_assoc (a b c : string) : ((a ++ b) ++ c = a ++ b ++ c)%string.
Proof. induction a as [|x a IH]; simpl; congruence. Qed.

Lemma length_append (a b : string) : length (a ++ b) = length a + length b.
Proof. induction a as [|x a IH]; simpl; congruence. Qed.

Lemma substring_whole (s : string) : substring 0 (length s) s = s.
Proof. induction s as [|c s IH]; simpl; congruence. Qed.

(** Cutting [a ++ b] at the length of [a] gives [a] back. *)
Lemma substring_front (a b : string) :
  substring 0 (length (a ++ b) - length b) (a ++ b) = a.
Proof.
  rewrite length_append.
  replace (length a + length b - length b) with (length a) by lia.
  induction a as [|x a IH]; simpl.
  - destruct b; reflexivity.
  - now rewrite IH.
Qed.

Lemma last_char_cons (c : ascii) (s : string) :
  s <> "" -> Str.last_char (String c s) = Str.last_char s.
Proof. destruct s; [congruence | reflexivity]. Qed.

Lemma last_char_none (s : string) : Str.last_char s = None -> s = "".
Proof.
  induction s as [|c s IH]; [reflexivity|].
  destruct s as [|c' s']; [discriminate|].
  intros H. specialize (IH H). discriminate.
Qed.

Lemma last_char_append (a b : string) :
  b <> "" -> Str.last_char (a ++ b) = Str.last_char b.
Proof.
  intros Hb; induction a as [|x a IH]; [reflexivity|].
  simpl append. rewrite last_char_cons; [exact IH|].
  destruct a; simpl; [exact Hb | discriminate].
Qed.

Lemma last_char_snoc (a : string) (c : ascii) :
  Str.last_char (a ++ String c "") = Some c.
Proof. rewrite last_char_append; [reflexivity | discriminate]. Qed.

Lemma forallb_append (p : ascii -> bool) (a b : string) :
  Str.forallb p (a ++ b) = Str.forallb p a && Str.forallb p b.
Proof.
  induction a as [|x a IH]; simpl; [reflexivity|].
  now rewrite IH, andb_assoc.
Qed.

Lemma filter_append (p : ascii -> bool) (a b : string) :
  Str.filter p (a ++ b) = (Str.filter p a ++ Str.filter p b)%string.
Proof.
  induction a as [|x a IH]; simpl; [reflexivity|].
  destruct (p x); simpl; now rewrite IH.
Qed.

(** A text without the separator is its own single piece. *)
Lemma split_no_sep (sep : ascii) (s : string) :
  Str.mem sep s = false -> Str.split sep s = [s].
Proof.
  induction s as [|c s IH]; simpl; [reflexivity|].
  intros H. apply orb_false_iff in H as [Hc Hs].
  rewrite Ascii.eqb_sym, Hc, (IH Hs). reflexivity.
Qed.

Lemma split_not_nil (sep : ascii) (s : string) : Str.split sep s <> [].
Proof.
  induction s as [|c s IH]; simpl; [discriminate|].
  destruct (Ascii.eqb c sep); [discriminate|].
  destruct (Str.split sep s); discriminate.
Qed.

(** The last piece of [p ++ sep ++ rest] is the last piece of [rest]. *)
Lemma split_last_after (sep : ascii) (p rest : string) :
  last (Str.split sep (p ++ String sep rest)) "" = last (Str.split sep rest) "".
Proof.
  induction p as [|c p IH]; simpl.
  - rewrite Ascii.eqb_refl.
    destruct (Str.split sep rest) eqn:E; [now apply split_not_nil in E|reflexivity].
  - destruct (Ascii.eqb c sep).
    + rewrite <- IH.
      destruct (Str.split sep (p ++ String sep rest)) eqn:E;
        [now apply split_not_nil in E|reflexivity].
    + rewrite <- IH.
      destruct (Str.split sep (p ++ String sep rest)) as [|piece pieces] eqn:E;
        [now apply split_not_nil in E|].
      destruct pieces as [|piece' pieces].
      * (* one piece: impossible, the separator is there *)
        exfalso. clear IH.
        revert piece E. induction p as [|x p IHp]; simpl; intros piece E.
        -- rewrite Ascii.eqb_refl in E.
           destruct (Str.split sep rest) eqn:E'; [now apply split_not_nil in E'|discriminate].
        -- destruct (Ascii.eqb x sep).
           ++ destruct (Str.split sep (p ++ String sep rest)) eqn:E';
                [now apply split_not_nil in E'|discriminate].
           ++ destruct (Str.split sep (p ++ String sep rest)) as [|q qs] eqn:E';
                [now apply split_not_nil in E'|].
              injection E as _ Hqs. subst qs. now apply (IHp q).
      * reflexivity.
Qed.

End StrFacts.

(** ** The year suffix found by the regular expression *)

Module YearFacts.
Import StrFacts.

Lemma try_at_unfold (s : string) : try_at s = Re.plus_match Str.isdigit s tail_k.
Proof. reflexivity. Qed.

Lemma letter_not_digit (c : ascii) : is_letter c = true -> Str.isdigit c = false.
Proof.
  unfold is_letter; simpl. intros H.
  repeat (apply orb_true_iff in H as [H|H];
          [apply Ascii.eqb_eq in H; subst c; reflexivity|]).
  discriminate.
Qed.

Lemma newline_not_digit : Str.isdigit Str.newline = false.
Proof. reflexivity. Qed.

Lemma newline_not_letter : is_letter Str.newline = false.
Proof. reflexivity. Qed.

Lemma at_end_cases (r : string) :
  Re.at_end r = true -> r = "" \/ r = String Str.newline "".
Proof.
  destruct r as [|c [|c' r]]; simpl; intros H; try discriminate; [now left|].
  apply Ascii.eqb_eq in H. subst c. now right.
Qed.

Lemma tail_k_sound (s r : string) :
  tail_k s = Some r ->
  exists l, s = (l ++ r)%string /\ letter_opt l /\ Re.at_end r = true.
Proof.
  unfold tail_k; simpl. intros H.
  destruct s as [|c s'].
  - simpl in H. injection H as <-. exists "". repeat split. now left.
  - destruct (is_letter c) eqn:Hc.
    + destruct (Re.at_end s') eqn:He.
      * injection H as <-. exists (String c ""). repeat split; [|exact He].
        right. now exists c.
      * destruct (Re.at_end (String c s')) eqn:He'; [|discriminate].
        injection H as <-. exists "". repeat split; [now left|exact He'].
    + destruct (Re.at_end (String c s')) eqn:He'; [|discriminate].
      injection H as <-. exists "". repeat split; [now left|exact He'].
Qed.

Lemma tail_k_shape (l r : string) :
  letter_opt l -> Re.at_end r = true -> tail_k (l ++ r) = Some r.
Proof.
  intros [->|(c & -> & Hc)] He; unfold tail_k; simpl.
  - destruct (at_end_cases r He) as [->| ->]; reflexivity.
  - now rewrite Hc, He.
Qed.

Lemma plus_match_sound (p : ascii -> bool) (k : string -> option string) (s r : string) :
  Re.plus_match p s k = Some r ->
  exists d s1, s = (d ++ s1)%string /\ d <> "" /\ Str.forallb p d = true /\ k s1 = Some r.
Proof.
  induction s as [|c s IH]; simpl; [discriminate|].
  destruct (p c) eqn:Hc; [|discriminate].
  destruct (Re.plus_match p s k) as [r'|] eqn:E.
  - intros H. injection H as <-.
    destruct (IH eq_refl) as (d & s1 & -> & _ & Hd & Hk).
    exists (String c d), s1. simpl. rewrite Hc, Hd. repeat split; [discriminate|exact Hk].
  - intros H. exists (String c ""), s. simpl. rewrite Hc. repeat split; [discriminate|exact H].
Qed.

(** No digit starts the text: the repetition fails at once. *)
Lemma plus_match_no_digit (k : string -> option string) (s : string) :
  (forall c s', s = String c s' -> Str.isdigit c = false) ->
  Re.plus_match Str.isdigit s k = None.
Proof.
  destruct s as [|c s']; simpl; [reflexivity|].
  intros H. now rewrite (H c s' eq_refl).
Qed.

Lemma try_at_sound (s r : string) :
  try_at s = Some r ->
  exists y, s = (y ++ r)%string /\ year_shape y /\ Re.at_end r = true.
Proof.
  rewrite try_at_unfold. intros H.
  apply plus_match_sound in H as (d & s1 & -> & Hne & Hd & Hk).
  apply tail_k_sound in Hk as (l & -> & Hl & He).
  exists (d ++ l)%string. rewrite append_assoc. repeat split; [|exact He].
  now exists d, l.
Qed.

(** The matcher is deterministic on a text of the right shape: it stops
    exactly before the end. *)
Lemma try_at_shape (y r : string) :
  year_shape y -> Re.at_end r = true -> try_at (y ++ r) = Some r.
Proof.
  intros (d & l & -> & Hne & Hd & Hl) He.
  rewrite try_at_unfold, append_assoc.
  induction d as [|c d IH]; [congruence|].
  simpl in Hd. apply andb_true_iff in Hd as [Hc Hd].
  simpl. rewrite Hc.
  destruct d as [|c' d'].
  - simpl. rewrite plus_match_no_digit.
    + now apply tail_k_shape.
    + intros x s' E. destruct Hl as [->|(c0 & -> & Hc0)]; simpl in E.
      * destruct (at_end_cases r He) as [->| ->]; [discriminate|].
        injection E as <- _. exact newline_not_digit.
      * injection E as <- _. now apply letter_not_digit.
  - rewrite IH; [reflexivity|discriminate|exact Hd].
Qed.

Lemma drop_digits_no_digit (s : string) : no_digit s = true -> drop_digits s = s.
Proof.
  destruct s as [|c s]; simpl; [reflexivity|].
  unfold no_digit; simpl. intros H. apply andb_true_iff in H as [H _].
  now destruct (Str.isdigit c).
Qed.

Lemma drop_digits_digits (d s : string) :
  Str.forallb Str.isdigit d = true -> drop_digits (d ++ s) = drop_digits s.
Proof.
  induction d as [|c d IH]; simpl; [reflexivity|].
  intros H. apply andb_true_iff in H as [Hc Hd]. now rewrite Hc, IH.
Qed.

(** A text of the matched shape has no digit after its first non-digit. *)
Lemma shape_no_digit_after (y r : string) :
  year_shape y -> Re.at_end r = true -> no_digit (drop_digits (y ++ r)) = true.
Proof.
  intros (d & l & -> & _ & Hd & Hl) He.
  rewrite append_assoc, (drop_digits_digits _ _ Hd).
  assert (Hn : no_digit (l ++ r) = true).
  { unfold no_digit. rewrite forallb_append.
    apply andb_true_iff. split.
    - destruct Hl as [->|(c & -> & Hc)]; simpl; [reflexivity|].
      now rewrite (letter_not_digit c Hc).
    - destruct (at_end_cases r He) as [->| ->]; reflexivity. }
  now rewrite (drop_digits_no_digit _ Hn).
Qed.

(** After a prefix that ends in a non-digit, a digit breaks the shape. *)
Lemma digit_after_break (p t : string) (c : ascii) :
  Str.last_char p = Some c -> Str.isdigit c = false ->
  no_digit (drop_digits (p ++ t)) = no_digit (drop_digits p) && no_digit t.
Proof.
  intros Hl Hc. induction p as [|x p IH]; [discriminate|].
  simpl. destruct (Str.isdigit x) eqn:Hx.
  - destruct p as [|x' p'].
    + simpl in Hl. injection Hl as ->. congruence.
    + apply IH. exact Hl.
  - unfold no_digit. change (String x (p ++ t)) with (String x p ++ t)%string.
    now rewrite forallb_append.
Qed.

Lemma search_unfold (s : string) :
  Re.search year_re s =
  match try_at s with
  | Some rest => Some (substring 0 (length s - length rest) s)
  | None => match s with
            | EmptyString => None
            | String _ s' => Re.search year_re s'
            end
  end.
Proof. destruct s; reflexivity. Qed.

(** What [re.search] returns is a text of the year shape that ends where [$]
    matches, and no digit stands just before it. *)
Lemma search_sound (s y : string) :
  Re.search year_re s = Some y ->
  exists p r, s = (p ++ y ++ r)%string /\ year_shape y /\ Re.at_end r = true
              /\ no_digit_end p.
Proof.
  revert y. induction s as [|c s IH]; intros y; rewrite search_unfold.
  - simpl. discriminate.
  - destruct (try_at (String c s)) as [rest|] eqn:E.
    + intros H.
      apply try_at_sound in E as (y0 & E & Hy & He).
      rewrite E, substring_front in H. injection H as <-. rewrite E.
      exists "", rest. repeat split; [exact Hy|exact He|].
      intros x Hx. discriminate.
    + intros H. destruct (IH y H) as (p & r & -> & Hy & He & Hp).
      exists (String c p), r. repeat split; [exact Hy|exact He|].
      intros x Hx. destruct p as [|c' p'].
      * simpl in Hx. injection Hx as <-.
        destruct (Str.isdigit c) eqn:Hc; [|reflexivity].
        exfalso.
        assert (Hy' : year_shape (String c y)).
        { destruct Hy as (d & l & -> & Hne & Hd & Hl).
          exists (String c d), l. simpl. rewrite Hc, Hd.
          repeat split; [discriminate|exact Hl]. }
        pose proof (try_at_shape _ _ Hy' He) as E'.
        simpl in E, E'. congruence.
      * apply Hp. exact Hx.
Qed.

(** Conversely, the search finds the year suffix wherever there is one. *)
Lemma search_complete (p y r : string) :
  year_shape y -> Re.at_end r = true -> no_digit_end p ->
  Re.search year_re (p ++ y ++ r) = Some y.
Proof.
  intros Hy He Hp. induction p as [|c p IH]; rewrite search_unfold.
  - simpl append. rewrite (try_at_shape _ _ Hy He). now rewrite substring_front.
  - destruct (try_at (String c p ++ y ++ r)) as [rest|] eqn:E.
    + exfalso.
      apply try_at_sound in E as (y' & E & Hy' & He').
      pose proof (shape_no_digit_after _ _ Hy' He') as Hn.
      rewrite <- E in Hn.
      destruct (Str.last_char (String c p)) as [x|] eqn:Hx.
      * rewrite (digit_after_break _ _ x Hx (Hp x Hx)) in Hn.
        apply andb_true_iff in Hn as [_ Hn].
        unfold no_digit in Hn. rewrite forallb_append in Hn.
        apply andb_true_iff in Hn as [Hn _].
        destruct Hy as (d & l & -> & Hne & Hd & _).
        rewrite forallb_append in Hn. apply andb_true_iff in Hn as [Hn _].
        destruct d as [|x0 d]; [congruence|].
        simpl in Hd, Hn.
        apply andb_true_iff in Hd as [Hd _]. apply andb_true_iff in Hn as [Hn _].
        rewrite Hd in Hn. discriminate.
      * now apply last_char_none in Hx.
    + simpl append. apply IH.
      intros x Hx. apply Hp.
      destruct p as [|c' p']; [discriminate|exact Hx].
Qed.

End YearFacts.

(** ** The acronym deriver (C1) *)

Module AcronymFacts.
Import StrFacts YearFacts.

Lemma last_colon_decompose (c : ascii) (s : string) :
  Str.mem c s = true ->
  exists p rest, s = (p ++ String c rest)%string /\ Str.mem c rest = false.
Proof.
  induction s as [|x s IH]; simpl; [discriminate|].
  destruct (Str.mem c s) eqn:Hs.
  - intros _. destruct (IH eq_refl) as (p & rest & -> & Hr).
    now exists (String x p), rest.
  - rewrite orb_false_r. intros Hx. apply Ascii.eqb_eq in Hx. subst x.
    now exists "", s.
Qed.

(** Every key has such a remainder. *)
Lemma after_last_colon_exists (key : string) : exists rest, after_last_colon key rest.
Proof.
  destruct (Str.mem ":" key) eqn:Hk.
  - destruct (last_colon_decompose _ _ Hk) as (p & rest & -> & Hr).
    exists rest. split; [exact Hr|]. right. now exists p.
  - exists key. split; [exact Hk|now left].
Qed.

(** [id.split(':')[-1]] computes it. *)
Lemma after_last_colon_split (key rest : string) :
  after_last_colon key rest -> last (Str.split ":" key) "" = rest.
Proof.
  intros [Hr [->|(p & ->)]].
  - now rewrite (split_no_sep _ _ Hr).
  - now rewrite split_last_after, (split_no_sep _ _ Hr).
Qed.

Lemma after_last_colon_newline (key rest : string) :
  after_last_colon key rest ->
  Str.last_char key <> Some Str.newline -> Str.last_char rest <> Some Str.newline.
Proof.
  intros [_ [->|(p & ->)]] H; [exact H|].
  destruct rest as [|c rest]; [discriminate|].
  rewrite last_char_append in H by discriminate.
  now rewrite last_char_cons in H by discriminate.
Qed.

(** C1: on every citation key (a text that does not end in a line break),
    [acronyms_from_ID] works on the remainder [rest] after the last [:];
    it returns the empty list when [rest] has no year suffix, and otherwise,
    with [initials] the upper-case letters of [rest] in order, the two tokens
    [initials] and [initials ++ y] for more than two initials, the one token
    [initials ++ y] for exactly two, and [rest] itself for fewer than two.
    The three keys of the documentation give the stated results. *)
Theorem acronyms_from_ID_spec :
  (forall key rest : string,
      Str.last_char key <> Some Str.newline ->
      after_last_colon key rest ->
      let initials := Str.filter Str.isupper rest in
      ((forall y, ~ year_suffix rest y) -> acronyms_from_ID key = [])
      /\ (forall y, year_suffix rest y ->
            (2 < length initials ->
             acronyms_from_ID key = [initials; (initials ++ y)%string])
            /\ (length initials = 2 ->
                acronyms_from_ID key = [(initials ++ y)%string])
            /\ (length initials < 2 -> acronyms_from_ID key = [rest])))
  /\ acronyms_from_ID "C:GenHalSma12" = ["GHS"; "GHS12"]
  /\ acronyms_from_ID "C:Groth16" = ["Groth16"]
  /\ acronyms_from_ID "NoDigitsHere" = [].
Proof.
  split; [|repeat split; reflexivity].
  intros key rest Hnl Hrest initials.
  pose proof (after_last_colon_newline _ _ Hrest Hnl) as Hnl'.
  unfold acronyms_from_ID.
  rewrite (after_last_colon_split _ _ Hrest). cbv zeta.
  fold initials. split.
  - intros Hno. destruct (Re.search year_re rest) as [y|] eqn:Es; [|reflexivity].
    exfalso. apply search_sound in Es as (p & r & E & Hy & He & Hp).
    destruct (at_end_cases r He) as [->| ->].
    + apply (Hno y). exists p. rewrite append_empty_r in E. now repeat split.
    + apply Hnl'. rewrite E, <- append_assoc. apply last_char_snoc.
  - intros y (p & E & Hy & Hp).
    pose proof (search_complete p y "" Hy eq_refl Hp) as Es.
    rewrite append_empty_r, <- E in Es. rewrite Es.
    repeat split; intros Hlen.
    + apply Nat.ltb_lt in Hlen. now rewrite Hlen.
    + rewrite Hlen. reflexivity.
    + destruct (Nat.ltb_spec 2 (length initials)); [lia|].
      destruct (Nat.eqb_spec (length initials) 2); [lia|reflexivity].
Qed.

Lemma acronyms_from_ID_spec_witness :
  Str.last_char "C:GenHalSma12" <> Some Str.newline
  /\ after_last_colon "C:GenHalSma12" "GenHalSma12"
  /\ year_suffix "GenHalSma12" "12"
  /\ 2 < length (Str.filter Str.isupper "GenHalSma12")
  /\ acronyms_from_ID "C:GenHalSma12" = ["GHS"; "GHS12"].
Proof.
  assert (H1 : Str.last_char "C:GenHalSma12" <> Some Str.newline) by (simpl; discriminate).
  assert (H2 : after_last_colon "C:GenHalSma12" "GenHalSma12").
  { split; [reflexivity|]. right. now exists "C". }
  assert (H3 : year_suffix "GenHalSma12" "12").
  { exists "GenHalSma". repeat split.
    - exists "12", "". repeat split; [discriminate|now left].
    - intros c Hc. simpl in Hc. injection Hc as <-. reflexivity. }
  assert (H4 : 2 < length (Str.filter Str.isupper "GenHalSma12")) by (simpl; lia).
  refine (conj H1 (conj H2 (conj H3 (conj H4 _)))).
  exact (proj1 (proj2 (proj1 acronyms_from_ID_spec _ _ H1 H2) _ H3) H4).
Defined.

(** Where a key ends in a line break, [$] still matches before it: the year
    is found although it does not end the key. *)
Example acronyms_trailing_newline :
  acronyms_from_ID (String "A" (String "B" (String "1" (String "2" (String Str.newline "")))))
  = ["AB12"].
Proof. reflexivity. Qed.

Example acronyms_year_letter : acronyms_from_ID "EPRINT:BonBunFis18b" = ["BBF"; "BBF18b"].
Proof. reflexivity. Qed.

Example acronyms_two_initials : acronyms_from_ID "AC:BonFra01" = ["BF01"].
Proof. reflexivity. Qed.

Example acronyms_digit_inside : acronyms_from_ID "C:AB12c3" = ["AB3"].
Proof. reflexivity. Qed.

End AcronymFacts.

(** ** Dictionaries *)

Module DictFacts.
Section Facts.
Context {K V : Type} `{Hashable K}.

Lemma key_eqb_refl (k : K) : key_eqb k k = true.
Proof. destruct (key_eqb_spec k k); congruence. Qed.

Lemma key_eqb_neq (k k' : K) : k <> k' -> key_eqb k k' = false.
Proof. destruct (key_eqb_spec k k'); congruence. Qed.

Lemma get_set_same (k : K) (v : V) (d : Dict.t K V) :
  Dict.get k (Dict.set k v d) = Some v.
Proof.
  induction d as [|[k' v'] d IH]; simpl.
  - now rewrite key_eqb_refl.
  - destruct (key_eqb_spec k k') as [<-|Hne]; simpl.
    + now rewrite key_eqb_refl.
    + now rewrite (key_eqb_neq _ _ Hne).
Qed.

Lemma get_set_other (k k' : K) (v : V) (d : Dict.t K V) :
  k <> k' -> Dict.get k' (Dict.set k v d) = Dict.get k' d.
Proof.
  intros Hne. induction d as [|[k0 v0] d IH]; simpl.
  - rewrite key_eqb_neq; [reflexivity|congruence].
  - destruct (key_eqb_spec k k0) as [<-|Hne0]; simpl.
    + rewrite key_eqb_neq; [reflexivity|congruence].
    + now rewrite IH.
Qed.

(** A new key goes last. *)
Lemma set_fresh (k : K) (v : V) (d : Dict.t K V) :
  Dict.get k d = None -> Dict.set k v d = d ++ [(k, v)].
Proof.
  induction d as [|[k' v'] d IH]; simpl; [reflexivity|].
  destruct (key_eqb k k'); [discriminate|].
  intros Hd. now rewrite IH.
Qed.

(** A key already there keeps its place: the keys do not change. *)
Lemma keys_set_present (k : K) (v : V) (d : Dict.t K V) :
  Dict.get k d <> None -> Dict.keys (Dict.set k v d) = Dict.keys d.
Proof.
  unfold Dict.keys.
  induction d as [|[k' v'] d IH]; simpl; [congruence|].
  destruct (key_eqb_spec k k') as [<-|Hne]; simpl; [reflexivity|].
  intros Hd. f_equal. now apply IH.
Qed.

Lemma mem_set_same (k : K) (v : V) (d : Dict.t K V) :
  Dict.mem k (Dict.set k v d) = true.
Proof. unfold Dict.mem. now rewrite get_set_same. Qed.

Lemma mem_set_other (k k' : K) (v : V) (d : Dict.t K V) :
  k <> k' -> Dict.mem k' (Dict.set k v d) = Dict.mem k' d.
Proof. intros Hne. unfold Dict.mem. now rewrite get_set_other. Qed.

End Facts.
End DictFacts.

(** ** The entry normalizer (C4, C5) *)

Module FormatFacts.
Import StrFacts DictFacts.

Lemma translate_unbraced (v : string) : Str.translate strip_table v = unbraced v.
Proof.
  unfold unbraced. induction v as [|c v IH]; [reflexivity|].
  cbn [Str.translate Str.filter]. unfold strip_table at 1, is_brace at 1.
  destruct (Ascii.eqb_spec c Str.newline) as [->|Hn].
  - cbn. now rewrite IH.
  - destruct (Ascii.eqb_spec c "{") as [->|Ho]; [exact IH|].
    destruct (Ascii.eqb_spec c "}") as [->|Hc]; [exact IH|].
    cbn [orb negb newlines_to_spaces].
    apply Ascii.eqb_neq in Hn. now rewrite Hn, IH.
Qed.

Lemma unbraced_plain (v : string) : Str.forallb plain (unbraced v) = true.
Proof.
  unfold unbraced. induction v as [|c v IH]; simpl; [reflexivity|].
  destruct (is_brace c) eqn:Hb; simpl; [exact IH|].
  rewrite IH, andb_true_r. unfold plain.
  destruct (Ascii.eqb_spec c Str.newline) as [->|Hn]; [reflexivity|].
  apply Ascii.eqb_neq in Hn. now rewrite Hn, Hb.
Qed.

(** [lstrip] removes a prefix made of the given characters, and stops at the
    first character that is not one of them. *)
Lemma lstrip_spec (chars s : string) :
  exists stripped,
    s = (stripped ++ Str.lstrip chars s)%string
    /\ Str.forallb (fun c => Str.mem c chars) stripped = true
    /\ (forall c rest, Str.lstrip chars s = String c rest -> Str.mem c chars = false).
Proof.
  induction s as [|c s (stripped & E & Hs & Hfirst)]; simpl.
  - exists "". repeat split. discriminate.
  - destruct (Str.mem c chars) eqn:Hc.
    + exists (String c stripped). simpl. rewrite Hc, Hs, <- E. now repeat split.
    + exists "". repeat split. intros x rest Hx. injection Hx as <- _. exact Hc.
Qed.

Lemma lstrip_unchanged (chars s : string) :
  (forall c rest, s = String c rest -> Str.mem c chars = false) ->
  Str.lstrip chars s = s.
Proof.
  destruct s as [|c s]; simpl; [reflexivity|].
  intros H. now rewrite (H c s eq_refl).
Qed.

Lemma forallb_suffix (p : ascii -> bool) (a b : string) :
  Str.forallb p (a ++ b) = true -> Str.forallb p b = true.
Proof. rewrite forallb_append. intros H. now apply andb_true_iff in H. Qed.

(** Looking a key up after the loop over the fields [ks]. *)
Lemma get_copy_loop (entry : Entry) (ks : list string) (fe : Document) (k : string) :
  Dict.get k
    (fold_left
       (fun fe k =>
          match Dict.get k (fields entry) with
          | Some v => Dict.set k (PStr (clean_field v)) fe
          | None => fe
          end) ks fe)
  = match (if existsb (String.eqb k) ks then Dict.get k (fields entry) else None) with
    | Some v => Some (PStr (clean_field v))
    | None => Dict.get k fe
    end.
Proof.
  revert fe. induction ks as [|k' ks IH]; intros fe; simpl; [reflexivity|].
  rewrite IH.
  destruct (String.eqb_spec k k') as [<-|Hne]; simpl.
  - destruct (Dict.get k (fields entry)) as [v|] eqn:Hv.
    + destruct (existsb (String.eqb k) ks); [reflexivity|].
      apply get_set_same.
    + now destruct (existsb (String.eqb k) ks).
  - assert (E : Dict.get k
                 match Dict.get k' (fields entry) with
                 | Some v => Dict.set k' (PStr (clean_field v)) fe
                 | None => fe
                 end = Dict.get k fe).
    { destruct (Dict.get k' (fields entry)); [|reflexivity].
      apply get_set_other. congruence. }
    now rewrite E.
Qed.

Section WithSerializer.
Variable to_bibtex : string -> Entry -> string.
Variable numeric_ok : string -> bool.

(** Every lookup in a formatted entry. *)
Lemma get_format_entry (ID : string) (entry : Entry) (k : string) :
  Dict.get k (format_entry to_bibtex ID entry) =
  if String.eqb k "acronyms"
  then Some (PStr (String.concat "," (acronyms_from_ID ID)))
  else
    match (if existsb (String.eqb k) BIBTEX_FIELDS
           then Dict.get k (fields entry) else None) with
    | Some v => Some (PStr (clean_field v))
    | None =>
        if String.eqb k "author"
        then Some (PStr (Str.drop_last 2 (authors_of entry)))
        else if String.eqb k "bibtex" then Some (PStr (to_bibtex ID entry))
        else if String.eqb k "ID" then Some (PStr (key entry))
        else None
    end.
Proof.
  unfold format_entry, copy_fields.
  destruct (String.eqb_spec k "acronyms") as [->|Hacr].
  - apply get_set_same.
  - rewrite get_set_other by congruence.
    rewrite get_copy_loop.
    destruct (if existsb (String.eqb k) BIBTEX_FIELDS
              then Dict.get k (fields entry) else None); [reflexivity|].
    destruct (String.eqb_spec k "author") as [->|Hau]; [apply get_set_same|].
    rewrite get_set_other by congruence.
    destruct (String.eqb_spec k "bibtex") as [->|Hbib]; [apply get_set_same|].
    rewrite get_set_other by congruence.
    simpl. change (key_eqb k "ID") with (String.eqb k "ID").
    now destruct (String.eqb k "ID").
Qed.

(** A formatted entry never carries the flag of the merger. *)
Lemma format_entry_not_ignored (ID : string) (entry : Entry) :
  Dict.mem "ignore" (format_entry to_bibtex ID entry) = false.
Proof. unfold Dict.mem. now rewrite get_format_entry. Qed.

End WithSerializer.
End FormatFacts.

(** ** Results on the entry normalizer *)

Module NormalizerFacts.
Import StrFacts DictFacts FormatFacts.

Lemma translate_append (a b : string) :
  Str.translate strip_table (a ++ b)
  = (Str.translate strip_table a ++ Str.translate strip_table b)%string.
Proof.
  induction a as [|c a IH]; simpl; [reflexivity|].
  destruct (strip_table c); simpl; rewrite IH; [|reflexivity].
  now rewrite append_assoc.
Qed.

(** Where the code does what C4 says: a field [k] of [BIBTEX_FIELDS] that
    the entry has with raw text [v] is stored as a text [stored] such that
    the text [unbraced v] (every newline of [v] replaced by one space, every
    brace deleted) is [stripped ++ stored]: [stored] has no newline and no
    brace, and it is [unbraced v] itself when that text starts with none of
    the characters of [\url].  A note [\url{x}] whose [x] starts with none of
    them is stored as [unbraced x]. *)
Lemma field_cleaned :
  (forall (to_bibtex : string -> Entry -> string) (ID : string) (entry : Entry)
          (k v : string),
      In k BIBTEX_FIELDS ->
      Dict.get k (fields entry) = Some v ->
      exists stripped stored,
        Dict.get k (format_entry to_bibtex ID entry) = Some (PStr stored)
        /\ unbraced v = (stripped ++ stored)%string
        /\ Str.forallb plain stored = true
        /\ ((forall c rest, unbraced v = String c rest -> Str.mem c "\url" = false)
            -> stored = unbraced v))
  /\ (forall x : string,
        (forall c rest, unbraced x = String c rest -> Str.mem c "\url" = false) ->
        clean_field ("\url{" ++ x ++ "}") = unbraced x).
Proof.
  split.
  - intros to_bibtex ID entry k v Hk Hv.
    assert (Hget : Dict.get k (format_entry to_bibtex ID entry)
                   = Some (PStr (clean_field v))).
    { rewrite get_format_entry.
      simpl in Hk. destruct Hk as [<-|[<-|[<-|[<-|[]]]]]; simpl; now rewrite Hv. }
    unfold clean_field in Hget. rewrite translate_unbraced in Hget.
    destruct (lstrip_spec "\url" (unbraced v)) as (stripped & E & _ & _).
    exists stripped, (Str.lstrip "\url" (unbraced v)).
    split; [exact Hget|]. split; [exact E|]. split.
    + apply (forallb_suffix plain stripped). rewrite <- E. apply unbraced_plain.
    + apply lstrip_unchanged.
  - intros x Hx. unfold clean_field.
    change ("\url{" ++ x ++ "}")%string with ("\url{" ++ (x ++ "}"))%string.
    rewrite translate_append, translate_append.
    change (Str.translate strip_table "\url{") with "\url".
    change (Str.translate strip_table "}") with "".
    rewrite append_empty_r, translate_unbraced.
    change (Str.lstrip "\url" ("\url" ++ unbraced x))
      with (Str.lstrip "\url" (unbraced x)).
    now apply lstrip_unchanged.
Qed.

Lemma lstrip_length (chars s : string) : length (Str.lstrip chars s) <= length s.
Proof.
  destruct (lstrip_spec chars s) as (stripped & E & _).
  rewrite E at 2. rewrite length_append. lia.
Qed.

(** C4, on the code: the strip of the leading marker is a strip of leading
    characters, and it is done on every field.  A title or a year whose text,
    newlines and braces apart, begins with a backslash or with one of the
    letters [u], [r], [l] is stored without its leading characters of that
    set, so shorter than the text; and of a note [\url{x}] not only the
    marker goes, but also the leading characters of [x] that are in the
    set. *)
Theorem leading_characters_stripped :
  (forall (to_bibtex : string -> Entry -> string) (ID : string) (entry : Entry)
          (k v : string) (c : ascii) (rest : string),
      In k ["title"; "year"] ->
      Dict.get k (fields entry) = Some v ->
      unbraced v = String c rest ->
      Str.mem c "\url" = true ->
      Dict.get k (format_entry to_bibtex ID entry)
      = Some (PStr (Str.lstrip "\url" rest))
      /\ length (Str.lstrip "\url" rest) < length (unbraced v))
  /\ (forall (x : string) (c : ascii) (rest : string),
        unbraced x = String c rest ->
        Str.mem c "\url" = true ->
        clean_field ("\url{" ++ x ++ "}") = Str.lstrip "\url" rest
        /\ length (clean_field ("\url{" ++ x ++ "}")) < length (unbraced x)).
Proof.
  assert (Hstrip : forall (s : string) (c : ascii) (rest : string),
             s = String c rest -> Str.mem c "\url" = true ->
             Str.lstrip "\url" s = Str.lstrip "\url" rest
             /\ length (Str.lstrip "\url" rest) < length s).
  { intros s c rest -> Hc. split.
    - cbn [Str.lstrip]. now rewrite Hc.
    - pose proof (lstrip_length "\url" rest). cbn [length]. lia. }
  split.
  - intros to_bibtex ID entry k v c rest Hk Hv E Hc.
    assert (Hget : Dict.get k (format_entry to_bibtex ID entry)
                   = Some (PStr (clean_field v))).
    { rewrite get_format_entry.
      simpl in Hk. destruct Hk as [<-|[<-|[]]]; simpl; now rewrite Hv. }
    unfold clean_field in Hget. rewrite translate_unbraced in Hget.
    destruct (Hstrip _ _ _ E Hc) as [Hs Hlen]. rewrite Hs in Hget. now split.
  - intros x c rest E Hc.
    assert (Hclean : clean_field ("\url{" ++ x ++ "}") = Str.lstrip "\url" (unbraced x)).
    { unfold clean_field.
      change ("\url{" ++ x ++ "}")%string with ("\url{" ++ (x ++ "}"))%string.
      rewrite translate_append, translate_append.
      change (Str.translate strip_table "\url{") with "\url".
      change (Str.translate strip_table "}") with "".
      now rewrite append_empty_r, translate_unbraced. }
    rewrite Hclean. destruct (Hstrip _ _ _ E Hc) as [Hs Hlen]. now rewrite Hs.
Qed.

Lemma leading_characters_stripped_witness :
  Dict.get "title"
    (format_entry plain_bibtex "K" (entry_of "K" [("title", "ring signatures")]))
  = Some (PStr "ing signatures")
  /\ clean_field "\url{rfc-editor.org/info/rfc8017}" = "fc-editor.org/info/rfc8017".
Proof.
  split.
  - exact (proj1 (proj1 leading_characters_stripped plain_bibtex "K"
                    (entry_of "K" [("title", "ring signatures")])
                    "title" "ring signatures" "r"%char "ing signatures"
                    (or_introl eq_refl) eq_refl eq_refl eq_refl)).
  - exact (proj1 (proj2 leading_characters_stripped "rfc-editor.org/info/rfc8017"
                    "r"%char "fc-editor.org/info/rfc8017" eq_refl eq_refl)).
Defined.

(** The marker of a note is stripped as C4 says when what follows it starts
    with none of the characters of the set. *)
Example note_url_stripped :
  clean_field "\url{https://eprint.iacr.org/2016/260}" = "https://eprint.iacr.org/2016/260".
Proof. reflexivity. Qed.

(** C5, as the spec states it, fails: the entry has no author and its key has
    no acronym, and the document built for it holds both fields, as empty
    strings. *)
Lemma absent_author_stored_empty :
  build_documents plain_bibtex digits [bare_entry]
  = Ok [[("ID", PStr "NoDigitsHere"); ("bibtex", PStr "@misc{NoDigitsHere}");
         ("author", PStr ""); ("acronyms", PStr "")]].
Proof. reflexivity. Qed.

(** C5, amended: each of [title], [year], [note] that the entry does not have
    is absent from its formatted entry; [author] and [acronyms] are always
    there: the author text is empty when the entry has no author, the
    acronyms text is the comma-joined acronyms of the key, empty when the key
    has none. *)
Theorem absent_fields_spec (to_bibtex : string -> Entry -> string) (ID : string)
    (entry : Entry) :
  (forall k, In k ["title"; "year"; "note"] ->
             Dict.get k (fields entry) = None ->
             Dict.get k (format_entry to_bibtex ID entry) = None)
  /\ (Dict.get "author" (fields entry) = None ->
      Dict.get "author" (format_entry to_bibtex ID entry)
      = Some (PStr (Str.drop_last 2 (authors_of entry))))
  /\ (Dict.get "author" (fields entry) = None ->
      Dict.get "author" (persons entry) = None ->
      Dict.get "author" (format_entry to_bibtex ID entry) = Some (PStr ""))
  /\ Dict.get "acronyms" (format_entry to_bibtex ID entry)
     = Some (PStr (String.concat "," (acronyms_from_ID ID)))
  /\ (acronyms_from_ID ID = [] ->
      Dict.get "acronyms" (format_entry to_bibtex ID entry) = Some (PStr "")).
Proof.
  repeat split.
  - intros k Hk Hnone. rewrite get_format_entry.
    simpl in Hk. destruct Hk as [<-|[<-|[<-|[]]]]; simpl; now rewrite Hnone.
  - intros Hnone. rewrite get_format_entry. simpl. now rewrite Hnone.
  - intros Hnone Hpers. rewrite get_format_entry. simpl. rewrite Hnone.
    unfold authors_of. now rewrite Hpers.
  - now rewrite get_format_entry.
  - intros Hacr. rewrite get_format_entry. simpl. now rewrite Hacr.
Qed.

End NormalizerFacts.

(** ** The duplicate merger (C2, C7, C10) *)

Module MergeFacts.
Import StrFacts DictFacts FormatFacts.

Section WithSerializer.
Variable to_bibtex : string -> Entry -> string.
Variable numeric_ok : string -> bool.

Lemma mem_get {V : Type} (k : string) (d : Dict.t string V) :
  Dict.mem k d = true <-> exists v, Dict.get k d = Some v.
Proof.
  unfold Dict.mem. destruct (Dict.get k d) as [v|].
  - split; [now exists v|reflexivity].
  - split; [discriminate|intros [v Hv]; discriminate].
Qed.

Lemma get_title_fmt (ID : string) (entry : Entry) :
  Dict.get "title" (format_entry to_bibtex ID entry)
  = option_map (fun v => PStr (clean_field v)) (Dict.get "title" (fields entry)).
Proof. rewrite get_format_entry. simpl. now destruct (Dict.get "title" (fields entry)). Qed.

Lemma get_note_fmt (ID : string) (entry : Entry) :
  Dict.get "note" (format_entry to_bibtex ID entry)
  = option_map (fun v => PStr (clean_field v)) (Dict.get "note" (fields entry)).
Proof. rewrite get_format_entry. simpl. now destruct (Dict.get "note" (fields entry)). Qed.

Lemma get_year_fmt (ID : string) (entry : Entry) :
  Dict.get "year" (format_entry to_bibtex ID entry)
  = option_map (fun v => PStr (clean_field v)) (Dict.get "year" (fields entry)).
Proof. rewrite get_format_entry. simpl. now destruct (Dict.get "year" (fields entry)). Qed.

(** The writer takes a formatted entry when it takes the year of the entry. *)
Lemma taken_format_entry (ID : string) (entry : Entry) :
  taken numeric_ok (format_entry to_bibtex ID entry) = year_taken numeric_ok entry.
Proof.
  unfold taken, year_taken. rewrite get_year_fmt.
  now destruct (Dict.get "year" (fields entry)).
Qed.

Lemma taken_set_other (k : string) (v : pyval) (d : Document) :
  k <> "year" -> taken numeric_ok (Dict.set k v d) = taken numeric_ok d.
Proof. intros Hk. unfold taken. now rewrite get_set_other. Qed.

Lemma add_document_taken (entry : Document) (written : list Document) :
  taken numeric_ok entry = true ->
  add_document numeric_ok entry written = Ok (written ++ [entry]).
Proof.
  unfold taken, add_document.
  destruct (Dict.get "year" entry) as [[year|b]|]; try reflexivity.
  now intros ->.
Qed.

Lemma add_document_refused (entry : Document) (written : list Document) :
  taken numeric_ok entry = false ->
  add_document numeric_ok entry written = Raise ValueError.
Proof.
  unfold taken, add_document.
  destruct (Dict.get "year" entry) as [[year|b]|]; try discriminate.
  now intros ->.
Qed.

(** One round of the first loop, by cases on the entry. *)
Lemma format_step_spec (urls : Urls) (fes : Formatted) (ID : string) (entry : Entry) :
  format_step to_bibtex (urls, fes) (ID, entry) =
  let fes' := Dict.set ID (format_entry to_bibtex ID entry) fes in
  if prefix "EPRINT" ID then
    match Dict.get "title" (fields entry) with
    | Some t =>
        match Dict.get "note" (fields entry) with
        | Some n =>
            Ok (Dict.set (PStr (clean_field t)) (PStr (clean_field n), ID) urls, fes')
        | None => Raise (KeyError "note")
        end
    | None => Ok (urls, fes')
    end
  else Ok (urls, fes').
Proof.
  unfold format_step. cbv zeta.
  destruct (prefix "EPRINT" ID); [|reflexivity].
  unfold Dict.mem at 1. rewrite get_note_fmt, get_title_fmt.
  destruct (Dict.get "title" (fields entry)) as [t|]; simpl; [|reflexivity].
  now destruct (Dict.get "note" (fields entry)).
Qed.

Lemma format_step_noteless (st : Urls * Formatted) (e : Entry) :
  noteless_preprint e ->
  format_step to_bibtex st (key e, e) = Raise (KeyError "note").
Proof.
  intros (Hp & Ht & Hn). destruct st as [urls fes].
  rewrite format_step_spec. cbv zeta. rewrite Hp.
  apply mem_get in Ht as [t ->].
  unfold Dict.mem in Hn. now destruct (Dict.get "note" (fields e)).
Qed.

Lemma format_step_cases (st : Urls * Formatted) (item : string * Entry) :
  (exists st', format_step to_bibtex st item = Ok st')
  \/ format_step to_bibtex st item = Raise (KeyError "note").
Proof.
  destruct st as [urls fes], item as [ID entry].
  rewrite format_step_spec. cbv zeta.
  destruct (prefix "EPRINT" ID); [|left; eauto].
  destruct (Dict.get "title" (fields entry)); [|left; eauto].
  destruct (Dict.get "note" (fields entry)); [left; eauto|now right].
Qed.

(** The first loop stops with [KeyError('note')] as soon as the bibliography
    has a preprint with a title and no note. *)
Lemma first_loop_noteless (db : list Entry) (e : Entry) (st : Urls * Formatted) :
  In e db -> noteless_preprint e ->
  for_each (format_step to_bibtex) (items db) st = Raise (KeyError "note").
Proof.
  intros Hin Hbad. revert st. induction db as [|e0 db IH]; intros st; [contradiction|].
  simpl. destruct Hin as [->|Hin].
  - now rewrite format_step_noteless.
  - destruct (format_step_cases st (key e0, e0)) as [[st' ->]| ->]; simpl; auto.
Qed.

Lemma build_documents_noteless (db : list Entry) (e : Entry) :
  In e db -> noteless_preprint e ->
  build_documents to_bibtex numeric_ok db = Raise (KeyError "note").
Proof.
  intros Hin Hbad. unfold build_documents.
  now rewrite (first_loop_noteless db e).
Qed.

(** One round of the second loop on a preprint: nothing is merged; the entry
    goes to the writer unless a round before it flagged it. *)
Lemma merge_step_preprint_writer (urls : Urls) (fes : Formatted)
    (written : list Document) (ID : string) (entry : Document) :
  prefix "EPRINT" ID = true ->
  Dict.get ID fes = Some entry ->
  merge_step numeric_ok urls (fes, written) ID
  = if Dict.mem "ignore" entry then Ok (fes, written)
    else rbind (add_document numeric_ok entry written)
               (fun written => Ok (fes, written)).
Proof.
  intros Hp Hget. unfold merge_step. rewrite Hget, Hp.
  cbn [negb andb rbind]. now rewrite Hget.
Qed.

(** The same when the writer takes the entry. *)
Lemma merge_step_preprint (urls : Urls) (fes : Formatted) (written : list Document)
    (ID : string) (entry : Document) :
  prefix "EPRINT" ID = true ->
  Dict.get ID fes = Some entry ->
  (Dict.mem "ignore" entry = false -> taken numeric_ok entry = true) ->
  merge_step numeric_ok urls (fes, written) ID
  = Ok (fes, if Dict.mem "ignore" entry then written else written ++ [entry]).
Proof.
  intros Hp Hget Hy. rewrite (merge_step_preprint_writer _ _ _ _ _ Hp Hget).
  destruct (Dict.mem "ignore" entry); [reflexivity|].
  now rewrite add_document_taken by now apply Hy.
Qed.

(** One round of the second loop on a published entry whose title is a title
    of a preprint: the note is copied, the preprint is flagged, the entry
    goes to the writer. *)
Lemma merge_step_published_writer (urls : Urls) (fes : Formatted)
    (written : list Document) (ID eprint_ID : string) (entry eprint : Document)
    (title url : pyval) :
  prefix "EPRINT" ID = false ->
  Dict.get ID fes = Some entry ->
  Dict.get "title" entry = Some title ->
  Dict.get title urls = Some (url, eprint_ID) ->
  eprint_ID <> ID ->
  Dict.get eprint_ID fes = Some eprint ->
  Dict.mem "ignore" entry = false ->
  merge_step numeric_ok urls (fes, written) ID
  = rbind (add_document numeric_ok (Dict.set "note" url entry) written)
          (fun written =>
             Ok (Dict.set eprint_ID (Dict.set "ignore" (PBool true) eprint)
                   (Dict.set ID (Dict.set "note" url entry) fes),
                 written)).
Proof.
  intros Hp Hget Ht Hu Hne He Hi. unfold merge_step.
  rewrite Hget, Hp. unfold Dict.mem at 1. rewrite Ht.
  cbn [negb andb]. rewrite Hu.
  rewrite get_set_other by congruence. rewrite He. cbn [rbind].
  rewrite get_set_other by congruence. rewrite get_set_same.
  rewrite mem_set_other by discriminate. now rewrite Hi.
Qed.

(** The same when the writer takes the entry. *)
Lemma merge_step_published (urls : Urls) (fes : Formatted) (written : list Document)
    (ID eprint_ID : string) (entry eprint : Document) (title url : pyval) :
  prefix "EPRINT" ID = false ->
  Dict.get ID fes = Some entry ->
  Dict.get "title" entry = Some title ->
  Dict.get title urls = Some (url, eprint_ID) ->
  eprint_ID <> ID ->
  Dict.get eprint_ID fes = Some eprint ->
  Dict.mem "ignore" entry = false ->
  taken numeric_ok entry = true ->
  merge_step numeric_ok urls (fes, written) ID
  = Ok (Dict.set eprint_ID (Dict.set "ignore" (PBool true) eprint)
          (Dict.set ID (Dict.set "note" url entry) fes),
        written ++ [Dict.set "note" url entry]).
Proof.
  intros Hp Hget Ht Hu Hne He Hi Hy.
  rewrite (merge_step_published_writer _ _ _ _ _ _ _ _ _ Hp Hget Ht Hu Hne He Hi).
  rewrite add_document_taken; [reflexivity|].
  now rewrite taken_set_other by discriminate.
Qed.

Lemma prefix_differs (a b : string) :
  prefix "EPRINT" a = true -> prefix "EPRINT" b = false -> a <> b.
Proof. intros Ha Hb E. congruence. Qed.

(** Rewriting the comparisons of keys that are known to differ. *)
Ltac keys_differ :=
  repeat match goal with
         | H : ?a <> ?b |- context [String.eqb ?a ?b] =>
             rewrite (proj2 (String.eqb_neq a b) H)
         | H : ?a <> ?b |- context [String.eqb ?b ?a] =>
             rewrite (proj2 (String.eqb_neq b a) (not_eq_sym H))
         | |- context [String.eqb ?a ?a] => rewrite (String.eqb_refl a)
         end.

(** The writer takes an entry whose year it is assumed to take. *)
Ltac writer_takes :=
  try intros _; rewrite ?taken_set_other by discriminate;
  rewrite taken_format_entry; assumption.

Ltac run_store :=
  repeat (progress (cbn [Dict.set Dict.get Dict.keys map fst key_eqb string_Hashable
                         pyval_Hashable pyval_eqb]; keys_differ)).

Lemma preprint_then_published (e p : Entry) (t n : string) :
  prefix "EPRINT" (key e) = true ->
  prefix "EPRINT" (key p) = false ->
  Dict.get "title" (fields e) = Some t ->
  Dict.get "note" (fields e) = Some n ->
  Dict.get "title" (fields p) = Some t ->
  build_documents to_bibtex numeric_ok [e; p]
  = if year_taken numeric_ok e && year_taken numeric_ok p
    then Ok [format_entry to_bibtex (key e) e;
             Dict.set "note" (PStr (clean_field n))
                      (format_entry to_bibtex (key p) p)]
    else Raise ValueError.
Proof.
  intros He Hp Het Hen Hpt.
  pose proof (prefix_differs _ _ He Hp) as Hne.
  unfold build_documents, items. cbn [map for_each].
  rewrite format_step_spec. cbv zeta. rewrite He, Het, Hen. cbn [rbind].
  rewrite format_step_spec. cbv zeta. rewrite Hp. cbn [rbind].
  run_store. cbn [map fst for_each].
  rewrite (merge_step_preprint_writer _ _ _ _ (format_entry to_bibtex (key e) e));
    [|exact He|run_store; reflexivity].
  rewrite format_entry_not_ignored.
  destruct (year_taken numeric_ok e) eqn:Hye; cbn [andb];
    [|now rewrite add_document_refused by now rewrite taken_format_entry].
  rewrite add_document_taken by now rewrite taken_format_entry.
  cbn [rbind app].
  rewrite (merge_step_published_writer _ _ _ (key p) (key e)
             (format_entry to_bibtex (key p) p) (format_entry to_bibtex (key e) e)
             (PStr (clean_field t)) (PStr (clean_field n)));
    [|exact Hp|run_store; reflexivity|now rewrite get_title_fmt, Hpt
     |run_store; reflexivity|exact Hne|run_store; reflexivity
     |apply format_entry_not_ignored].
  destruct (year_taken numeric_ok p) eqn:Hyp.
  - rewrite add_document_taken; [reflexivity|].
    now rewrite taken_set_other, taken_format_entry by discriminate.
  - rewrite add_document_refused; [reflexivity|].
    now rewrite taken_set_other, taken_format_entry by discriminate.
Qed.

Ltac first_loop_preprint He Ht Hn :=
  rewrite format_step_spec; cbv zeta; rewrite He, Ht, Hn; cbn [rbind].

Ltac first_loop_published Hp :=
  rewrite format_step_spec; cbv zeta; rewrite Hp; cbn [rbind].

Ltac second_loop_preprint entry He :=
  rewrite (merge_step_preprint _ _ _ _ entry);
  [|exact He|run_store; reflexivity|writer_takes];
  rewrite ?format_entry_not_ignored, ?mem_set_same; cbn [rbind app].

Ltac second_loop_published p e t n Hp Hpt Hne :=
  rewrite (merge_step_published _ _ _ (key p) (key e)
             (format_entry to_bibtex (key p) p) (format_entry to_bibtex (key e) e)
             (PStr (clean_field t)) (PStr (clean_field n)));
  [|exact Hp|run_store; reflexivity|now rewrite get_title_fmt, Hpt
   |run_store; reflexivity|exact Hne|run_store; reflexivity
   |apply format_entry_not_ignored|writer_takes];
  cbn [rbind app]; run_store.

(** The published entry first: the preprint is flagged before its round and
    is not written. *)
Lemma published_then_preprint (e p : Entry) (t n : string) :
  prefix "EPRINT" (key e) = true ->
  prefix "EPRINT" (key p) = false ->
  Dict.get "title" (fields e) = Some t ->
  Dict.get "note" (fields e) = Some n ->
  Dict.get "title" (fields p) = Some t ->
  year_taken numeric_ok e = true ->
  year_taken numeric_ok p = true ->
  build_documents to_bibtex numeric_ok [p; e]
  = Ok [Dict.set "note" (PStr (clean_field n)) (format_entry to_bibtex (key p) p)].
Proof.
  intros He Hp Het Hen Hpt Hye Hyp.
  pose proof (prefix_differs _ _ He Hp) as Hne.
  unfold build_documents, items. cbn [map for_each].
  first_loop_published Hp. first_loop_preprint He Het Hen.
  run_store. cbn [map fst for_each].
  second_loop_published p e t n Hp Hpt Hne.
  second_loop_preprint (Dict.set "ignore" (PBool true) (format_entry to_bibtex (key e) e)) He.
  reflexivity.
Qed.

Section TwoPreprints.
Variables e1 e2 p : Entry.
Variables t n1 n2 : string.
Hypothesis He1 : prefix "EPRINT" (key e1) = true.
Hypothesis He2 : prefix "EPRINT" (key e2) = true.
Hypothesis Hp : prefix "EPRINT" (key p) = false.
Hypothesis Hkeys : key e1 <> key e2.
Hypothesis Ht1 : Dict.get "title" (fields e1) = Some t.
Hypothesis Ht2 : Dict.get "title" (fields e2) = Some t.
Hypothesis Htp : Dict.get "title" (fields p) = Some t.
Hypothesis Hn1 : Dict.get "note" (fields e1) = Some n1.
Hypothesis Hn2 : Dict.get "note" (fields e2) = Some n2.
Hypothesis Hy1 : year_taken numeric_ok e1 = true.
Hypothesis Hy2 : year_taken numeric_ok e2 = true.
Hypothesis Hyp : year_taken numeric_ok p = true.

Lemma two_preprints_then_published :
  build_documents to_bibtex numeric_ok [e1; e2; p]
  = Ok [format_entry to_bibtex (key e1) e1;
        format_entry to_bibtex (key e2) e2;
        Dict.set "note" (PStr (clean_field n2)) (format_entry to_bibtex (key p) p)].
Proof.
  pose proof (prefix_differs _ _ He1 Hp) as Hne1.
  pose proof (prefix_differs _ _ He2 Hp) as Hne2.
  unfold build_documents, items. cbn [map for_each].
  first_loop_preprint He1 Ht1 Hn1. first_loop_preprint He2 Ht2 Hn2.
  first_loop_published Hp.
  run_store. cbn [map fst for_each].
  second_loop_preprint (format_entry to_bibtex (key e1) e1) He1.
  second_loop_preprint (format_entry to_bibtex (key e2) e2) He2.
  second_loop_published p e2 t n2 Hp Htp Hne2.
  reflexivity.
Qed.

Lemma preprint_published_preprint :
  build_documents to_bibtex numeric_ok [e1; p; e2]
  = Ok [format_entry to_bibtex (key e1) e1;
        Dict.set "note" (PStr (clean_field n2)) (format_entry to_bibtex (key p) p)].
Proof.
  pose proof (prefix_differs _ _ He1 Hp) as Hne1.
  pose proof (prefix_differs _ _ He2 Hp) as Hne2.
  unfold build_documents, items. cbn [map for_each].
  first_loop_preprint He1 Ht1 Hn1. first_loop_published Hp.
  first_loop_preprint He2 Ht2 Hn2.
  run_store. cbn [map fst for_each].
  second_loop_preprint (format_entry to_bibtex (key e1) e1) He1.
  second_loop_published p e2 t n2 Hp Htp Hne2.
  second_loop_preprint (Dict.set "ignore" (PBool true) (format_entry to_bibtex (key e2) e2)) He2.
  reflexivity.
Qed.

Lemma published_then_two_preprints :
  build_documents to_bibtex numeric_ok [p; e1; e2]
  = Ok [Dict.set "note" (PStr (clean_field n2)) (format_entry to_bibtex (key p) p);
        format_entry to_bibtex (key e1) e1].
Proof.
  pose proof (prefix_differs _ _ He1 Hp) as Hne1.
  pose proof (prefix_differs _ _ He2 Hp) as Hne2.
  unfold build_documents, items. cbn [map for_each].
  first_loop_published Hp. first_loop_preprint He1 Ht1 Hn1.
  first_loop_preprint He2 Ht2 Hn2.
  run_store. cbn [map fst for_each].
  second_loop_published p e2 t n2 Hp Htp Hne2.
  second_loop_preprint (format_entry to_bibtex (key e1) e1) He1.
  second_loop_preprint (Dict.set "ignore" (PBool true) (format_entry to_bibtex (key e2) e2)) He2.
  reflexivity.
Qed.

End TwoPreprints.

(** Without preprint titles nothing is merged. *)
Lemma merge_step_no_urls (fes : Formatted) (written : list Document)
    (ID : string) (entry : Document) :
  Dict.get ID fes = Some entry ->
  merge_step numeric_ok [] (fes, written) ID
  = if Dict.mem "ignore" entry then Ok (fes, written)
    else rbind (add_document numeric_ok entry written)
               (fun written => Ok (fes, written)).
Proof.
  intros Hget. unfold merge_step. rewrite Hget.
  assert (E : (if negb (prefix "EPRINT" ID) && Dict.mem "title" entry
               then match Dict.get "title" entry with
                    | Some title =>
                        match Dict.get title ([] : Urls) with
                        | Some (url, eprint_ID) =>
                            match Dict.get eprint_ID
                                    (Dict.set ID (Dict.set "note" url entry) fes) with
                            | Some eprint =>
                                Ok (Dict.set eprint_ID
                                      (Dict.set "ignore" (PBool true) eprint)
                                      (Dict.set ID (Dict.set "note" url entry) fes))
                            | None => Raise (KeyError eprint_ID)
                            end
                        | None => Ok fes
                        end
                    | None => Raise (KeyError "title")
                    end
               else Ok fes) = Ok fes).
  { destruct (negb (prefix "EPRINT" ID)); cbn [andb]; [|reflexivity].
    unfold Dict.mem. now destruct (Dict.get "title" entry). }
  rewrite E. cbn [rbind]. now rewrite Hget.
Qed.


End WithSerializer.

Lemma get_ID_format_entry (to_bibtex : string -> Entry -> string) (ID : string)
    (entry : Entry) :
  Dict.get "ID" (format_entry to_bibtex ID entry) = Some (PStr (key entry)).
Proof. now rewrite get_format_entry. Qed.

(** C10: when the bibliography holds a preprint entry (key starting with
    [EPRINT]) that has a title and no note, [create_index] raises
    [KeyError('note')] in the first loop; nothing is committed, and the
    target directory is left with the empty index made at the start. *)
Theorem preprint_without_note_aborts (w : World) (cryptobib indexdir : string)
    (st : Storage) (old : option (list Document)) (f1 f2 : string)
    (db : list Entry) (e : Entry) :
  st indexdir = Directory old ->
  read_file w (path_join w (path_dirname w cryptobib) ABBREV_DEFAULT) = Some f1 ->
  read_file w cryptobib = Some f2 ->
  parse_file w (f1 ++ String Str.newline f2) = Some db ->
  In e db ->
  noteless_preprint e ->
  create_index w cryptobib indexdir st
  = (Raise (KeyError "note"), store st indexdir (Directory (Some []))).
Proof.
  intros Hdir Hf1 Hf2 Hdb Hin Hbad.
  unfold create_index, create_in, open_read, parse, bind, lift.
  rewrite Hdir, Hf1, Hf2, Hdb.
  now rewrite (build_documents_noteless (to_bibtex w) (numeric_ok w) db e Hin Hbad).
Qed.

Lemma preprint_without_note_aborts_witness :
  In eprint_bare [c_foo; eprint_bare]
  /\ noteless_preprint eprint_bare
  /\ create_index (world_of [c_foo; eprint_bare]) "crypto.bib" "cbindex" empty_storage
     = (Raise (KeyError "note"),
        store empty_storage "cbindex" (Directory (Some []))).
Proof.
  assert (Hin : In eprint_bare [c_foo; eprint_bare]) by (right; left; reflexivity).
  assert (Hbad : noteless_preprint eprint_bare) by (repeat split).
  refine (conj Hin (conj Hbad _)).
  exact (preprint_without_note_aborts (world_of [c_foo; eprint_bare])
           "crypto.bib" "cbindex" empty_storage None "" "" _ _
           eq_refl eq_refl eq_refl eq_refl Hin Hbad).
Defined.

(** C2, on the code: when the preprint comes before the published entry of
    the same title, the note is copied but the preprint is written too, since
    it is flagged only after its own round of the second loop: the index
    holds both documents (the build raises only when the writer refuses the
    year of one of the two). *)
Theorem preprint_first_stays_indexed (to_bibtex : string -> Entry -> string)
    (numeric_ok : string -> bool) (e p : Entry) (t n : string) :
  prefix "EPRINT" (key e) = true ->
  prefix "EPRINT" (key p) = false ->
  Dict.get "title" (fields e) = Some t ->
  Dict.get "note" (fields e) = Some n ->
  Dict.get "title" (fields p) = Some t ->
  exists docs,
    build_documents to_bibtex numeric_ok [e; p]
    = (if year_taken numeric_ok e && year_taken numeric_ok p
       then Ok docs else Raise ValueError)
    /\ docs = [format_entry to_bibtex (key e) e;
               Dict.set "note" (PStr (clean_field n))
                        (format_entry to_bibtex (key p) p)]
    /\ ids docs = [Some (PStr (key e)); Some (PStr (key p))].
Proof.
  intros He Hp Het Hen Hpt. eexists. split; [|split; [reflexivity|]].
  - now apply (preprint_then_published to_bibtex numeric_ok e p t n).
  - unfold ids. cbn [map]. rewrite get_ID_format_entry.
    rewrite get_set_other by discriminate. now rewrite get_ID_format_entry.
Qed.

Lemma preprint_first_stays_indexed_witness :
  exists docs,
    build_documents plain_bibtex digits [eprint_foo; c_foo] = Ok docs
    /\ docs = [format_entry plain_bibtex "EPRINT:Foo" eprint_foo;
               Dict.set "note" (PStr "N") (format_entry plain_bibtex "C:Foo" c_foo)]
    /\ ids docs = [Some (PStr "EPRINT:Foo"); Some (PStr "C:Foo")].
Proof.
  exact (preprint_first_stays_indexed plain_bibtex digits eprint_foo c_foo "X" "N"
           eq_refl eq_refl eq_refl eq_refl eq_refl).
Defined.

(** The documents of that index, written out. *)
Example preprint_first_index :
  build_documents plain_bibtex digits [eprint_foo; c_foo]
  = Ok [[("ID", PStr "EPRINT:Foo"); ("bibtex", PStr "@misc{EPRINT:Foo}");
         ("author", PStr ""); ("title", PStr "X"); ("note", PStr "N");
         ("acronyms", PStr "")];
        [("ID", PStr "C:Foo"); ("bibtex", PStr "@misc{C:Foo}");
         ("author", PStr ""); ("title", PStr "X"); ("acronyms", PStr "");
         ("note", PStr "N")]].
Proof. reflexivity. Qed.

(** In the other order the merge does what C2 says: one document, the
    published one, with the note of the preprint. *)
Example published_first_index :
  build_documents plain_bibtex digits [c_foo; eprint_foo]
  = Ok [[("ID", PStr "C:Foo"); ("bibtex", PStr "@misc{C:Foo}");
         ("author", PStr ""); ("title", PStr "X"); ("acronyms", PStr "");
         ("note", PStr "N")]].
Proof. reflexivity. Qed.

(** A year that is no number for the engine: the writer refuses the
    document and the build raises. *)
Example non_integer_year_aborts :
  build_documents plain_bibtex digits
    [entry_of "C:Foo20" [("title", "X"); ("year", "20xx")]]
  = Raise ValueError.
Proof. reflexivity. Qed.

(** C7, as the spec states it, fails: with the published entry first, the
    last preprint is flagged before its round and is not written; the index
    holds the published entry and the first preprint only. *)
Lemma last_preprint_suppressed :
  build_documents plain_bibtex digits [c_foo; eprint_foo; eprint_foo2]
  = Ok [[("ID", PStr "C:Foo"); ("bibtex", PStr "@misc{C:Foo}");
         ("author", PStr ""); ("title", PStr "X"); ("acronyms", PStr "");
         ("note", PStr "N2")];
        [("ID", PStr "EPRINT:Foo"); ("bibtex", PStr "@misc{EPRINT:Foo}");
         ("author", PStr ""); ("title", PStr "X"); ("note", PStr "N");
         ("acronyms", PStr "")]].
Proof. reflexivity. Qed.

(** C7, amended: of two preprints [e1], [e2] (in this order) and one
    published entry [p] of the same title, in any place of the three, when
    the writer takes the year of each of the three, the published document
    gets the note of [e2], the last preprint, and of no other entry; the
    document of [e1] is written as formatted, unmerged. *)
Theorem duplicate_preprints_spec (to_bibtex : string -> Entry -> string)
    (numeric_ok : string -> bool) (e1 e2 p : Entry) (t n1 n2 : string)
    (db : list Entry) :
  prefix "EPRINT" (key e1) = true ->
  prefix "EPRINT" (key e2) = true ->
  prefix "EPRINT" (key p) = false ->
  key e1 <> key e2 ->
  Dict.get "title" (fields e1) = Some t ->
  Dict.get "title" (fields e2) = Some t ->
  Dict.get "title" (fields p) = Some t ->
  Dict.get "note" (fields e1) = Some n1 ->
  Dict.get "note" (fields e2) = Some n2 ->
  year_taken numeric_ok e1 = true ->
  year_taken numeric_ok e2 = true ->
  year_taken numeric_ok p = true ->
  db = [e1; e2; p] \/ db = [e1; p; e2] \/ db = [p; e1; e2] ->
  exists docs,
    build_documents to_bibtex numeric_ok db = Ok docs
    /\ In (Dict.set "note" (PStr (clean_field n2)) (format_entry to_bibtex (key p) p))
          docs
    /\ In (format_entry to_bibtex (key e1) e1) docs
    /\ (forall d, In d docs ->
                  Dict.get "ID" d = Some (PStr (key p)) ->
                  Dict.get "note" d = Some (PStr (clean_field n2))).
Proof.
  intros He1 He2 Hp Hkeys Ht1 Ht2 Htp Hn1 Hn2 Hy1 Hy2 Hyp Hdb.
  pose proof (prefix_differs _ _ He1 Hp) as Hne1.
  pose proof (prefix_differs _ _ He2 Hp) as Hne2.
  assert (Hmerged : forall d,
             d = Dict.set "note" (PStr (clean_field n2))
                          (format_entry to_bibtex (key p) p) ->
             Dict.get "note" d = Some (PStr (clean_field n2))).
  { intros d ->. apply get_set_same. }
  assert (Hother : forall e d,
             key e <> key p -> d = format_entry to_bibtex (key e) e ->
             Dict.get "ID" d = Some (PStr (key p)) -> False).
  { intros e d Hne -> Hid. rewrite get_ID_format_entry in Hid. congruence. }
  destruct Hdb as [->|[->| ->]]; eexists.
  - split; [apply (two_preprints_then_published to_bibtex numeric_ok e1 e2 p t n1 n2);
            assumption|].
    cbv zeta. split; [simpl; auto|]. split; [simpl; auto|].
    intros d [Hd|[Hd|[Hd|[]]]] Hid; symmetry in Hd.
    + exfalso. exact (Hother e1 d Hne1 Hd Hid).
    + exfalso. exact (Hother e2 d Hne2 Hd Hid).
    + now apply Hmerged.
  - split; [apply (preprint_published_preprint to_bibtex numeric_ok e1 e2 p t n1 n2);
            assumption|].
    cbv zeta. split; [simpl; auto|]. split; [simpl; auto|].
    intros d [Hd|[Hd|[]]] Hid; symmetry in Hd.
    + exfalso. exact (Hother e1 d Hne1 Hd Hid).
    + now apply Hmerged.
  - split; [apply (published_then_two_preprints to_bibtex numeric_ok e1 e2 p t n1 n2);
            assumption|].
    cbv zeta. split; [simpl; auto|]. split; [simpl; auto|].
    intros d [Hd|[Hd|[]]] Hid; symmetry in Hd.
    + now apply Hmerged.
    + exfalso. exact (Hother e1 d Hne1 Hd Hid).
Qed.

Lemma duplicate_preprints_spec_witness :
  exists docs,
    build_documents plain_bibtex digits [c_foo; eprint_foo; eprint_foo2] = Ok docs
    /\ In (Dict.set "note" (PStr "N2") (format_entry plain_bibtex "C:Foo" c_foo)) docs
    /\ In (format_entry plain_bibtex "EPRINT:Foo" eprint_foo) docs
    /\ (forall d, In d docs ->
                  Dict.get "ID" d = Some (PStr "C:Foo") ->
                  Dict.get "note" d = Some (PStr "N2")).
Proof.
  assert (Hkeys : key eprint_foo <> key eprint_foo2) by discriminate.
  exact (duplicate_preprints_spec plain_bibtex digits eprint_foo eprint_foo2 c_foo
           "X" "N" "N2" [c_foo; eprint_foo; eprint_foo2]
           eq_refl eq_refl eq_refl Hkeys eq_refl eq_refl eq_refl eq_refl eq_refl
           eq_refl eq_refl eq_refl (or_intror (or_intror eq_refl))).
Defined.

End MergeFacts.

(** ** Failure of the index creation (C6) *)

Module StoreFacts.

Lemma store_same (st : Storage) (dir : string) (d : dir_state) :
  store st dir d dir = d.
Proof. unfold store. now rewrite String.eqb_refl. Qed.

Lemma store_other (st : Storage) (dir dir' : string) (d : dir_state) :
  dir' <> dir -> store st dir d dir' = st dir'.
Proof. intros Hne. unfold store. apply String.eqb_neq in Hne. now rewrite Hne. Qed.

(** C6, as the spec states it, fails: the bibliography does not parse, the
    build raises, and the index that was at the target before is gone: a
    search there sees an empty index. *)
Lemma failed_parse_loses_prior_index :
  open_dir (storage_with [prior_document]) "cbindex" = Ok [prior_document]
  /\ fst (create_index unparsable_world "crypto.bib" "cbindex"
            (storage_with [prior_document]))
     = Raise PybtexError
  /\ open_dir (snd (create_index unparsable_world "crypto.bib" "cbindex"
                      (storage_with [prior_document]))) "cbindex"
     = Ok [].
Proof. repeat split. Qed.

(** C6, amended: when [create_index] raises, either the target directory is
    missing and the store is unchanged, or the target holds the new, empty
    index made at the start: no document of the failed build is searchable,
    and neither is the index that was there before; every other directory is
    as it was. *)
Theorem failed_create_index_spec (w : World) (cryptobib indexdir : string)
    (st st' : Storage) (e : exn) :
  create_index w cryptobib indexdir st = (Raise e, st') ->
  (st indexdir = Missing /\ e = OSError indexdir /\ st' = st)
  \/ ((exists old, st indexdir = Directory old)
      /\ st' = store st indexdir (Directory (Some []))
      /\ open_dir st' indexdir = Ok []
      /\ (forall dir, dir <> indexdir -> st' dir = st dir)).
Proof.
  unfold create_index, create_in, open_read, parse, commit, bind, lift, ret.
  destruct (st indexdir) as [|old] eqn:Hdir.
  - intros H. injection H as <- <-. now left.
  - intros H. right.
    assert (E : st' = store st indexdir (Directory (Some []))).
    { destruct (read_file w _); [|now injection H].
      destruct (read_file w cryptobib); [|now injection H].
      destruct (parse_file w _); [|now injection H].
      destruct (build_documents _ _ _); [|now injection H].
      destruct (commit_ok w _); [discriminate|now injection H]. }
    subst st'. split; [now exists old|]. split; [reflexivity|]. split.
    + unfold open_dir. now rewrite store_same.
    + intros dir Hne. now apply store_other.
Qed.

Lemma failed_create_index_spec_witness :
  create_index unparsable_world "crypto.bib" "cbindex" (storage_with [prior_document])
  = (Raise PybtexError,
     store (storage_with [prior_document]) "cbindex" (Directory (Some [])))
  /\ open_dir (store (storage_with [prior_document]) "cbindex" (Directory (Some [])))
              "cbindex"
     = Ok [].
Proof.
  assert (H : create_index unparsable_world "crypto.bib" "cbindex"
                (storage_with [prior_document])
              = (Raise PybtexError,
                 store (storage_with [prior_document]) "cbindex"
                       (Directory (Some [])))) by reflexivity.
  split; [exact H|].
  destruct (failed_create_index_spec _ _ _ _ _ _ H) as [(Hm & _)|(_ & _ & Ho & _)];
    [discriminate Hm|exact Ho].
Defined.

(** When nothing fails, the documents are committed together: the index
    holds the stored fields of each. *)
Lemma create_index_commits (w : World) (cryptobib indexdir : string)
    (st st' : Storage) (idx : string) :
  create_index w cryptobib indexdir st = (Ok idx, st') ->
  exists f1 f2 db written,
    read_file w (path_join w (path_dirname w cryptobib) ABBREV_DEFAULT) = Some f1
    /\ read_file w cryptobib = Some f2
    /\ parse_file w (f1 ++ String Str.newline f2) = Some db
    /\ build_documents (to_bibtex w) (numeric_ok w) db = Ok written
    /\ idx = indexdir
    /\ open_dir st' indexdir = Ok (map stored_fields written).
Proof.
  unfold create_index, create_in, open_read, parse, commit, bind, lift, ret.
  destruct (st indexdir) as [|old] eqn:Hdir; [discriminate|].
  destruct (read_file w _) as [f1|] eqn:Hf1; [|discriminate].
  destruct (read_file w cryptobib) as [f2|] eqn:Hf2; [|discriminate].
  destruct (parse_file w _) as [db|] eqn:Hdb; [|discriminate].
  destruct (build_documents _ _ _) as [written|] eqn:Hb; [|discriminate].
  destruct (commit_ok w _); [|discriminate].
  intros H. injection H as <- <-.
  exists f1, f2, db, written. repeat split; try assumption.
  unfold open_dir. now rewrite store_same.
Qed.

(** When the writer refuses a year, nothing is committed: the directory is
    left with the empty index made at the start. *)
Example refused_year_leaves_empty_index :
  create_index (world_of [entry_of "C:Foo20" [("title", "X"); ("year", "20xx")]])
    "crypto.bib" "cbindex" (storage_with [prior_document])
  = (Raise ValueError,
     store (storage_with [prior_document]) "cbindex" (Directory (Some []))).
Proof. reflexivity. Qed.

(** The stored fields of a document come in the order of their names. *)
Example stored_fields_by_name :
  stored_fields c_foo_merged
  = [("ID", PStr "C:Foo"); ("acronyms", PStr ""); ("author", PStr "");
     ("bibtex", PStr "@misc{C:Foo}"); ("note", PStr "N"); ("title", PStr "X")].
Proof. reflexivity. Qed.

End StoreFacts.

(** ** Ranking and limit of the search (C3) *)

Module RankFacts.

Section Sorting.
Variable before : Document -> Document -> bool.
Hypothesis before_total : forall a b, before a b = false -> before b a = true.
Hypothesis before_trans :
  forall a b c, before a b = true -> before b c = true -> before a c = true.

Lemma insert_ranked_perm (d : Document) (l : list Document) :
  Permutation (insert_ranked before d l) (d :: l).
Proof.
  induction l as [|d' l IH]; simpl; [reflexivity|].
  destruct (before d d'); [reflexivity|].
  rewrite IH. apply perm_swap.
Qed.

Lemma rank_perm (l : list Document) : Permutation (rank before l) l.
Proof.
  induction l as [|d l IH]; simpl; [reflexivity|].
  rewrite insert_ranked_perm. now constructor.
Qed.

Lemma insert_ranked_sorted (d : Document) (l : list Document) :
  StronglySorted (fun a b => before a b = true) l ->
  StronglySorted (fun a b => before a b = true) (insert_ranked before d l).
Proof.
  induction 1 as [|d' l Hs IH Hd']; simpl.
  - repeat constructor.
  - destruct (before d d') eqn:Hdd.
    + constructor; [now constructor|].
      constructor; [exact Hdd|].
      eapply Forall_impl; [|exact Hd'].
      intros z Hz. now apply (before_trans d d' z).
    + constructor; [exact IH|].
      eapply Permutation_Forall; [symmetry; apply insert_ranked_perm|].
      constructor; [now apply before_total|exact Hd'].
Qed.

Lemma rank_sorted (l : list Document) :
  StronglySorted (fun a b => before a b = true) (rank before l).
Proof.
  induction l as [|d l IH]; simpl; [constructor|now apply insert_ranked_sorted].
Qed.

End Sorting.

Section WithEngine.
Variable eng : Engine.

Lemma ranks_before_first (q : Query) (a b : Document) :
  ranks_before eng q "year" true a b = true <-> ranks_first eng q a b.
Proof.
  unfold ranks_before, ranks_first. cbv zeta.
  rewrite orb_true_iff, andb_true_iff, Z.ltb_lt, Z.eqb_eq, Z.leb_le. tauto.
Qed.

Lemma ranks_before_total (q : Query) (a b : Document) :
  ranks_before eng q "year" true a b = false ->
  ranks_before eng q "year" true b a = true.
Proof.
  intros H. apply ranks_before_first.
  assert (Hn : ~ ranks_first eng q a b).
  { intros Hf. apply ranks_before_first in Hf. congruence. }
  unfold ranks_first in *. lia.
Qed.

Lemma ranks_before_trans (q : Query) (a b c : Document) :
  ranks_before eng q "year" true a b = true ->
  ranks_before eng q "year" true b c = true ->
  ranks_before eng q "year" true a c = true.
Proof.
  rewrite !ranks_before_first. unfold ranks_first. lia.
Qed.

(** Between documents of different years the year alone decides. *)
Lemma ranks_before_years (q : Query) (a b : Document) (ya yb : Z) :
  sortable eng "year" a = ya -> sortable eng "year" b = yb -> ya <> yb ->
  ranks_before eng q "year" true a b = (yb <? ya)%Z.
Proof.
  intros <- <- Hne. unfold ranks_before. cbv zeta.
  apply Z.eqb_neq in Hne. rewrite Hne. cbn [andb]. apply orb_false_r.
Qed.

Lemma ranking_sorted (idx : list Document) (q : Query) :
  StronglySorted (ranks_first eng q) (ranking eng idx q).
Proof.
  unfold ranking.
  pose proof (rank_sorted _ (ranks_before_total q) (ranks_before_trans q)
                (filter (matches eng SEARCHABLE_FIELDS q) idx)) as Hs.
  induction Hs as [|d l Hs IH Hd]; constructor; [exact IH|].
  eapply Forall_impl; [|exact Hd].
  intros b Hb. now apply ranks_before_first.
Qed.

Lemma ranking_perm (idx : list Document) (q : Query) :
  Permutation (ranking eng idx q) (filter (matches eng SEARCHABLE_FIELDS q) idx).
Proof. apply rank_perm. Qed.

End WithEngine.
Lemma StronglySorted_firstn {A : Type} (R : A -> A -> Prop) (n : nat) (l : list A) :
  StronglySorted R l -> StronglySorted R (firstn n l).
Proof.
  intros Hs. revert n. induction Hs as [|a l Hs IH Ha]; intros [|n]; simpl;
    try constructor.
  - apply IH.
  - apply Forall_forall. intros x Hx.
    apply (proj1 (Forall_forall _ _) Ha).
    rewrite <- (firstn_skipn n l). apply in_or_app. now left.
Qed.

(** C3: the results of a query are the first [searchlimit] documents of the
    ranking of the matching documents, and the ranking is by descending year,
    ties by descending relevance score.  Three matching documents of the
    years 2020, 2015 and 2023 come back as 2023, 2020, 2015; a limit of 2 on 5
    matching documents gives exactly the first 2 of the ranking. *)
Theorem search_ranked_and_limited (eng : Engine) (idx : list Document)
    (query : string) (q : Query) (searchlimit : nat) :
  parse_query eng query = Some q ->
  exists results,
    search_results eng idx query searchlimit = Ok results
    /\ results = firstn searchlimit (ranking eng idx q)
    /\ Permutation (ranking eng idx q) (filter (matches eng SEARCHABLE_FIELDS q) idx)
    /\ StronglySorted (ranks_first eng q) (ranking eng idx q)
    /\ StronglySorted (ranks_first eng q) results
    /\ List.length results
       = Nat.min searchlimit (List.length (filter (matches eng SEARCHABLE_FIELDS q) idx))
    /\ (forall d1 d2 d3,
           idx = [d1; d2; d3] ->
           matches eng SEARCHABLE_FIELDS q d1 = true ->
           matches eng SEARCHABLE_FIELDS q d2 = true ->
           matches eng SEARCHABLE_FIELDS q d3 = true ->
           sortable eng "year" d1 = 2020%Z ->
           sortable eng "year" d2 = 2015%Z ->
           sortable eng "year" d3 = 2023%Z ->
           3 <= searchlimit ->
           results = [d3; d1; d2])
    /\ (List.length (filter (matches eng SEARCHABLE_FIELDS q) idx) = 5 ->
        searchlimit = 2 ->
        List.length results = 2 /\ results = firstn 2 (ranking eng idx q)).
Proof.
  intros Hq. exists (firstn searchlimit (ranking eng idx q)).
  split; [unfold search_results; now rewrite Hq|].
  split; [reflexivity|].
  split; [apply ranking_perm|].
  split; [apply ranking_sorted|].
  split; [apply StronglySorted_firstn, ranking_sorted|].
  assert (Hlen : List.length (firstn searchlimit (ranking eng idx q))
                 = Nat.min searchlimit
                     (List.length (filter (matches eng SEARCHABLE_FIELDS q) idx))).
  { rewrite length_firstn. now rewrite (Permutation_length (ranking_perm eng idx q)). }
  split; [exact Hlen|]. split.
  - intros d1 d2 d3 -> H1 H2 H3 Y1 Y2 Y3 Hlim.
    unfold ranking. cbn [filter]. rewrite H1, H2, H3.
    cbn [rank insert_ranked].
    rewrite (ranks_before_years eng q d2 d3 2015 2023 Y2 Y3) by discriminate.
    cbn [Z.ltb Z.compare Pos.compare Pos.compare_cont insert_ranked].
    rewrite (ranks_before_years eng q d1 d3 2020 2023 Y1 Y3) by discriminate.
    cbn [Z.ltb Z.compare Pos.compare Pos.compare_cont insert_ranked].
    rewrite (ranks_before_years eng q d1 d2 2020 2015 Y1 Y2) by discriminate.
    cbn [Z.ltb Z.compare Pos.compare Pos.compare_cont insert_ranked].
    now apply firstn_all2.
  - intros H5 ->. rewrite Hlen, H5. now split.
Qed.

Lemma search_ranked_and_limited_witness :
  parse_query word_engine "zk" = Some (Term None "zk")
  /\ search_results word_engine [doc_2020; doc_2015; doc_2023] "zk" 10
     = Ok [doc_2023; doc_2020; doc_2015].
Proof.
  assert (Hq : parse_query word_engine "zk" = Some (Term None "zk")) by reflexivity.
  split; [exact Hq|].
  destruct (search_ranked_and_limited word_engine [doc_2020; doc_2015; doc_2023]
              "zk" _ 10 Hq) as (results & Hres & _ & _ & _ & _ & _ & H3 & _).
  rewrite Hres. f_equal.
  apply (H3 doc_2020 doc_2015 doc_2023); try reflexivity. repeat constructor.
Defined.

(** The limit, run: of five matching documents, a limit of 2 keeps the two of
    the latest years. *)
Example search_limit_two :
  search_results word_engine
    [doc_2020; doc_2015; doc_2023;
     [("ID", PStr "C:D19"); ("title", PStr "zk four"); ("year", PStr "2019")];
     [("ID", PStr "C:E21"); ("title", PStr "zk five"); ("year", PStr "2021")]]
    "zk" 2
  = Ok [doc_2023;
        [("ID", PStr "C:E21"); ("title", PStr "zk five"); ("year", PStr "2021")]].
Proof. reflexivity. Qed.

End RankFacts.

(** ** Querying by citation key (C8) *)

Module QueryFacts.
Import DictFacts FormatFacts MergeFacts.


Section WithEngine.
Variable eng : Engine.


End WithEngine.



End QueryFacts.

(** ** The commas of the rendered fields (C9) *)

Module RenderFacts.
Import DictFacts.

Section WithTerminal.
Variable eng : Engine.
Variable isatty : bool.
Variable fill : string -> string.
Variable q : Query.

Lemma get_of_key (hit : Document) (k : string) :
  In k (Dict.keys hit) -> exists v, Dict.get k hit = Some v /\ In (k, v) hit.
Proof.
  unfold Dict.keys. induction hit as [|[k' v'] hit IH]; simpl; [contradiction|].
  change (key_eqb k k') with (String.eqb k k').
  destruct (String.eqb_spec k k') as [->|Hne].
  - intros _. exists v'. split; [reflexivity|now left].
  - intros [Hk|Hk]; [congruence|].
    destruct (IH Hk) as (v & Hv & Hin). exists v. split; [exact Hv|now right].
Qed.

Lemma render_field_displayed (hit : Document) (all_output : list string)
    (field text : string) :
  displayed field = true ->
  Dict.get field hit = Some (PStr text) ->
  render_field eng isatty fill q hit all_output field
  = Ok (all_output ++ [field_line eng isatty fill q hit field]).
Proof.
  unfold displayed, render_field, field_line, field_body.
  intros Hd Hget. apply negb_true_iff in Hd. rewrite Hd, Hget.
  destruct (String.eqb field (last (Dict.keys hit) "")); cbn [negb];
    [now rewrite StrFacts.append_empty_r|reflexivity].
Qed.

Lemma render_field_skipped (hit : Document) (all_output : list string)
    (field : string) :
  displayed field = false ->
  render_field eng isatty fill q hit all_output field = Ok all_output.
Proof.
  unfold displayed, render_field. intros Hd. apply negb_false_iff in Hd.
  now rewrite Hd.
Qed.

(** The loop over the fields: one line for each displayed field, in the
    order of the keys. *)
Lemma render_fields_loop (hit : Document) (fields : list string)
    (all_output : list string) :
  (forall k, In k fields -> exists s, Dict.get k hit = Some (PStr s)) ->
  for_each (render_field eng isatty fill q hit) fields all_output
  = Ok (all_output ++ map (field_line eng isatty fill q hit) (filter displayed fields)).
Proof.
  revert all_output. induction fields as [|f fields IH]; intros all_output Hall.
  - simpl. now rewrite app_nil_r.
  - cbn [for_each filter]. destruct (displayed f) eqn:Hd.
    + destruct (Hall f (or_introl eq_refl)) as [s Hs].
      rewrite (render_field_displayed _ _ _ s Hd Hs). cbn [rbind map].
      rewrite IH by (intros k Hk; apply Hall; now right).
      now rewrite <- app_assoc.
    + rewrite (render_field_skipped _ _ _ Hd). cbn [rbind].
      apply IH. intros k Hk. apply Hall. now right.
Qed.

End WithTerminal.

(** C9, as the spec states it, fails: with the raw output requested, the
    fields shown are [acronyms], [author], [title], [year] and [bibtex]; the
    line of [year], the last stored key, has no comma, and neither has the
    raw [bibtex] text that follows it. *)
Lemma two_fields_without_comma :
  render_hit word_engine false fill_line (Term None "zk") true [] hit_foo
  = Ok [String Str.newline "C:Foo12"; "        Foo12,"; "        Ann Foo,";
        "        Zk proofs,"; "        2012"; "@misc{C:Foo12}"]
  /\ map comma_terminated
       ["        Foo12,"; "        Ann Foo,"; "        Zk proofs,"; "        2012";
        "@misc{C:Foo12}"]
     = [true; true; true; false; false].
Proof. split; reflexivity. Qed.

(** The output for a hit whose stored values are texts: the emphasized key,
    then one line for each stored field other than [ID] and [bibtex], in the
    order of the stored fields, then the raw [bibtex] text when it was
    requested; the line of a field is its highlighted text with a comma
    appended, except for the field that is the last stored key of the hit. *)
Lemma render_hit_lines (eng : Engine) (isatty : bool) (fill : string -> string)
    (q : Query) (outputbibtex : bool) (all_output : list string) (hit : Document)
    (id : string) :
  Dict.get "ID" hit = Some (PStr id) ->
  (forall k v, In (k, v) hit -> exists s, v = PStr s) ->
  (outputbibtex = true -> exists b, Dict.get "bibtex" hit = Some (PStr b)) ->
  exists raw,
    render_hit eng isatty fill q outputbibtex all_output hit
    = Ok (all_output
          ++ [highlight_str isatty (String Str.newline id) false true]
          ++ map (field_line eng isatty fill q hit) (filter displayed (Dict.keys hit))
          ++ raw)
    /\ (outputbibtex = false -> raw = [])
    /\ (outputbibtex = true ->
        exists b, Dict.get "bibtex" hit = Some (PStr b) /\ raw = [b])
    /\ (forall field,
           field <> last (Dict.keys hit) "" ->
           field_line eng isatty fill q hit field
           = fill (field_body eng isatty q hit field ++ ",")%string)
    /\ field_line eng isatty fill q hit (last (Dict.keys hit) "")
       = fill (field_body eng isatty q hit (last (Dict.keys hit) "")).
Proof.
  intros Hid Hvals Hbib.
  assert (Hall : forall k, In k (Dict.keys hit) ->
                           exists s, Dict.get k hit = Some (PStr s)).
  { intros k Hk. destruct (get_of_key hit k Hk) as (v & Hv & Hin).
    destruct (Hvals k v Hin) as [s ->]. now exists s. }
  assert (Hlines : forall field,
             field <> last (Dict.keys hit) "" ->
             field_line eng isatty fill q hit field
             = fill (field_body eng isatty q hit field ++ ",")%string).
  { intros field Hne. unfold field_line.
    apply String.eqb_neq in Hne. now rewrite Hne. }
  assert (Hlast : field_line eng isatty fill q hit (last (Dict.keys hit) "")
                  = fill (field_body eng isatty q hit (last (Dict.keys hit) ""))).
  { unfold field_line. now rewrite String.eqb_refl, StrFacts.append_empty_r. }
  unfold render_hit, get_str. rewrite Hid. cbn [rbind].
  rewrite (render_fields_loop eng isatty fill q hit _ _ Hall). cbn [rbind].
  destruct outputbibtex.
  - destruct (Hbib eq_refl) as [b Hb]. exists [b]. rewrite Hb. cbn [rbind].
    split; [now rewrite <- !app_assoc|].
    split; [discriminate|]. split; [intros _; now exists b|]. now split.
  - exists []. split; [now rewrite app_nil_r, <- !app_assoc|].
    split; [reflexivity|]. split; [discriminate|]. now split.
Qed.

(** C9, amended: for a hit whose stored values are texts and whose last
    stored field is one that gets a line (neither [ID] nor [bibtex]), the
    rendered output is the emphasized key, then one line for each stored
    field other than [ID] and [bibtex], in the order of the stored fields,
    then the raw [bibtex] text when it was requested, with no comma
    appended; every line of a field but the last is the highlighted text of
    the field with a comma appended, and the last is the highlighted text
    alone. *)
Theorem rendered_fields_spec (eng : Engine) (isatty : bool) (fill : string -> string)
    (q : Query) (outputbibtex : bool) (all_output : list string) (hit : Document)
    (id : string) :
  Dict.get "ID" hit = Some (PStr id) ->
  (forall k v, In (k, v) hit -> exists s, v = PStr s) ->
  (outputbibtex = true -> exists b, Dict.get "bibtex" hit = Some (PStr b)) ->
  NoDup (Dict.keys hit) ->
  displayed (last (Dict.keys hit) "") = true ->
  exists front final raw,
    filter displayed (Dict.keys hit) = front ++ [final]
    /\ render_hit eng isatty fill q outputbibtex all_output hit
       = Ok (all_output
             ++ [highlight_str isatty (String Str.newline id) false true]
             ++ map (fun field =>
                       fill (field_body eng isatty q hit field ++ ",")%string)
                    front
             ++ [fill (field_body eng isatty q hit final)]
             ++ raw)
    /\ (outputbibtex = false -> raw = [])
    /\ (outputbibtex = true ->
        exists b, Dict.get "bibtex" hit = Some (PStr b) /\ raw = [b]).
Proof.
  intros Hid Hvals Hbib Hnd Hshown.
  destruct (render_hit_lines eng isatty fill q outputbibtex all_output hit id
              Hid Hvals Hbib) as (raw & Hr & Hraw0 & Hraw1 & Hlines & Hlast).
  assert (Hne : Dict.keys hit <> []) by (destruct hit; [discriminate|discriminate]).
  pose proof (app_removelast_last "" Hne) as Hkeys.
  set (final := last (Dict.keys hit) "") in *.
  set (ks := removelast (Dict.keys hit)) in *.
  assert (Hnotin : ~ In final ks).
  { rewrite Hkeys in Hnd. apply NoDup_remove_2 in Hnd.
    now rewrite app_nil_r in Hnd. }
  exists (filter displayed ks), final, raw.
  assert (Hfilter : filter displayed (Dict.keys hit) = filter displayed ks ++ [final]).
  { rewrite Hkeys at 1. rewrite filter_app. cbn [filter]. now rewrite Hshown. }
  split; [exact Hfilter|]. split; [|now split].
  rewrite Hr, Hfilter, map_app. cbn [map]. rewrite Hlast, <- !app_assoc.
  do 3 f_equal. f_equal. apply map_ext_in. intros field Hin.
  apply Hlines. intros E. apply Hnotin. rewrite <- E.
  now apply filter_In in Hin.
Qed.

Lemma rendered_fields_spec_witness :
  NoDup (Dict.keys hit_foo)
  /\ displayed (last (Dict.keys hit_foo) "") = true
  /\ exists front final raw,
       filter displayed (Dict.keys hit_foo) = front ++ [final]
       /\ render_hit word_engine false fill_line (Term None "zk") false [] hit_foo
          = Ok ([] ++ [highlight_str false (String Str.newline "C:Foo12") false true]
                ++ map (fun field =>
                          fill_line (field_body word_engine false (Term None "zk")
                                       hit_foo field ++ ",")%string)
                       front
                ++ [fill_line (field_body word_engine false (Term None "zk")
                                 hit_foo final)]
                ++ raw)
       /\ raw = [].
Proof.
  assert (Hvals : forall k v, In (k, v) hit_foo -> exists s, v = PStr s).
  { intros k v Hin. simpl in Hin.
    repeat (destruct Hin as [Hin|Hin]; [injection Hin as _ <-; eexists; reflexivity|]).
    contradiction. }
  assert (Hbib : false = true -> exists b, Dict.get "bibtex" hit_foo = Some (PStr b))
    by discriminate.
  assert (Hnd : NoDup (Dict.keys hit_foo)).
  { repeat constructor; simpl; intuition discriminate. }
  refine (conj Hnd (conj eq_refl _)).
  destruct (rendered_fields_spec word_engine false fill_line (Term None "zk") false []
              hit_foo "C:Foo12" eq_refl Hvals Hbib Hnd eq_refl)
    as (front & final & raw & Hf & Hr & Hraw & _).
  exists front, final, raw. split; [exact Hf|]. split; [exact Hr|exact (Hraw eq_refl)].
Defined.

(** Without the raw output, the same hit: only the last stored field has no
    comma. *)
Example rendered_hit_foo :
  render_hit word_engine false fill_line (Term None "zk") false [] hit_foo
  = Ok [String Str.newline "C:Foo12"; "        Foo12,"; "        Ann Foo,";
        "        Zk proofs,"; "        2012"].
Proof. reflexivity. Qed.

(** A hit that has no title, year or note: the last stored key is [bibtex],
    which has no line, and every displayed line ends in a comma, the last
    one too: the test of line 194 then never finds the last field. *)
Example rendered_hit_without_title :
  render_hit word_engine false fill_line (Term None "zk") false []
    [("ID", PStr "misc1"); ("acronyms", PStr ""); ("author", PStr "Ann Foo");
     ("bibtex", PStr "@misc{misc1}")]
  = Ok [String Str.newline "misc1"; "        ,"; "        Ann Foo,"].
Proof. reflexivity. Qed.

End RenderFacts.

(** * Further properties of the code *)

(** ** More on the acronym deriver *)

Module AcronymMore.
Import StrFacts YearFacts AcronymFacts.

Lemma mem_append (c : ascii) (a b : string) :
  Str.mem c (a ++ b) = Str.mem c a || Str.mem c b.
Proof.
  induction a as [|x a IH]; simpl; [reflexivity|].
  now rewrite IH, orb_assoc.
Qed.

Lemma mem_filter (c : ascii) (p : ascii -> bool) (s : string) :
  Str.mem c s = false -> Str.mem c (Str.filter p s) = false.
Proof.
  induction s as [|x s IH]; simpl; [reflexivity|].
  intros H. apply orb_false_iff in H as [Hx Hs].
  destruct (p x); simpl; [rewrite Hx|]; auto.
Qed.

Lemma mem_forallb (c : ascii) (p : ascii -> bool) (s : string) :
  Str.forallb p s = true -> p c = false -> Str.mem c s = false.
Proof.
  intros Hs Hc. induction s as [|x s IH]; simpl; [reflexivity|].
  simpl in Hs. apply andb_true_iff in Hs as [Hx Hs].
  rewrite (IH Hs), orb_false_r.
  destruct (Ascii.eqb_spec c x) as [->|]; congruence.
Qed.

Lemma year_shape_not_empty (y : string) : year_shape y -> y <> "".
Proof.
  intros (d & l & -> & Hne & _). destruct d; [congruence|discriminate].
Qed.

(** A year holds digits and letters [a]..[h] only. *)
Lemma year_shape_no (c : ascii) (y : string) :
  Str.isdigit c = false -> is_letter c = false ->
  year_shape y -> Str.mem c y = false.
Proof.
  intros Hd Hl (d & l & -> & _ & Hdig & Hlet).
  rewrite mem_append, (mem_forallb c _ d Hdig Hd).
  destruct Hlet as [->|(x & -> & Hx)]; simpl; [reflexivity|].
  rewrite orb_false_r. destruct (Ascii.eqb_spec c x) as [->|]; congruence.
Qed.

(** The year found by the search, in every text. *)
Lemma search_year (s y : string) :
  Re.search year_re s = Some y ->
  year_shape y /\ exists p r, s = (p ++ y ++ r)%string.
Proof.
  intros H. apply search_sound in H as (p & r & E & Hy & _).
  split; [exact Hy|]. now exists p, r.
Qed.

Lemma remainder_spec (key : string) : after_last_colon key (remainder key).
Proof.
  destruct (after_last_colon_exists key) as [rest Hrest].
  unfold remainder. now rewrite (after_last_colon_split _ _ Hrest).
Qed.

(** X1: The shape of the result: at most two tokens, none of them empty, and of
    two tokens the second is the first followed by a year. *)
Theorem acronyms_shape (id : string) :
  List.length (acronyms_from_ID id) <= 2
  /\ Forall (fun token => token <> "") (acronyms_from_ID id)
  /\ (forall a b, acronyms_from_ID id = [a; b] ->
        exists year, year_shape year /\ b = (a ++ year)%string).
Proof.
  unfold acronyms_from_ID. cbv zeta.
  destruct (Re.search year_re _) as [y|] eqn:Es.
  - apply search_year in Es as (Hy & p & r & E).
    pose proof (year_shape_not_empty y Hy) as Hne.
    destruct (Nat.ltb_spec 2 (length (Str.filter Str.isupper (last (Str.split ":" id) ""))))
      as [Hlen|Hlen].
    + split; [simpl; lia|]. split.
      * repeat constructor.
        -- intros E0. rewrite E0 in Hlen. simpl in Hlen. lia.
        -- intros E0. apply (f_equal length) in E0.
           rewrite length_append in E0. simpl in E0. lia.
      * intros a b H. injection H as <- <-. now exists y.
    + destruct (Nat.eqb_spec (length (Str.filter Str.isupper (last (Str.split ":" id) ""))) 2)
        as [Hlen2|Hlen2].
      * split; [simpl; lia|]. split; [|discriminate].
        repeat constructor. intros E0. apply (f_equal length) in E0.
        rewrite length_append in E0. simpl in E0. lia.
      * split; [simpl; lia|]. split; [|discriminate].
        repeat constructor. rewrite E. intros E0. apply (f_equal length) in E0.
        rewrite !length_append in E0. simpl in E0.
        destruct y; [congruence|simpl in E0; lia].
  - split; [simpl; lia|]. split; [constructor|discriminate].
Qed.

(** X2: What stands before the last colon plays no part: a preprint key and the
    key of the published version with the same identifier have the same
    acronyms. *)
Theorem acronyms_ignore_collection (collection id : string) :
  acronyms_from_ID (collection ++ String ":" id) = acronyms_from_ID id.
Proof.
  unfold acronyms_from_ID. now rewrite split_last_after.
Qed.

Lemma split_append_sep (sep : ascii) (x s : string) :
  Str.mem sep x = false ->
  Str.split sep (x ++ String sep s) = x :: Str.split sep s.
Proof.
  induction x as [|c x IH]; simpl.
  - intros _. now rewrite Ascii.eqb_refl.
  - intros H. apply orb_false_iff in H as [Hc Hx].
    rewrite Ascii.eqb_sym, Hc, (IH Hx). reflexivity.
Qed.

(** Joining with a separator and cutting at it again gives the pieces back,
    when there is a piece and no piece holds the separator. *)
Lemma split_concat (sep : ascii) (pieces : list string) :
  pieces <> [] ->
  Forall (fun piece => Str.mem sep piece = false) pieces ->
  Str.split sep (String.concat (String sep "") pieces) = pieces.
Proof.
  induction pieces as [|x pieces IH]; [congruence|].
  intros _ Hall. inversion Hall as [|? ? Hx Hrest]; subst.
  destruct pieces as [|y pieces].
  - simpl. now apply split_no_sep.
  - change (String.concat (String sep "") (x :: y :: pieces))
      with (x ++ String sep (String.concat (String sep "") (y :: pieces)))%string.
    rewrite (split_append_sep _ _ _ Hx). f_equal.
    apply IH; [discriminate|exact Hrest].
Qed.

Lemma remainder_no (c : ascii) (key : string) :
  Str.mem c key = false -> Str.mem c (remainder key) = false.
Proof.
  intros H. destruct (remainder_spec key) as [_ [E|(p & E)]].
  - now rewrite <- E.
  - rewrite E in H. rewrite mem_append in H. apply orb_false_iff in H as [_ H].
    simpl in H. now apply orb_false_iff in H.
Qed.

(** No acronym of a key without comma holds a comma. *)
Lemma acronyms_no_comma (id : string) :
  Str.mem "," id = false ->
  Forall (fun token => Str.mem "," token = false) (acronyms_from_ID id).
Proof.
  intros Hid. pose proof (remainder_no _ _ Hid) as Hrest.
  unfold remainder in Hrest. unfold acronyms_from_ID. cbv zeta.
  destruct (Re.search year_re _) as [y|] eqn:Es; [|constructor].
  apply search_year in Es as (Hy & _).
  pose proof (year_shape_no "," y eq_refl eq_refl Hy) as Hyear.
  pose proof (mem_filter "," Str.isupper _ Hrest) as Hini.
  destruct (_ <? _)%nat; [|destruct (_ =? _)%nat]; repeat constructor;
    rewrite ?mem_append, ?Hini, ?Hyear; auto.
Qed.

(** X3: The acronyms field and its keywords: the acronyms of a key without comma,
    joined by commas as they are stored, come back one by one when the field
    is cut at its commas. *)
Theorem acronyms_field_round_trip (id : string) :
  Str.mem "," id = false ->
  acronyms_from_ID id <> [] ->
  Str.split "," (String.concat "," (acronyms_from_ID id)) = acronyms_from_ID id.
Proof.
  intros Hid Hne. apply (split_concat "," _ Hne). now apply acronyms_no_comma.
Qed.

Lemma acronyms_field_round_trip_witness :
  Str.mem "," "C:GenHalSma12" = false
  /\ acronyms_from_ID "C:GenHalSma12" <> []
  /\ Str.split "," (String.concat "," (acronyms_from_ID "C:GenHalSma12"))
     = acronyms_from_ID "C:GenHalSma12".
Proof.
  assert (H1 : Str.mem "," "C:GenHalSma12" = false) by reflexivity.
  assert (H2 : acronyms_from_ID "C:GenHalSma12" <> []) by discriminate.
  exact (conj H1 (conj H2 (acronyms_field_round_trip _ H1 H2))).
Defined.

End AcronymMore.

(** ** More on the entry normalizer *)

Module NormalizerMore.
Import StrFacts DictFacts FormatFacts.

Lemma authors_loop (people : list Person) (authors : string) :
  fold_left (fun authors person => (authors ++ person_name person ++ ", ")%string)
            people authors
  = (authors ++ with_trailing (map person_name people))%string.
Proof.
  revert authors. induction people as [|p people IH]; intros authors; simpl.
  - now rewrite append_empty_r.
  - rewrite IH. now rewrite !append_assoc.
Qed.

Lemma with_trailing_join (names : list string) :
  names <> [] ->
  with_trailing names = (String.concat ", " names ++ ", ")%string.
Proof.
  induction names as [|n names IH]; [congruence|]. intros _.
  destruct names as [|m names].
  - reflexivity.
  - change (with_trailing (n :: m :: names))
      with (n ++ ", " ++ with_trailing (m :: names))%string.
    rewrite IH by discriminate.
    change (String.concat ", " (n :: m :: names))
      with (n ++ ", " ++ String.concat ", " (m :: names))%string.
    now rewrite !append_assoc.
Qed.

Lemma drop_last_separator (s : string) : Str.drop_last 2 (s ++ ", ") = s.
Proof. unfold Str.drop_last. exact (substring_front s ", "). Qed.

(** The author text built by the loop and the slice [[:-2]] is the names
    joined by [", "]: no separator is left at the end, and no author gives
    the empty text. *)
Lemma authors_joined (entry : Entry) :
  Str.drop_last 2 (authors_of entry)
  = match Dict.get "author" (persons entry) with
    | Some people => String.concat ", " (map person_name people)
    | None => ""
    end.
Proof.
  unfold authors_of. destruct (Dict.get "author" (persons entry)) as [people|];
    [|reflexivity].
  rewrite authors_loop. simpl append.
  destruct people as [|p people]; [reflexivity|].
  rewrite with_trailing_join by discriminate.
  apply drop_last_separator.
Qed.

(** X4: The stored author of an entry that has no [author] among its fields: the
    names of its author persons, each the name parts joined by spaces, joined
    by [", "]. *)
Theorem stored_author_is_join (to_bibtex : string -> Entry -> string)
    (ID : string) (entry : Entry) :
  Dict.get "author" (fields entry) = None ->
  Dict.get "author" (format_entry to_bibtex ID entry)
  = Some (PStr match Dict.get "author" (persons entry) with
               | Some people => String.concat ", " (map person_name people)
               | None => ""
               end).
Proof.
  intros Hnone. rewrite get_format_entry. simpl. rewrite Hnone.
  now rewrite authors_joined.
Qed.

Lemma stored_author_is_join_witness :
  Dict.get "author" (fields two_authors) = None
  /\ Dict.get "author" (format_entry plain_bibtex "C:BonFra01" two_authors)
     = Some (PStr "Dan Boneh, Matthew K. Franklin").
Proof.
  assert (H : Dict.get "author" (fields two_authors) = None) by reflexivity.
  exact (conj H (stored_author_is_join plain_bibtex "C:BonFra01" two_authors H)).
Defined.

(** A text without newline and brace goes through the table unchanged. *)
Lemma translate_plain (s : string) :
  Str.forallb plain s = true -> Str.translate strip_table s = s.
Proof.
  induction s as [|c s IH]; [reflexivity|].
  cbn [Str.translate Str.forallb]. intros H.
  apply andb_true_iff in H as [Hc Hs].
  unfold plain, is_brace in Hc. unfold strip_table at 1.
  destruct (Ascii.eqb c Str.newline); [discriminate|].
  destruct (Ascii.eqb c "{"); [discriminate|].
  destruct (Ascii.eqb c "}"); [discriminate|].
  now rewrite (IH Hs).
Qed.

Lemma clean_field_plain (v : string) : Str.forallb plain (clean_field v) = true.
Proof.
  unfold clean_field. rewrite translate_unbraced.
  destruct (lstrip_spec "\url" (unbraced v)) as (stripped & E & _ & _).
  apply (forallb_suffix plain stripped). rewrite <- E. apply unbraced_plain.
Qed.

Lemma clean_field_first (v : string) (c : ascii) (rest : string) :
  clean_field v = String c rest -> Str.mem c "\url" = false.
Proof.
  unfold clean_field.
  destruct (lstrip_spec "\url" (Str.translate strip_table v)) as (_ & _ & _ & H).
  apply H.
Qed.

(** X5: What a cleaned field never holds: a newline, a brace, or, as its first
    character, a backslash or one of the letters [u], [r], [l]. *)
Theorem clean_field_never (v : string) :
  Str.mem Str.newline (clean_field v) = false
  /\ Str.mem "{" (clean_field v) = false
  /\ Str.mem "}" (clean_field v) = false
  /\ match clean_field v with
     | String c _ => Str.mem c "\url" = false
     | EmptyString => True
     end.
Proof.
  pose proof (clean_field_plain v) as Hp.
  repeat split;
    try (apply (AcronymMore.mem_forallb _ plain _ Hp); reflexivity).
  destruct (clean_field v) as [|c rest] eqn:E; [exact I|].
  exact (clean_field_first v c rest E).
Qed.

(** X6: Cleaning is idempotent: a cleaned text is cleaned to itself. *)
Theorem clean_field_idempotent (v : string) :
  clean_field (clean_field v) = clean_field v.
Proof.
  pose proof (clean_field_plain v) as Hp.
  pose proof (clean_field_first v) as Hf.
  unfold clean_field at 1. rewrite (translate_plain _ Hp).
  now apply lstrip_unchanged.
Qed.

(** X7: The keys of a formatted entry, in their order: [ID], [bibtex], [author],
    then those of [title], [year], [note] that the entry has, then
    [acronyms]; each key once. *)
Theorem format_entry_keys (to_bibtex : string -> Entry -> string) (ID : string)
    (entry : Entry) :
  Dict.keys (format_entry to_bibtex ID entry)
  = ["ID"; "bibtex"; "author"]
    ++ filter (fun k => Dict.mem k (fields entry)) ["title"; "year"; "note"]
    ++ ["acronyms"].
Proof.
  unfold format_entry, copy_fields, BIBTEX_FIELDS, Dict.mem.
  cbn [fold_left filter].
  destruct (Dict.get "title" (fields entry));
    destruct (Dict.get "author" (fields entry));
    destruct (Dict.get "year" (fields entry));
    destruct (Dict.get "note" (fields entry)); reflexivity.
Qed.

End NormalizerMore.

(** ** The build as a whole *)

Module BuildFacts.
Import StrFacts DictFacts FormatFacts MergeFacts.

Section DictMore.
Context {K V : Type} `{Hashable K}.

Lemma get_In (k : K) (v : V) (d : Dict.t K V) :
  Dict.get k d = Some v -> In (k, v) d.
Proof.
  induction d as [|[k' v'] d IH]; simpl; [discriminate|].
  destruct (key_eqb_spec k k') as [->|Hne].
  - intros E. injection E as ->. now left.
  - intros E. right. now apply IH.
Qed.

Lemma In_get (k : K) (v : V) (d : Dict.t K V) :
  In (k, v) d -> Dict.get k d <> None.
Proof.
  induction d as [|[k' v'] d IH]; simpl; [contradiction|].
  intros [E|Hin].
  - injection E as -> ->. now rewrite key_eqb_refl.
  - destruct (key_eqb k k'); [discriminate|now apply IH].
Qed.

Lemma key_get (k : K) (d : Dict.t K V) :
  In k (Dict.keys d) -> exists v, Dict.get k d = Some v.
Proof.
  unfold Dict.keys. induction d as [|[k' v'] d IH]; simpl; [contradiction|].
  destruct (key_eqb_spec k k') as [->|Hne].
  - intros _. now exists v'.
  - intros [E|Hin]; [congruence|now apply IH].
Qed.

Lemma get_key (k : K) (d : Dict.t K V) :
  Dict.get k d <> None -> In k (Dict.keys d).
Proof.
  unfold Dict.keys. induction d as [|[k' v'] d IH]; simpl; [congruence|].
  destruct (key_eqb_spec k k') as [->|Hne]; [now left|].
  intros Hd. right. now apply IH.
Qed.

(** The pairs of a dictionary after an assignment. *)
Lemma In_set (k k' : K) (v v' : V) (d : Dict.t K V) :
  In (k', v') (Dict.set k v d) -> In (k', v') d \/ (k', v') = (k, v).
Proof.
  induction d as [|[k0 v0] d IH]; simpl.
  - intros [E|[]]. now right.
  - destruct (key_eqb_spec k k0) as [<-|Hne]; simpl.
    + intros [E|Hin]; [now right|left; now right].
    + intros [E|Hin]; [left; now left|].
      destruct (IH Hin) as [Hd|E]; [left; now right|now right].
Qed.

Lemma Forall_set (P : K * V -> Prop) (k : K) (v : V) (d : Dict.t K V) :
  Forall P d -> P (k, v) -> Forall P (Dict.set k v d).
Proof.
  intros Hd Hkv. apply Forall_forall. intros [k' v'] Hin.
  destruct (In_set _ _ _ _ _ Hin) as [Hold| ->]; [|exact Hkv].
  now apply (proj1 (Forall_forall _ _) Hd).
Qed.

Lemma get_set_not_none (k k' : K) (v : V) (d : Dict.t K V) :
  Dict.get k' d <> None -> Dict.get k' (Dict.set k v d) <> None.
Proof.
  intros Hd. destruct (key_eqb_spec k k') as [<-|Hne].
  - now rewrite get_set_same.
  - now rewrite get_set_other.
Qed.

Lemma mem_false_In (k : K) (v : V) (d : Dict.t K V) :
  Dict.mem k d = false -> ~ In (k, v) d.
Proof.
  unfold Dict.mem. intros Hm Hin. apply In_get in Hin.
  destruct (Dict.get k d); congruence.
Qed.

End DictMore.

Section WithSerializer.
Variable to_bibtex : string -> Entry -> string.
Variable numeric_ok : string -> bool.

(** Every field of a formatted entry is a field of the schema and holds a
    text. *)
Lemma format_entry_schema_text (ID : string) (entry : Entry) :
  Forall schema_text (format_entry to_bibtex ID entry).
Proof.
  unfold format_entry.
  apply Forall_set; [|split; [simpl; tauto|eexists; reflexivity]].
  unfold copy_fields.
  assert (Hloop : forall ks fe,
             Forall (fun k => In k schema_names) ks ->
             Forall schema_text fe ->
             Forall schema_text
               (fold_left
                  (fun fe k =>
                     match Dict.get k (fields entry) with
                     | Some v => Dict.set k (PStr (clean_field v)) fe
                     | None => fe
                     end) ks fe)).
  { induction ks as [|k ks IH]; intros fe Hks Hfe; [exact Hfe|].
    inversion Hks; subst. simpl. apply IH; [assumption|].
    destruct (Dict.get k (fields entry)); [|exact Hfe].
    apply Forall_set; [exact Hfe|]. split; [assumption|eexists; reflexivity]. }
  apply Hloop.
  - repeat constructor; simpl; tauto.
  - apply Forall_set; [|split; [simpl; tauto|eexists; reflexivity]].
    apply Forall_set; [|split; [simpl; tauto|eexists; reflexivity]].
    constructor; [|constructor].
    split; [simpl; tauto|eexists; reflexivity].
Qed.

Lemma format_entry_has_bibtex (ID : string) (entry : Entry) :
  Dict.mem "bibtex" (format_entry to_bibtex ID entry) = true.
Proof. unfold Dict.mem. now rewrite get_format_entry. Qed.

Section Invariant.
Variable db : list Entry.

Lemma format_entry_ok (e : Entry) :
  In e db -> entry_ok to_bibtex db (key e) (format_entry to_bibtex (key e) e).
Proof.
  intros Hin. split; [apply get_ID_format_entry|]. split.
  - eapply Forall_impl; [|apply format_entry_schema_text]. intros kv Hkv. now left.
  - split; [apply format_entry_has_bibtex|]. split.
    + intros _. apply format_entry_not_ignored.
    + exists (format_entry to_bibtex (key e) e). split.
      * now exists e.
      * intros field _ _. reflexivity.
Qed.

Lemma entry_ok_note (k : string) (d : Document) (s : string) :
  prefix "EPRINT" k = false ->
  entry_ok to_bibtex db k d -> entry_ok to_bibtex db k (Dict.set "note" (PStr s) d).
Proof.
  intros Hp (Hid & Hall & Hbib & Hign & f & Hf & Hm).
  split; [now rewrite get_set_other by discriminate|]. split.
  - apply Forall_set; [exact Hall|]. left. split; [simpl; tauto|now exists s].
  - split; [now rewrite mem_set_other by discriminate|]. split.
    + intros _. rewrite mem_set_other by discriminate. now apply Hign.
    + exists f. split; [exact Hf|]. intros field Hfi Hnote.
      destruct (String.eqb_spec field "note") as [->|Hne].
      * specialize (Hnote eq_refl). congruence.
      * rewrite get_set_other by congruence. now apply Hm.
Qed.

Lemma entry_ok_flag (k : string) (d : Document) :
  prefix "EPRINT" k = true ->
  entry_ok to_bibtex db k d ->
  entry_ok to_bibtex db k (Dict.set "ignore" (PBool true) d).
Proof.
  intros Hp (Hid & Hall & Hbib & Hign & f & Hf & Hm).
  split; [now rewrite get_set_other by discriminate|]. split.
  - apply Forall_set; [exact Hall|]. now right.
  - split; [now rewrite mem_set_other by discriminate|]. split.
    + congruence.
    + exists f. split; [exact Hf|]. intros field Hfi Hnote.
      rewrite get_set_other by congruence. now apply Hm.
Qed.

(** An entry of the store that is not flagged can be written. *)
Lemma entry_ok_written (k : string) (d : Document) :
  entry_ok to_bibtex db k d -> Dict.mem "ignore" d = false ->
  written_for to_bibtex db k d.
Proof.
  intros (Hid & Hall & Hbib & _ & f & Hf & Hm) Hign.
  split; [|split; [exact Hign|now exists f]].
  split; [exact Hid|]. split; [|exact Hbib].
  apply Forall_forall. intros kv Hin.
  destruct (proj1 (Forall_forall _ _) Hall kv Hin) as [Hst| ->]; [exact Hst|].
  exfalso. exact (mem_false_In _ _ _ Hign Hin).
Qed.

Lemma store_ok_set (fes : Formatted) (k : string) (d : Document) :
  store_ok to_bibtex db fes -> entry_ok to_bibtex db k d ->
  store_ok to_bibtex db (Dict.set k d fes).
Proof.
  intros Hs Hd k' d' Hin.
  destruct (In_set _ _ _ _ _ Hin) as [Hold|E]; [now apply Hs|].
  injection E as -> ->. exact Hd.
Qed.

Lemma urls_ok_set (fes : Formatted) (urls : Urls) (k : string) (d : Document) :
  urls_ok fes urls -> urls_ok (Dict.set k d fes) urls.
Proof.
  intros Hu title url id Hin. destruct (Hu title url id Hin) as (Hp & Hg & Hs).
  split; [exact Hp|]. split; [now apply get_set_not_none|exact Hs].
Qed.

(** A document written for a key is taken by the writer as the year of its
    entry is. *)
Lemma written_for_taken (k : string) (d : Document) :
  written_for to_bibtex db k d ->
  exists e, In e db /\ taken numeric_ok d = year_taken numeric_ok e.
Proof.
  intros (_ & _ & f & (e & He & _ & ->) & Hm). exists e. split; [exact He|].
  rewrite <- (taken_format_entry to_bibtex numeric_ok k e). unfold taken.
  now rewrite (Hm "year") by discriminate.
Qed.

(** One round of the second loop keeps the store in order and fails on no
    lookup: either the writer refuses the document of the key, or the round
    writes at most one document, which it may only withhold for a preprint. *)
Lemma merge_step_inv (urls : Urls) (fes : Formatted) (written : list Document)
    (ID : string) :
  store_ok to_bibtex db fes -> urls_ok fes urls -> In ID (Dict.keys fes) ->
  (merge_step numeric_ok urls (fes, written) ID = Raise ValueError
   /\ exists d, written_for to_bibtex db ID d /\ taken numeric_ok d = false)
  \/ exists fes' written',
       merge_step numeric_ok urls (fes, written) ID = Ok (fes', written')
       /\ store_ok to_bibtex db fes' /\ urls_ok fes' urls
       /\ Dict.keys fes' = Dict.keys fes
       /\ ((prefix "EPRINT" ID = true /\ written' = written)
           \/ exists d, written' = written ++ [d] /\ written_for to_bibtex db ID d).
Proof.
  intros Hs Hu Hkey.
  destruct (key_get _ _ Hkey) as [entry Hget].
  pose proof (Hs _ _ (get_In _ _ _ Hget)) as Hok.
  assert (Hwriter : Dict.mem "ignore" entry = false ->
            (rbind (add_document numeric_ok entry written)
                   (fun written => Ok (fes, written)) = Raise ValueError
             /\ exists d, written_for to_bibtex db ID d /\ taken numeric_ok d = false)
            \/ exists fes' written',
                 rbind (add_document numeric_ok entry written)
                       (fun written => Ok (fes, written)) = Ok (fes', written')
                 /\ store_ok to_bibtex db fes' /\ urls_ok fes' urls
                 /\ Dict.keys fes' = Dict.keys fes
                 /\ ((prefix "EPRINT" ID = true /\ written' = written)
                     \/ exists d, written' = written ++ [d]
                                  /\ written_for to_bibtex db ID d)).
  { intros Hi. pose proof (entry_ok_written _ _ Hok Hi) as Hw.
    destruct (taken numeric_ok entry) eqn:Hy.
    - right. rewrite (add_document_taken numeric_ok _ _ Hy). cbn [rbind].
      eexists _, _. split; [reflexivity|].
      split; [exact Hs|]. split; [exact Hu|]. split; [reflexivity|].
      right. now exists entry.
    - left. rewrite (add_document_refused numeric_ok _ _ Hy).
      split; [reflexivity|]. now exists entry. }
  destruct (prefix "EPRINT" ID) eqn:Hp.
  - rewrite (merge_step_preprint_writer _ _ _ _ _ entry Hp Hget).
    destruct (Dict.mem "ignore" entry) eqn:Hi; [|now apply Hwriter].
    right. eexists _, _. split; [reflexivity|].
    split; [exact Hs|]. split; [exact Hu|]. split; [reflexivity|]. now left.
  - assert (Hi : Dict.mem "ignore" entry = false).
    { destruct Hok as (_ & _ & _ & Hign & _). now apply Hign. }
    assert (Hplain : (exists title url eid,
                         Dict.get "title" entry = Some title
                         /\ Dict.get title urls = Some (url, eid))
                     \/ merge_step numeric_ok urls (fes, written) ID
                        = rbind (add_document numeric_ok entry written)
                                (fun written => Ok (fes, written))).
    { unfold merge_step. rewrite Hget, Hp. cbn [negb andb]. unfold Dict.mem at 1.
      destruct (Dict.get "title" entry) as [title|] eqn:Ht.
      - destruct (Dict.get title urls) as [[url eid]|] eqn:Hurl.
        + left. now exists title, url, eid.
        + right. cbn [rbind]. now rewrite Hget, Hi.
      - right. cbn [rbind]. now rewrite Hget, Hi. }
    destruct Hplain as [(title & url & eid & Ht & Hurl)|Hstep].
    + destruct (Hu _ _ _ (get_In _ _ _ Hurl)) as (Hpe & Hge & s & ->).
      assert (Hne : eid <> ID) by congruence.
      destruct (Dict.get eid fes) as [eprint|] eqn:Hgete; [|congruence].
      pose proof (Hs _ _ (get_In _ _ _ Hgete)) as Hoke.
      rewrite (merge_step_published_writer _ _ _ _ _ _ _ _ _ _ Hp Hget Ht Hurl Hne
                 Hgete Hi).
      assert (Hw : written_for to_bibtex db ID (Dict.set "note" (PStr s) entry)).
      { apply entry_ok_written; [now apply entry_ok_note|].
        now rewrite mem_set_other by discriminate. }
      destruct (taken numeric_ok (Dict.set "note" (PStr s) entry)) eqn:Hy.
      * right. rewrite (add_document_taken numeric_ok _ _ Hy). cbn [rbind].
        eexists _, _. split; [reflexivity|]. split; [|split; [|split]].
        -- apply store_ok_set; [apply store_ok_set; [exact Hs|]|].
           ++ now apply entry_ok_note.
           ++ now apply entry_ok_flag.
        -- now apply urls_ok_set, urls_ok_set.
        -- rewrite keys_set_present.
           ++ apply keys_set_present. congruence.
           ++ apply get_set_not_none. congruence.
        -- right. eexists. split; [reflexivity|exact Hw].
      * left. rewrite (add_document_refused numeric_ok _ _ Hy).
        split; [reflexivity|]. eexists. split; [exact Hw|exact Hy].
    + rewrite Hstep. now apply Hwriter.
Qed.

(** The second loop fails on no lookup: either the writer refuses a document,
    or what the loop writes is [emitted] for the keys it goes through. *)
Lemma second_loop_inv (urls : Urls) (ks : list string) :
  forall (fes : Formatted) (written : list Document),
    store_ok to_bibtex db fes -> urls_ok fes urls -> incl ks (Dict.keys fes) ->
    (for_each (merge_step numeric_ok urls) ks (fes, written) = Raise ValueError
     /\ exists k d, written_for to_bibtex db k d /\ taken numeric_ok d = false)
    \/ exists fes' docs,
         for_each (merge_step numeric_ok urls) ks (fes, written)
         = Ok (fes', written ++ docs)
         /\ emitted to_bibtex db ks docs.
Proof.
  induction ks as [|k ks IH]; intros fes written Hs Hu Hincl.
  - right. exists fes, []. split; [simpl; now rewrite app_nil_r|constructor].
  - cbn [for_each].
    destruct (merge_step_inv urls fes written k Hs Hu (Hincl k (or_introl eq_refl)))
      as [(Hstep & d & Hd & Hy)
         |(fes1 & written1 & Hstep & Hs1 & Hu1 & Hkeys & Hw)]; rewrite Hstep.
    + left. split; [reflexivity|]. now exists k, d.
    + assert (Hincl1 : incl ks (Dict.keys fes1)).
      { rewrite Hkeys. intros x Hx. apply Hincl. now right. }
      cbn [rbind].
      destruct (IH fes1 written1 Hs1 Hu1 Hincl1)
        as [(Hloop & Hbad)|(fes' & docs & Hloop & Hem)]; rewrite Hloop.
      * left. now split.
      * right. destruct Hw as [(Hp & ->)|(d & -> & Hd)].
        -- exists fes', docs. split; [reflexivity|now apply emitted_skip].
        -- exists fes', (d :: docs). split; [now rewrite <- app_assoc|].
           now apply emitted_doc.
Qed.

(** The first loop keeps the store and the titles of the preprints in
    order, and puts every entry it goes through in the store. *)
Lemma first_loop_inv (db2 : list Entry) :
  forall (urls : Urls) (fes : Formatted) (urls' : Urls) (fes' : Formatted),
    incl db2 db -> store_ok to_bibtex db fes -> urls_ok fes urls ->
    for_each (format_step to_bibtex) (items db2) (urls, fes) = Ok (urls', fes') ->
    store_ok to_bibtex db fes' /\ urls_ok fes' urls'
    /\ (forall e, In e db2 -> Dict.get (key e) fes' <> None)
    /\ (forall k, Dict.get k fes <> None -> Dict.get k fes' <> None).
Proof.
  induction db2 as [|e db2 IH]; intros urls fes urls' fes' Hincl Hs Hu.
  - simpl. intros H. injection H as <- <-.
    split; [exact Hs|]. split; [exact Hu|]. split; [intros e []|auto].
  - cbn [items map for_each]. rewrite format_step_spec. cbv zeta.
    assert (He : In e db) by (apply Hincl; now left).
    assert (Hincl2 : incl db2 db) by (intros x Hx; apply Hincl; now right).
    pose proof (store_ok_set fes (key e) _ Hs (format_entry_ok e He)) as Hs1.
    pose proof (urls_ok_set fes urls (key e) (format_entry to_bibtex (key e) e) Hu)
      as Hu1.
    assert (Hdone : forall urls1,
               urls_ok (Dict.set (key e) (format_entry to_bibtex (key e) e) fes) urls1 ->
               for_each (format_step to_bibtex) (items db2)
                 (urls1, Dict.set (key e) (format_entry to_bibtex (key e) e) fes)
               = Ok (urls', fes') ->
               store_ok to_bibtex db fes' /\ urls_ok fes' urls'
               /\ (forall e0, In e0 (e :: db2) -> Dict.get (key e0) fes' <> None)
               /\ (forall k, Dict.get k fes <> None -> Dict.get k fes' <> None)).
    { intros urls1 Hu1' Hloop.
      destruct (IH _ _ _ _ Hincl2 Hs1 Hu1' Hloop) as (Hs' & Hu' & Hin' & Hmono).
      split; [exact Hs'|]. split; [exact Hu'|]. split.
      - intros e0 [<-|He0]; [|now apply Hin'].
        apply Hmono. now rewrite get_set_same.
      - intros k Hk. apply Hmono. now apply get_set_not_none. }
    destruct (prefix "EPRINT" (key e)) eqn:Hp; [|apply Hdone; exact Hu1].
    destruct (Dict.get "title" (fields e)) as [t|]; [|apply Hdone; exact Hu1].
    destruct (Dict.get "note" (fields e)) as [n|]; [|discriminate].
    cbn [rbind]. apply Hdone.
    intros title url id Hin.
    destruct (In_set _ _ _ _ _ Hin) as [Hold|E]; [now apply (Hu1 title url id)|].
    injection E as -> -> ->.
    split; [exact Hp|]. split; [now rewrite get_set_same|now eexists].
Qed.

Lemma noteless_preprintb_spec (e : Entry) :
  noteless_preprintb e = true <-> noteless_preprint e.
Proof.
  unfold noteless_preprintb, noteless_preprint.
  rewrite !andb_true_iff, negb_true_iff. tauto.
Qed.

(** The first loop raises for a preprint with a title and no note, and for
    nothing else. *)
Lemma first_loop_outcome (db2 : list Entry) (st : Urls * Formatted) :
  if existsb noteless_preprintb db2
  then for_each (format_step to_bibtex) (items db2) st = Raise (KeyError "note")
  else exists st', for_each (format_step to_bibtex) (items db2) st = Ok st'.
Proof.
  revert st. induction db2 as [|e db2 IH]; intros st; [now exists st|].
  cbn [existsb items map for_each].
  destruct (noteless_preprintb e) eqn:Hbad.
  - apply noteless_preprintb_spec in Hbad.
    now rewrite (format_step_noteless to_bibtex st e Hbad).
  - assert (Hok : exists st1, format_step to_bibtex st (key e, e) = Ok st1).
    { destruct st as [urls fes]. rewrite format_step_spec. cbv zeta.
      unfold noteless_preprintb, Dict.mem in Hbad.
      destruct (prefix "EPRINT" (key e)); [|eauto].
      destruct (Dict.get "title" (fields e)); [|eauto].
      destruct (Dict.get "note" (fields e)); [eauto|discriminate]. }
    destruct Hok as [st1 ->]. cbn [orb rbind]. apply IH.
Qed.

(** Distinct keys, none of them in the store yet, are added in order. *)
Lemma first_loop_keys (db2 : list Entry) :
  forall (urls : Urls) (fes : Formatted) (urls' : Urls) (fes' : Formatted),
    NoDup (map key db2) ->
    (forall e, In e db2 -> Dict.get (key e) fes = None) ->
    for_each (format_step to_bibtex) (items db2) (urls, fes) = Ok (urls', fes') ->
    Dict.keys fes' = Dict.keys fes ++ map key db2.
Proof.
  induction db2 as [|e db2 IH]; intros urls fes urls' fes' Hnd Hfresh.
  - simpl. intros H. injection H as _ <-. now rewrite app_nil_r.
  - cbn [items map for_each]. rewrite format_step_spec. cbv zeta.
    inversion Hnd as [|? ? Hnotin Hnd2]; subst.
    assert (Hdone : forall urls1,
               for_each (format_step to_bibtex) (items db2)
                 (urls1, Dict.set (key e) (format_entry to_bibtex (key e) e) fes)
               = Ok (urls', fes') ->
               Dict.keys fes' = Dict.keys fes ++ key e :: map key db2).
    { intros urls1 Hloop.
      assert (Hfresh2 : forall e0, In e0 db2 ->
                 Dict.get (key e0)
                   (Dict.set (key e) (format_entry to_bibtex (key e) e) fes) = None).
      { intros e0 He0. rewrite get_set_other; [apply Hfresh; now right|].
        intros E. apply Hnotin. rewrite E. now apply in_map. }
      rewrite (IH _ _ _ _ Hnd2 Hfresh2 Hloop).
      rewrite set_fresh by (apply Hfresh; now left).
      unfold Dict.keys. rewrite map_app, <- app_assoc. reflexivity. }
    destruct (prefix "EPRINT" (key e)); [|apply Hdone].
    destruct (Dict.get "title" (fields e)); [|apply Hdone].
    destruct (Dict.get "note" (fields e)); [|discriminate].
    cbn [rbind]. apply Hdone.
Qed.

End Invariant.

(** What [build_documents] writes, for a bibliography of distinct keys. *)
Lemma build_emitted (db : list Entry) (docs : list Document) :
  NoDup (map key db) ->
  build_documents to_bibtex numeric_ok db = Ok docs ->
  emitted to_bibtex db (map key db) docs.
Proof.
  intros Hnd. unfold build_documents.
  destruct (for_each (format_step to_bibtex) (items db) ([], [])) as [[urls fes]|]
    eqn:Hfirst; [|discriminate].
  cbn [rbind].
  assert (Hs0 : store_ok to_bibtex db []) by (intros k d []).
  assert (Hu0 : urls_ok [] []) by (intros t u i []).
  destruct (first_loop_inv db db _ _ _ _ (incl_refl db) Hs0 Hu0 Hfirst)
    as (Hs & Hu & _ & _).
  assert (Hfresh : forall e, In e db -> Dict.get (key e) ([] : Formatted) = None)
    by reflexivity.
  pose proof (first_loop_keys db _ _ _ _ Hnd Hfresh Hfirst) as Hkeys.
  simpl in Hkeys.
  destruct (second_loop_inv db urls (Dict.keys fes) fes [] Hs Hu (incl_refl _))
    as [(Hloop & _)|(fes' & docs' & Hloop & Hem)]; rewrite Hloop;
    [discriminate|].
  cbn [rbind app]. intros H. injection H as <-.
  now rewrite <- Hkeys.
Qed.

(** X8: The build has three outcomes.  It raises [KeyError('note')] exactly
    when a preprint with a title has no note; otherwise it returns documents,
    or raises the [ValueError] of the writer, and this only when the year of
    some entry is no number for the engine: the lookups of the second loop
    never fail. *)
Theorem build_documents_outcome (db : list Entry) :
  if existsb noteless_preprintb db
  then build_documents to_bibtex numeric_ok db = Raise (KeyError "note")
  else (exists docs, build_documents to_bibtex numeric_ok db = Ok docs)
       \/ (build_documents to_bibtex numeric_ok db = Raise ValueError
           /\ forallb (year_taken numeric_ok) db = false).
Proof.
  unfold build_documents.
  pose proof (first_loop_outcome db ([], [])) as Hfirst.
  destruct (existsb noteless_preprintb db).
  - now rewrite Hfirst.
  - destruct Hfirst as [[urls fes] Hfirst]. rewrite Hfirst. cbn [rbind].
    assert (Hs0 : store_ok to_bibtex db []) by (intros k d []).
    assert (Hu0 : urls_ok [] []) by (intros t u i []).
    destruct (first_loop_inv db db _ _ _ _ (incl_refl db) Hs0 Hu0 Hfirst)
      as (Hs & Hu & _ & _).
    destruct (second_loop_inv db urls (Dict.keys fes) fes [] Hs Hu (incl_refl _))
      as [(Hloop & k & d & Hd & Hy)|(fes' & docs' & Hloop & _)]; rewrite Hloop.
    + right. split; [reflexivity|].
      destruct (written_for_taken db k d Hd) as (e & He & Hye).
      destruct (forallb (year_taken numeric_ok) db) eqn:Hall; [|reflexivity].
      rewrite forallb_forall in Hall. specialize (Hall e He). congruence.
    + left. cbn [rbind app]. now exists docs'.
Qed.

End WithSerializer.

Lemma emitted_written (to_bibtex : string -> Entry -> string) (db : list Entry)
    (ks : list string) (docs : list Document) :
  emitted to_bibtex db ks docs ->
  forall d, In d docs -> exists k, In k ks /\ written_for to_bibtex db k d.
Proof.
  induction 1 as [|k d ks docs Hd _ IH|k ks docs _ _ IH]; intros d0 Hin.
  - contradiction.
  - destruct Hin as [<-|Hin].
    + exists k. split; [now left|exact Hd].
    + destruct (IH d0 Hin) as (k0 & Hk0 & Hw). exists k0. split; [now right|exact Hw].
  - destruct (IH d0 Hin) as (k0 & Hk0 & Hw). exists k0. split; [now right|exact Hw].
Qed.

Lemma emitted_published (to_bibtex : string -> Entry -> string) (db : list Entry)
    (ks : list string) (docs : list Document) :
  emitted to_bibtex db ks docs ->
  forall k, In k ks -> prefix "EPRINT" k = false ->
            exists d, In d docs /\ written_for to_bibtex db k d.
Proof.
  induction 1 as [|k d ks docs Hd _ IH|k ks docs Hp _ IH]; intros k0 Hin Hpub.
  - contradiction.
  - destruct Hin as [<-|Hin].
    + exists d. split; [now left|exact Hd].
    + destruct (IH k0 Hin Hpub) as (d0 & Hd0 & Hw). exists d0. split; [now right|exact Hw].
  - destruct Hin as [<-|Hin]; [congruence|]. apply IH; assumption.
Qed.

Lemma emitted_length (to_bibtex : string -> Entry -> string) (db : list Entry)
    (ks : list string) (docs : list Document) :
  emitted to_bibtex db ks docs -> List.length docs <= List.length ks.
Proof. induction 1; simpl; lia. Qed.

Lemma emitted_ids_distinct (to_bibtex : string -> Entry -> string) (db : list Entry)
    (ks : list string) (docs : list Document) :
  emitted to_bibtex db ks docs -> NoDup ks -> NoDup (ids docs).
Proof.
  induction 1 as [|k d ks docs Hd Hem IH|k ks docs _ _ IH]; intros Hnd.
  - constructor.
  - inversion Hnd as [|? ? Hnotin Hnd2]; subst. simpl. constructor; [|now apply IH].
    intros Hin. apply in_map_iff in Hin as (d0 & E & Hd0).
    destruct (emitted_written _ _ _ _ Hem d0 Hd0) as (k0 & Hk0 & ((Hid0 & _) & _)).
    destruct Hd as ((Hid & _) & _). rewrite Hid, Hid0 in E.
    injection E as ->. contradiction.
  - inversion Hnd; subst. now apply IH.
Qed.

(** X9: The documents handed to the writer use only fields of the schema: each
    field of each document is named in the schema and holds a text, no document carries
    the flag [ignore], and each has its [bibtex] text and, as [ID], the key
    of an entry of the bibliography. *)
Theorem written_documents_fit_schema (to_bibtex : string -> Entry -> string)
    (numeric_ok : string -> bool) (db : list Entry) (docs : list Document) :
  NoDup (map key db) ->
  build_documents to_bibtex numeric_ok db = Ok docs ->
  Forall (fun d =>
            Forall schema_text d
            /\ Dict.mem "ignore" d = false
            /\ Dict.mem "bibtex" d = true
            /\ exists e, In e db /\ Dict.get "ID" d = Some (PStr (key e)))
         docs.
Proof.
  intros Hnd Hb. pose proof (build_emitted to_bibtex numeric_ok db docs Hnd Hb) as Hem.
  apply Forall_forall. intros d Hd.
  destruct (emitted_written _ _ _ _ Hem d Hd)
    as (k & _ & (Hid & Hall & Hbib) & Hign & f & (e & He & <- & _) & _).
  split; [exact Hall|]. split; [exact Hign|]. split; [exact Hbib|]. now exists e.
Qed.

Lemma written_documents_fit_schema_witness :
  NoDup (map key [c_foo; eprint_foo])
  /\ build_documents plain_bibtex digits [c_foo; eprint_foo] = Ok [c_foo_merged]
  /\ Forall (fun d =>
               Forall schema_text d
               /\ Dict.mem "ignore" d = false
               /\ Dict.mem "bibtex" d = true
               /\ exists e, In e [c_foo; eprint_foo]
                            /\ Dict.get "ID" d = Some (PStr (key e)))
            [c_foo_merged].
Proof.
  assert (Hnd : NoDup (map key [c_foo; eprint_foo])).
  { repeat constructor; simpl; intuition discriminate. }
  assert (Hb : build_documents plain_bibtex digits [c_foo; eprint_foo]
               = Ok [c_foo_merged]) by reflexivity.
  exact (conj Hnd (conj Hb (written_documents_fit_schema plain_bibtex digits _ _ Hnd Hb))).
Defined.

(** X10: A published entry is never left out, and no key is indexed twice: the
    index has a document for the key of every entry that is not a preprint,
    the [ID] values of the documents are distinct, and there are at most as
    many documents as entries. *)
Theorem published_always_indexed (to_bibtex : string -> Entry -> string)
    (numeric_ok : string -> bool) (db : list Entry) (docs : list Document) :
  NoDup (map key db) ->
  build_documents to_bibtex numeric_ok db = Ok docs ->
  (forall e, In e db -> prefix "EPRINT" (key e) = false ->
             exists d, In d docs /\ Dict.get "ID" d = Some (PStr (key e)))
  /\ NoDup (ids docs)
  /\ List.length docs <= List.length db.
Proof.
  intros Hnd Hb. pose proof (build_emitted to_bibtex numeric_ok db docs Hnd Hb) as Hem.
  split; [|split].
  - intros e He Hpub.
    destruct (emitted_published _ _ _ _ Hem (key e) (in_map key db e He) Hpub)
      as (d & Hd & (Hid & _) & _).
    now exists d.
  - exact (emitted_ids_distinct _ _ _ _ Hem Hnd).
  - rewrite <- (length_map key db). exact (emitted_length _ _ _ _ Hem).
Qed.

Lemma published_always_indexed_witness :
  NoDup (map key [c_foo; eprint_foo])
  /\ build_documents plain_bibtex digits [c_foo; eprint_foo] = Ok [c_foo_merged]
  /\ (forall e, In e [c_foo; eprint_foo] -> prefix "EPRINT" (key e) = false ->
                exists d, In d [c_foo_merged]
                          /\ Dict.get "ID" d = Some (PStr (key e)))
  /\ NoDup (ids [c_foo_merged])
  /\ List.length [c_foo_merged] <= List.length [c_foo; eprint_foo].
Proof.
  assert (Hnd : NoDup (map key [c_foo; eprint_foo])).
  { repeat constructor; simpl; intuition discriminate. }
  assert (Hb : build_documents plain_bibtex digits [c_foo; eprint_foo]
               = Ok [c_foo_merged]) by reflexivity.
  exact (conj Hnd (conj Hb (published_always_indexed plain_bibtex digits _ _ Hnd Hb))).
Defined.

(** X11: The merger changes nothing but the note of a published entry: a written
    document has, in every other field, the value of the formatted entry of
    its entry, and the document of a preprint has it in every field. *)
Theorem merger_changes_notes_only (to_bibtex : string -> Entry -> string)
    (numeric_ok : string -> bool) (db : list Entry) (docs : list Document) :
  NoDup (map key db) ->
  build_documents to_bibtex numeric_ok db = Ok docs ->
  forall d, In d docs ->
    exists e,
      In e db
      /\ Dict.get "ID" d = Some (PStr (key e))
      /\ (forall field,
             (field = "note" -> prefix "EPRINT" (key e) = true) ->
             Dict.get field d = Dict.get field (format_entry to_bibtex (key e) e)).
Proof.
  intros Hnd Hb d Hd. pose proof (build_emitted to_bibtex numeric_ok db docs Hnd Hb) as Hem.
  destruct (emitted_written _ _ _ _ Hem d Hd)
    as (k & _ & (Hid & _) & Hign & f & (e & He & <- & ->) & Hm).
  exists e. split; [exact He|]. split; [exact Hid|].
  intros field Hnote.
  destruct (String.eqb_spec field "ignore") as [->|Hne]; [|now apply Hm].
  pose proof (format_entry_not_ignored to_bibtex (key e) e) as Hf.
  unfold Dict.mem in Hign, Hf.
  destruct (Dict.get "ignore" d); [discriminate|].
  now destruct (Dict.get "ignore" (format_entry to_bibtex (key e) e)).
Qed.

Lemma merger_changes_notes_only_witness :
  NoDup (map key [c_foo; eprint_foo])
  /\ build_documents plain_bibtex digits [c_foo; eprint_foo] = Ok [c_foo_merged]
  /\ In c_foo_merged [c_foo_merged]
  /\ exists e,
       In e [c_foo; eprint_foo]
       /\ Dict.get "ID" c_foo_merged = Some (PStr (key e))
       /\ (forall field,
              (field = "note" -> prefix "EPRINT" (key e) = true) ->
              Dict.get field c_foo_merged
              = Dict.get field (format_entry plain_bibtex (key e) e)).
Proof.
  assert (Hnd : NoDup (map key [c_foo; eprint_foo])).
  { repeat constructor; simpl; intuition discriminate. }
  assert (Hb : build_documents plain_bibtex digits [c_foo; eprint_foo]
               = Ok [c_foo_merged]) by reflexivity.
  assert (Hin : In c_foo_merged [c_foo_merged]) by (now left).
  exact (conj Hnd (conj Hb (conj Hin
           (merger_changes_notes_only plain_bibtex digits _ _ Hnd Hb _ Hin)))).
Defined.

Section NoPreprint.
Variable to_bibtex : string -> Entry -> string.
Variable numeric_ok : string -> bool.

Lemma first_loop_no_preprint (db : list Entry) :
  forall (urls : Urls) (fes : Formatted),
    Forall (fun e => prefix "EPRINT" (key e) = false) db ->
    NoDup (map key db) ->
    (forall e, In e db -> Dict.get (key e) fes = None) ->
    for_each (format_step to_bibtex) (items db) (urls, fes)
    = Ok (urls, fes ++ formatted_store to_bibtex db).
Proof.
  induction db as [|e db IH]; intros urls fes Hpub Hnd Hfresh.
  - simpl. now rewrite app_nil_r.
  - inversion Hpub as [|? ? Hp Hpub2]; subst.
    inversion Hnd as [|? ? Hnotin Hnd2]; subst.
    cbn [items map for_each]. rewrite format_step_spec. cbv zeta. rewrite Hp.
    cbn [rbind]. rewrite set_fresh by (apply Hfresh; now left).
    change (for_each (format_step to_bibtex) (items db)
              (urls, fes ++ [(key e, format_entry to_bibtex (key e) e)])
            = Ok (urls, fes ++ formatted_store to_bibtex (e :: db))).
    rewrite IH; [|exact Hpub2|exact Hnd2|].
    + cbn [formatted_store map]. now rewrite <- app_assoc.
    + intros e0 He0. rewrite <- set_fresh by (apply Hfresh; now left).
      rewrite get_set_other; [apply Hfresh; now right|].
      intros E. apply Hnotin. rewrite E. now apply in_map.
Qed.

Lemma get_formatted_store (db : list Entry) (e : Entry) :
  NoDup (map key db) -> In e db ->
  Dict.get (key e) (formatted_store to_bibtex db) = Some (format_entry to_bibtex (key e) e).
Proof.
  induction db as [|e0 db IH]; intros Hnd Hin; [contradiction|].
  inversion Hnd as [|? ? Hnotin Hnd2]; subst. cbn [formatted_store map Dict.get].
  change (key_eqb (key e) (key e0)) with (String.eqb (key e) (key e0)).
  destruct Hin as [->|Hin].
  - now rewrite String.eqb_refl.
  - destruct (String.eqb_spec (key e) (key e0)) as [E|_].
    + exfalso. apply Hnotin. rewrite <- E. now apply in_map.
    + now apply IH.
Qed.

Lemma second_loop_no_urls (fes : Formatted) (l : list Entry) :
  forall written,
    (forall e, In e l ->
               Dict.get (key e) fes = Some (format_entry to_bibtex (key e) e)) ->
    for_each (merge_step numeric_ok []) (map key l) (fes, written)
    = if forallb (year_taken numeric_ok) l
      then Ok (fes, written ++ map (fun e => format_entry to_bibtex (key e) e) l)
      else Raise ValueError.
Proof.
  induction l as [|e l IH]; intros written Hget.
  - simpl. now rewrite app_nil_r.
  - cbn [map for_each forallb].
    rewrite (merge_step_no_urls _ _ _ _ _ (Hget e (or_introl eq_refl))).
    rewrite format_entry_not_ignored.
    destruct (year_taken numeric_ok e) eqn:Hy; cbn [andb].
    + rewrite add_document_taken by now rewrite taken_format_entry.
      cbn [rbind]. rewrite IH by (intros e0 He0; apply Hget; now right).
      destruct (forallb (year_taken numeric_ok) l); [|reflexivity].
      now rewrite <- app_assoc.
    + now rewrite add_document_refused by now rewrite taken_format_entry.
Qed.

(** X12: A bibliography without preprints is indexed entry by entry: when
    the writer takes the year of every entry, the documents are the
    formatted entries, in the order of the entries; when it refuses one, the
    build raises [ValueError]. *)
Theorem no_preprint_indexed_as_formatted (db : list Entry) :
  NoDup (map key db) ->
  Forall (fun e => prefix "EPRINT" (key e) = false) db ->
  build_documents to_bibtex numeric_ok db
  = if forallb (year_taken numeric_ok) db
    then Ok (map (fun e => format_entry to_bibtex (key e) e) db)
    else Raise ValueError.
Proof.
  intros Hnd Hpub. unfold build_documents.
  assert (Hfresh : forall e, In e db -> Dict.get (key e) ([] : Formatted) = None)
    by reflexivity.
  pose proof (first_loop_no_preprint db [] [] Hpub Hnd Hfresh) as Hfirst.
  match goal with
  | |- rbind ?r _ = _ =>
      replace r with (Ok (([] : Urls), formatted_store to_bibtex db))
        by (symmetry; exact Hfirst)
  end.
  cbn [rbind].
  replace (Dict.keys (formatted_store to_bibtex db)) with (map key db).
  - rewrite second_loop_no_urls by (intros e He; now apply get_formatted_store).
    now destruct (forallb (year_taken numeric_ok) db).
  - unfold Dict.keys, formatted_store. rewrite map_map. reflexivity.
Qed.

End NoPreprint.

Lemma no_preprint_indexed_as_formatted_witness :
  NoDup (map key [c_foo; groth16])
  /\ Forall (fun e => prefix "EPRINT" (key e) = false) [c_foo; groth16]
  /\ build_documents plain_bibtex digits [c_foo; groth16]
     = Ok [format_entry plain_bibtex "C:Foo" c_foo;
           format_entry plain_bibtex "Groth16" groth16].
Proof.
  assert (Hnd : NoDup (map key [c_foo; groth16])).
  { repeat constructor; simpl; intuition discriminate. }
  assert (Hpub : Forall (fun e => prefix "EPRINT" (key e) = false) [c_foo; groth16])
    by (repeat constructor).
  exact (conj Hnd (conj Hpub
           (no_preprint_indexed_as_formatted plain_bibtex digits _ Hnd Hpub))).
Defined.

End BuildFacts.

(** ** The build is the merge of the formatted entries *)

Module RefineFacts.
Import StrFacts DictFacts FormatFacts MergeFacts BuildFacts.

Lemma set_twice {K V : Type} `{Hashable K} (k : K) (v : V) (d : Dict.t K V) :
  Dict.set k v (Dict.set k v d) = Dict.set k v d.
Proof.
  induction d as [|[k' v'] d IH]; simpl.
  - now rewrite key_eqb_refl.
  - destruct (key_eqb k k') eqn:E; simpl; rewrite E; [reflexivity|now rewrite IH].
Qed.

Lemma same_key_same_entry (db : list Entry) (a b : Entry) :
  NoDup (map key db) -> In a db -> In b db -> key a = key b -> a = b.
Proof.
  induction db as [|e db IH]; intros Hnd Ha Hb E; [contradiction|].
  inversion Hnd as [|? ? Hnotin Hnd2]; subst.
  destruct Ha as [->|Ha], Hb as [->|Hb].
  - reflexivity.
  - exfalso. apply Hnotin. rewrite E. now apply in_map.
  - exfalso. apply Hnotin. rewrite <- E. now apply in_map.
  - now apply IH.
Qed.

Section WithSerializer.
Variable to_bibtex : string -> Entry -> string.
Variable numeric_ok : string -> bool.

(** One round of the second loop on a published entry that takes no note. *)
Lemma merge_step_plain (urls : Urls) (fes : Formatted) (written : list Document)
    (ID : string) (entry : Document) :
  prefix "EPRINT" ID = false ->
  Dict.get ID fes = Some entry ->
  merge_target urls entry = None ->
  Dict.mem "ignore" entry = false ->
  merge_step numeric_ok urls (fes, written) ID
  = rbind (add_document numeric_ok entry written)
          (fun written => Ok (fes, written)).
Proof.
  intros Hp Hget Ht Hi. unfold merge_step, merge_target in *.
  rewrite Hget, Hp. cbn [negb andb]. unfold Dict.mem at 1.
  destruct (Dict.get "title" entry) as [title|].
  - rewrite Ht. cbn [rbind]. now rewrite Hget, Hi.
  - cbn [rbind]. now rewrite Hget, Hi.
Qed.

(** The first loop, when no preprint lacks its note: the titles of the
    preprints are recorded and the formatted entries are stored in order. *)
Lemma first_loop_refines (db : list Entry) :
  forall (urls : Urls) (fes : Formatted),
    existsb noteless_preprintb db = false ->
    NoDup (map key db) ->
    (forall e, In e db -> Dict.get (key e) fes = None) ->
    for_each (format_step to_bibtex) (items db) (urls, fes)
    = Ok (fold_left record_title db urls, fes ++ formatted_store to_bibtex db).
Proof.
  induction db as [|e db IH]; intros urls fes Hok Hnd Hfresh.
  - simpl. now rewrite app_nil_r.
  - cbn [existsb] in Hok. apply orb_false_iff in Hok as [He Hok].
    inversion Hnd as [|? ? Hnotin Hnd2]; subst.
    assert (Hfresh2 : forall e0, In e0 db ->
               Dict.get (key e0) (fes ++ [(key e, format_entry to_bibtex (key e) e)])
               = None).
    { intros e0 He0. rewrite <- set_fresh by (apply Hfresh; now left).
      rewrite get_set_other; [apply Hfresh; now right|].
      intros E. apply Hnotin. rewrite E. now apply in_map. }
    cbn [items map for_each fold_left]. rewrite format_step_spec. cbv zeta.
    rewrite set_fresh by (apply Hfresh; now left).
    unfold record_title at 2. unfold noteless_preprintb, Dict.mem in He.
    assert (Hdone : forall urls1,
               for_each (format_step to_bibtex) (items db)
                 (urls1, fes ++ [(key e, format_entry to_bibtex (key e) e)])
               = Ok (fold_left record_title db urls1,
                     fes ++ formatted_store to_bibtex (e :: db))).
    { intros urls1. etransitivity; [exact (IH urls1 _ Hok Hnd2 Hfresh2)|].
      cbn [formatted_store map]. now rewrite <- app_assoc. }
    destruct (prefix "EPRINT" (key e)); [|apply Hdone].
    destruct (Dict.get "title" (fields e)); [|apply Hdone].
    destruct (Dict.get "note" (fields e)); [|discriminate].
    cbn [rbind]. apply Hdone.
Qed.

(** Every recorded title points at a preprint of the bibliography. *)
Lemma record_title_ids (db2 db : list Entry) :
  forall urls,
    incl db2 db ->
    (forall t u id, In (t, (u, id)) urls ->
                    exists e, In e db /\ key e = id /\ prefix "EPRINT" id = true) ->
    forall t u id, In (t, (u, id)) (fold_left record_title db2 urls) ->
                   exists e, In e db /\ key e = id /\ prefix "EPRINT" id = true.
Proof.
  induction db2 as [|e db2 IH]; intros urls Hincl Hu; [exact Hu|].
  cbn [fold_left]. apply IH; [intros x Hx; apply Hincl; now right|].
  unfold record_title. destruct (prefix "EPRINT" (key e)) eqn:Hp; [|exact Hu].
  destruct (Dict.get "title" (fields e)); [|exact Hu].
  destruct (Dict.get "note" (fields e)); [|exact Hu].
  intros t u id Hin. destruct (In_set _ _ _ _ _ Hin) as [Hold|E]; [now apply (Hu t u id)|].
  injection E as _ _ ->. exists e. split; [apply Hincl; now left|now split].
Qed.

Lemma mem_ignore_flagged_form (flagged : list string) (e : Entry) :
  Dict.mem "ignore" (flagged_form to_bibtex flagged e)
  = existsb (String.eqb (key e)) flagged.
Proof.
  unfold flagged_form. destruct (existsb (String.eqb (key e)) flagged).
  - apply mem_set_same.
  - apply format_entry_not_ignored.
Qed.

(** The second loop, on the entries [l] still to come: it writes the merged
    documents, up to the first that the writer refuses. *)
Lemma second_loop_refines (db : list Entry) (urls : Urls) :
  NoDup (map key db) ->
  (forall t u id, In (t, (u, id)) urls ->
                  exists e, In e db /\ key e = id /\ prefix "EPRINT" id = true) ->
  forall (l : list Entry) (fes : Formatted) (flagged : list string)
         (written : list Document),
    incl l db ->
    NoDup (map key l) ->
    (forall e, In e l -> prefix "EPRINT" (key e) = false ->
               Dict.get (key e) fes = Some (format_entry to_bibtex (key e) e)) ->
    (forall e, In e db -> prefix "EPRINT" (key e) = true ->
               Dict.get (key e) fes = Some (flagged_form to_bibtex flagged e)) ->
    if forallb (taken numeric_ok) (merged_documents to_bibtex urls flagged l)
    then exists fes',
           for_each (merge_step numeric_ok urls) (map key l) (fes, written)
           = Ok (fes', written ++ merged_documents to_bibtex urls flagged l)
    else for_each (merge_step numeric_ok urls) (map key l) (fes, written)
         = Raise ValueError.
Proof.
  intros Hnd Hu. induction l as [|e l IH]; intros fes flagged written Hincl Hndl H1 H2.
  - exists fes. simpl. now rewrite app_nil_r.
  - inversion Hndl as [|? ? Hnotin Hndl2]; subst.
    assert (He : In e db) by (apply Hincl; now left).
    assert (Hincl2 : incl l db) by (intros x Hx; apply Hincl; now right).
    assert (Hwriter : forall (d : Document) (fes1 : Formatted) (fl : list string),
              (forall written1,
                  if forallb (taken numeric_ok) (merged_documents to_bibtex urls fl l)
                  then exists fes',
                         for_each (merge_step numeric_ok urls) (map key l)
                                  (fes1, written1)
                         = Ok (fes', written1 ++ merged_documents to_bibtex urls fl l)
                  else for_each (merge_step numeric_ok urls) (map key l)
                                (fes1, written1)
                       = Raise ValueError) ->
              if forallb (taken numeric_ok)
                         (d :: merged_documents to_bibtex urls fl l)
              then exists fes',
                     rbind (rbind (add_document numeric_ok d written)
                                  (fun written => Ok (fes1, written)))
                           (for_each (merge_step numeric_ok urls) (map key l))
                     = Ok (fes', written ++ d :: merged_documents to_bibtex urls fl l)
              else rbind (rbind (add_document numeric_ok d written)
                                (fun written => Ok (fes1, written)))
                         (for_each (merge_step numeric_ok urls) (map key l))
                   = Raise ValueError).
    { intros d fes1 fl Hl. cbn [forallb].
      destruct (taken numeric_ok d) eqn:Hy; cbn [andb].
      - rewrite (add_document_taken numeric_ok _ _ Hy). cbn [rbind].
        specialize (Hl (written ++ [d])).
        destruct (forallb (taken numeric_ok) (merged_documents to_bibtex urls fl l));
          [|exact Hl].
        destruct Hl as [fes' Hl]. exists fes'. rewrite Hl. now rewrite <- app_assoc.
      - now rewrite (add_document_refused numeric_ok _ _ Hy). }
    cbn [map for_each merged_documents]. cbv zeta.
    destruct (prefix "EPRINT" (key e)) eqn:Hp.
    + rewrite (merge_step_preprint_writer _ _ _ _ _ _ Hp (H2 e He Hp)).
      rewrite mem_ignore_flagged_form.
      assert (H1' : forall e0, In e0 l -> prefix "EPRINT" (key e0) = false ->
                  Dict.get (key e0) fes = Some (format_entry to_bibtex (key e0) e0))
        by (intros e0 He0; apply H1; now right).
      unfold flagged_form.
      destruct (existsb (String.eqb (key e)) flagged) eqn:Hfl.
      * cbn [rbind]. exact (IH fes flagged written Hincl2 Hndl2 H1' H2).
      * apply Hwriter. intros written1.
        exact (IH fes flagged written1 Hincl2 Hndl2 H1' H2).
    + pose proof (H1 e (or_introl eq_refl) Hp) as Hget.
      destruct (merge_target urls (format_entry to_bibtex (key e) e))
        as [[url eid]|] eqn:Ht.
      * assert (Htitle : exists title,
                   Dict.get "title" (format_entry to_bibtex (key e) e) = Some title
                   /\ Dict.get title urls = Some (url, eid)).
        { unfold merge_target in Ht.
          destruct (Dict.get "title" (format_entry to_bibtex (key e) e)) as [title|];
            [now exists title|discriminate]. }
        destruct Htitle as (title & Htit & Hurl).
        destruct (Hu _ _ _ (get_In _ _ _ Hurl)) as (ep & Hep & Hkey & Hpe).
        assert (Hne : eid <> key e) by congruence.
        assert (Hgete : Dict.get eid fes = Some (flagged_form to_bibtex flagged ep)).
        { rewrite <- Hkey. apply H2; [exact Hep|now rewrite Hkey]. }
        rewrite (merge_step_published_writer _ _ _ _ _ _ _ _ _ _ Hp Hget Htit Hurl
                   Hne Hgete (format_entry_not_ignored to_bibtex (key e) e)).
        apply Hwriter. intros written1.
        apply (IH _ (eid :: flagged) written1 Hincl2 Hndl2).
        -- intros e0 He0 Hp0.
           rewrite get_set_other by congruence.
           rewrite get_set_other.
           ++ apply H1; [now right|exact Hp0].
           ++ intros E. apply Hnotin. rewrite E. now apply in_map.
        -- intros e0 He0 Hp0.
           destruct (String.eqb_spec (key e0) eid) as [E|Hne0].
           ++ assert (e0 = ep) by (apply (same_key_same_entry db); congruence).
              subst e0. rewrite <- Hkey, get_set_same.
              unfold flagged_form. cbn [existsb]. rewrite Hkey, String.eqb_refl.
              cbn [orb]. destruct (existsb (String.eqb eid) flagged);
                [apply f_equal, set_twice|reflexivity].
           ++ rewrite get_set_other by congruence.
              rewrite get_set_other by congruence.
              rewrite (H2 e0 He0 Hp0). unfold flagged_form. cbn [existsb].
              apply String.eqb_neq in Hne0. now rewrite Hne0.
      * rewrite (merge_step_plain _ _ _ _ _ Hp Hget Ht
                   (format_entry_not_ignored to_bibtex (key e) e)).
        apply Hwriter. intros written1.
        apply (IH fes flagged written1 Hincl2 Hndl2); [|exact H2].
        intros e0 He0. apply H1. now right.
Qed.

(** The build with its store of shared entries computes the merge of the
    formatted entries, when no preprint lacks its note: the merged documents
    are written, unless the writer refuses one. *)
Lemma build_merged_or_refused (db : list Entry) :
  NoDup (map key db) ->
  existsb noteless_preprintb db = false ->
  build_documents to_bibtex numeric_ok db
  = if forallb (taken numeric_ok)
               (merged_documents to_bibtex (preprint_titles db) [] db)
    then Ok (merged_documents to_bibtex (preprint_titles db) [] db)
    else Raise ValueError.
Proof.
  intros Hnd Hok. unfold build_documents.
  assert (Hfresh : forall e, In e db -> Dict.get (key e) ([] : Formatted) = None)
    by reflexivity.
  pose proof (first_loop_refines db [] [] Hok Hnd Hfresh) as Hfirst.
  match goal with
  | |- rbind ?r _ = _ =>
      replace r with (Ok (preprint_titles db, formatted_store to_bibtex db))
        by (symmetry; exact Hfirst)
  end.
  cbn [rbind].
  replace (Dict.keys (formatted_store to_bibtex db)) with (map key db)
    by (unfold Dict.keys, formatted_store; now rewrite map_map).
  pose proof (second_loop_refines db (preprint_titles db) Hnd
                (record_title_ids db db [] (incl_refl db)
                   (fun _ _ _ H => match H with end))
                db (formatted_store to_bibtex db) [] [] (incl_refl db) Hnd) as Hloop.
  destruct (forallb (taken numeric_ok)
              (merged_documents to_bibtex (preprint_titles db) [] db)).
  - destruct Hloop as [fes' Hloop].
    + intros e He _. now apply get_formatted_store.
    + intros e He _. unfold flagged_form. cbn [existsb]. now apply get_formatted_store.
    + rewrite Hloop. reflexivity.
  - rewrite Hloop; [reflexivity| |].
    + intros e He _. now apply get_formatted_store.
    + intros e He _. unfold flagged_form. cbn [existsb]. now apply get_formatted_store.
Qed.

Lemma build_noteless (db : list Entry) :
  existsb noteless_preprintb db = true ->
  build_documents to_bibtex numeric_ok db = Raise (KeyError "note").
Proof.
  intros Hbad. pose proof (first_loop_outcome to_bibtex db ([], [])) as Hfirst.
  rewrite Hbad in Hfirst. unfold build_documents.
  match goal with
  | |- rbind ?r _ = _ =>
      replace r with (@Raise (Urls * Formatted) (KeyError "note"))
        by (symmetry; exact Hfirst)
  end.
  reflexivity.
Qed.

(** The documents of a build that succeeds are the merged documents. *)
Lemma build_merged (db : list Entry) (docs : list Document) :
  NoDup (map key db) ->
  build_documents to_bibtex numeric_ok db = Ok docs ->
  docs = merged_documents to_bibtex (preprint_titles db) [] db.
Proof.
  intros Hnd Hb. destruct (existsb noteless_preprintb db) eqn:Hbad.
  - rewrite (build_noteless db Hbad) in Hb. discriminate.
  - rewrite (build_merged_or_refused db Hnd Hbad) in Hb.
    destruct (forallb (taken numeric_ok) _); [now injection Hb|discriminate].
Qed.

(** X13: The build with its store of shared entries computes a merge of the
    formatted entries: for a bibliography of distinct keys, it raises
    [KeyError('note')] when a preprint with a title has no note; otherwise
    the documents to write are [merged_documents] of the bibliography, with
    the titles recorded for all its preprints, and the build returns them
    when the writer takes them all and raises [ValueError] when it does
    not. *)
Theorem build_documents_refines (db : list Entry) :
  NoDup (map key db) ->
  build_documents to_bibtex numeric_ok db
  = if existsb noteless_preprintb db
    then Raise (KeyError "note")
    else if forallb (taken numeric_ok)
                    (merged_documents to_bibtex (preprint_titles db) [] db)
         then Ok (merged_documents to_bibtex (preprint_titles db) [] db)
         else Raise ValueError.
Proof.
  intros Hnd. destruct (existsb noteless_preprintb db) eqn:Hbad.
  - now apply build_noteless.
  - now apply build_merged_or_refused.
Qed.

(** *** The recorded titles *)

Lemma record_title_other (k : pyval) (l : list Entry) :
  forall urls : Urls,
    (forall e t, In e l -> prefix "EPRINT" (key e) = true ->
                 Dict.get "title" (fields e) = Some t ->
                 PStr (clean_field t) <> k) ->
    Dict.get k (fold_left record_title l urls) = Dict.get k urls.
Proof.
  induction l as [|e l IH]; intros urls Hl; [reflexivity|].
  cbn [fold_left]. rewrite IH by (intros e0 t He0; apply Hl; now right).
  unfold record_title. destruct (prefix "EPRINT" (key e)) eqn:Hp; [|reflexivity].
  destruct (Dict.get "title" (fields e)) as [t|] eqn:Ht; [|reflexivity].
  destruct (Dict.get "note" (fields e)); [|reflexivity].
  apply get_set_other. exact (Hl e t (or_introl eq_refl) Hp Ht).
Qed.

Lemma preprint_titles_last (a b : list Entry) (e : Entry) (t n : string) :
  prefix "EPRINT" (key e) = true ->
  Dict.get "title" (fields e) = Some t ->
  Dict.get "note" (fields e) = Some n ->
  (forall e' t', In e' b -> prefix "EPRINT" (key e') = true ->
                 Dict.get "title" (fields e') = Some t' ->
                 clean_field t' <> clean_field t) ->
  Dict.get (PStr (clean_field t)) (preprint_titles (a ++ e :: b))
  = Some (PStr (clean_field n), key e).
Proof.
  intros Hp Ht Hn Hb. unfold preprint_titles. rewrite fold_left_app. cbn [fold_left].
  rewrite record_title_other.
  - unfold record_title. rewrite Hp, Ht, Hn. apply get_set_same.
  - intros e' t' He' Hp' Ht' E. injection E as E. exact (Hb e' t' He' Hp' Ht' E).
Qed.

(** *** The merged documents *)

Lemma merged_published_note (urls : Urls) (p : Entry) (url : pyval) (eid : string)
    (l : list Entry) :
  In p l -> prefix "EPRINT" (key p) = false ->
  merge_target urls (format_entry to_bibtex (key p) p) = Some (url, eid) ->
  forall flagged,
    In (Dict.set "note" url (format_entry to_bibtex (key p) p))
       (merged_documents to_bibtex urls flagged l).
Proof.
  intros Hin Hp Ht. induction l as [|e l IH]; intros flagged; [contradiction|].
  cbn [merged_documents]. cbv zeta. destruct Hin as [->|Hin].
  - rewrite Hp, Ht. now left.
  - destruct (prefix "EPRINT" (key e)).
    + destruct (existsb (String.eqb (key e)) flagged); [|right]; now apply IH.
    + destruct (merge_target urls (format_entry to_bibtex (key e) e)) as [[u i]|];
        right; now apply IH.
Qed.

Lemma merged_published_plain (urls : Urls) (p : Entry) (l : list Entry) :
  In p l -> prefix "EPRINT" (key p) = false ->
  merge_target urls (format_entry to_bibtex (key p) p) = None ->
  forall flagged,
    In (format_entry to_bibtex (key p) p) (merged_documents to_bibtex urls flagged l).
Proof.
  intros Hin Hp Ht. induction l as [|e l IH]; intros flagged; [contradiction|].
  cbn [merged_documents]. cbv zeta. destruct Hin as [->|Hin].
  - rewrite Hp, Ht. now left.
  - destruct (prefix "EPRINT" (key e)).
    + destruct (existsb (String.eqb (key e)) flagged); [|right]; now apply IH.
    + destruct (merge_target urls (format_entry to_bibtex (key e) e)) as [[u i]|];
        right; now apply IH.
Qed.

Lemma merged_ids (urls : Urls) (l : list Entry) :
  forall flagged d,
    In d (merged_documents to_bibtex urls flagged l) ->
    exists e, In e l /\ Dict.get "ID" d = Some (PStr (key e)).
Proof.
  induction l as [|e l IH]; intros flagged d Hd; [contradiction|].
  cbn [merged_documents] in Hd. cbv zeta in Hd.
  assert (Hrest : forall fl, In d (merged_documents to_bibtex urls fl l) ->
                  exists e0, In e0 (e :: l) /\ Dict.get "ID" d = Some (PStr (key e0))).
  { intros fl H. destruct (IH fl d H) as (e0 & He0 & Hid). exists e0.
    split; [now right|exact Hid]. }
  assert (Hhere : Dict.get "ID" (format_entry to_bibtex (key e) e)
                  = Some (PStr (key e))) by apply get_ID_format_entry.
  destruct (prefix "EPRINT" (key e)).
  - destruct (existsb (String.eqb (key e)) flagged); [now apply (Hrest flagged)|].
    destruct Hd as [<-|Hd]; [|now apply (Hrest flagged)].
    exists e. split; [now left|exact Hhere].
  - destruct (merge_target urls (format_entry to_bibtex (key e) e)) as [[u i]|].
    + destruct Hd as [<-|Hd]; [|now apply (Hrest (i :: flagged))].
      exists e. split; [now left|].
      rewrite get_set_other by discriminate. exact Hhere.
    + destruct Hd as [<-|Hd]; [|now apply (Hrest flagged)].
      exists e. split; [now left|exact Hhere].
Qed.

Lemma merged_not_later (urls : Urls) (e : Entry) (l : list Entry) (flagged : list string) :
  ~ In (key e) (map key l) ->
  ~ In (format_entry to_bibtex (key e) e) (merged_documents to_bibtex urls flagged l).
Proof.
  intros Hnotin Hin. destruct (merged_ids _ _ _ _ Hin) as (e0 & He0 & Hid).
  rewrite get_ID_format_entry in Hid. injection Hid as Hid.
  apply Hnotin. rewrite Hid. now apply in_map.
Qed.

Lemma merged_preprint (urls : Urls) (e : Entry) (b : list Entry) :
  prefix "EPRINT" (key e) = true ->
  forall (a : list Entry) (flagged : list string),
    NoDup (map key (a ++ e :: b)) ->
    (In (format_entry to_bibtex (key e) e)
        (merged_documents to_bibtex urls flagged (a ++ e :: b))
     <-> existsb (String.eqb (key e)) flagged = false
         /\ existsb (points_at to_bibtex urls e) a = false).
Proof.
  intros Hp. induction a as [|x a IH]; intros flagged Hnd.
  - cbn [app] in *. inversion Hnd as [|? ? Hnotin _]; subst.
    cbn [merged_documents existsb]. cbv zeta. rewrite Hp.
    destruct (existsb (String.eqb (key e)) flagged).
    + split; [|intros [? _]; discriminate].
      intros Hin. exfalso. exact (merged_not_later _ _ _ _ Hnotin Hin).
    + split; [now split|now left].
  - cbn [app map] in Hnd. inversion Hnd as [|? ? Hnotin Hnd2]; subst.
    assert (Hne : key e <> key x).
    { intros E. apply Hnotin. rewrite <- E, map_app. apply in_or_app. right. now left. }
    assert (Hdiff : forall d, Dict.get "ID" d = Some (PStr (key x)) ->
                    d <> format_entry to_bibtex (key e) e).
    { intros d Hid ->. rewrite get_ID_format_entry in Hid. congruence. }
    cbn [app merged_documents existsb]. cbv zeta. unfold points_at at 1.
    destruct (prefix "EPRINT" (key x)) eqn:Hpx; cbn [negb andb orb].
    + destruct (existsb (String.eqb (key x)) flagged); [now apply IH|].
      rewrite <- (IH flagged Hnd2). split; [|now right].
      intros [E|Hin]; [|exact Hin].
      exfalso. exact (Hdiff _ (get_ID_format_entry _ _ _) E).
    + destruct (merge_target urls (format_entry to_bibtex (key x) x)) as [[u i]|].
      * rewrite String.eqb_sym.
        assert (Hfl : existsb (String.eqb (key e)) (i :: flagged)
                      = (key e =? i)%string || existsb (String.eqb (key e)) flagged)
          by reflexivity.
        pose proof (IH (i :: flagged) Hnd2) as IH'. rewrite Hfl in IH'.
        split.
        -- intros [E|Hin].
           ++ exfalso. apply (Hdiff _) in E; [exact E|].
              rewrite get_set_other by discriminate. apply get_ID_format_entry.
           ++ apply IH' in Hin as [H1 H2]. apply orb_false_iff in H1 as [H1 H1'].
              split; [exact H1'|]. now rewrite H1.
        -- intros [H1 H2]. apply orb_false_iff in H2 as [H2 H2']. right.
           apply IH'. split; [now rewrite H2, H1|exact H2'].
      * rewrite <- (IH flagged Hnd2). split; [|now right].
        intros [E|Hin]; [|exact Hin].
        exfalso. exact (Hdiff _ (get_ID_format_entry _ _ _) E).
Qed.

(** X14: A published entry takes the note of the last preprint of its title: when
    the build succeeds and the preprint [e], with title [t] and note [n], is
    the last preprint of the bibliography whose cleaned title is that of [t],
    the document of every published entry with that cleaned title is its
    formatted entry with the cleaned [n] as its note. *)
Theorem published_takes_last_preprint_note (a b : list Entry) (e p : Entry)
    (t n tp : string) (docs : list Document) :
  NoDup (map key (a ++ e :: b)) ->
  build_documents to_bibtex numeric_ok (a ++ e :: b) = Ok docs ->
  prefix "EPRINT" (key e) = true ->
  Dict.get "title" (fields e) = Some t ->
  Dict.get "note" (fields e) = Some n ->
  (forall e' t', In e' b -> prefix "EPRINT" (key e') = true ->
                 Dict.get "title" (fields e') = Some t' ->
                 clean_field t' <> clean_field t) ->
  In p (a ++ e :: b) ->
  prefix "EPRINT" (key p) = false ->
  Dict.get "title" (fields p) = Some tp ->
  clean_field tp = clean_field t ->
  In (Dict.set "note" (PStr (clean_field n)) (format_entry to_bibtex (key p) p)) docs.
Proof.
  intros Hnd Hb Hpe Ht Hn Hlast Hin Hp Htp Hsame.
  rewrite (build_merged _ _ Hnd Hb).
  apply (merged_published_note _ _ _ (key e) _ Hin Hp).
  unfold merge_target. rewrite get_title_fmt, Htp. cbn [option_map].
  rewrite Hsame. now apply preprint_titles_last.
Qed.

(** X15: A published entry whose cleaned title no preprint shares is indexed,
    when the build succeeds, as its formatted entry, its note untouched. *)
Theorem published_without_preprint_keeps_note (db : list Entry) (p : Entry)
    (docs : list Document) :
  NoDup (map key db) ->
  build_documents to_bibtex numeric_ok db = Ok docs ->
  In p db ->
  prefix "EPRINT" (key p) = false ->
  (forall e t tp, In e db -> prefix "EPRINT" (key e) = true ->
                  Dict.get "title" (fields e) = Some t ->
                  Dict.get "title" (fields p) = Some tp ->
                  clean_field t <> clean_field tp) ->
  In (format_entry to_bibtex (key p) p) docs.
Proof.
  intros Hnd Hb Hin Hp Hnone.
  rewrite (build_merged _ _ Hnd Hb).
  apply (merged_published_plain _ _ _ Hin Hp).
  unfold merge_target. rewrite get_title_fmt.
  destruct (Dict.get "title" (fields p)) as [tp|] eqn:Htp; [|reflexivity].
  cbn [option_map]. unfold preprint_titles. rewrite record_title_other; [reflexivity|].
  intros e t He Hpe Ht E. injection E as E. exact (Hnone e t tp He Hpe Ht eq_refl E).
Qed.

(** X16: When the build succeeds, a preprint is indexed exactly when no
    published entry before it in the bibliography takes its note: it is left
    out only if it is the preprint recorded for its title and a published
    entry of that title precedes it. *)
Theorem preprint_indexed_iff (a b : list Entry) (e : Entry) (docs : list Document) :
  NoDup (map key (a ++ e :: b)) ->
  build_documents to_bibtex numeric_ok (a ++ e :: b) = Ok docs ->
  prefix "EPRINT" (key e) = true ->
  (In (format_entry to_bibtex (key e) e) docs
   <-> existsb (points_at to_bibtex (preprint_titles (a ++ e :: b)) e) a = false).
Proof.
  intros Hnd Hb Hp.
  rewrite (build_merged _ _ Hnd Hb).
  rewrite (merged_preprint _ _ _ Hp a [] Hnd). cbn [existsb].
  split; [now intros [_ H]|now split].
Qed.

End WithSerializer.

Lemma build_documents_refines_witness :
  NoDup (map key [c_foo; eprint_foo; eprint_foo2])
  /\ build_documents plain_bibtex digits [c_foo; eprint_foo; eprint_foo2]
     = Ok [Dict.set "note" (PStr "N2") (format_entry plain_bibtex "C:Foo" c_foo);
           format_entry plain_bibtex "EPRINT:Foo" eprint_foo].
Proof.
  assert (Hnd : NoDup (map key [c_foo; eprint_foo; eprint_foo2])).
  { repeat constructor; simpl; intuition discriminate. }
  exact (conj Hnd (build_documents_refines plain_bibtex digits _ Hnd)).
Defined.

Lemma published_takes_last_preprint_note_witness :
  NoDup (map key [c_foo; eprint_foo; eprint_foo2])
  /\ build_documents plain_bibtex digits [c_foo; eprint_foo; eprint_foo2]
     = Ok [Dict.set "note" (PStr "N2") (format_entry plain_bibtex "C:Foo" c_foo);
           format_entry plain_bibtex "EPRINT:Foo" eprint_foo]
  /\ clean_field "X" = clean_field "X"
  /\ In (Dict.set "note" (PStr "N2") (format_entry plain_bibtex "C:Foo" c_foo))
        [Dict.set "note" (PStr "N2") (format_entry plain_bibtex "C:Foo" c_foo);
         format_entry plain_bibtex "EPRINT:Foo" eprint_foo].
Proof.
  assert (Hnd : NoDup (map key [c_foo; eprint_foo; eprint_foo2])).
  { repeat constructor; simpl; intuition discriminate. }
  assert (Hb : build_documents plain_bibtex digits [c_foo; eprint_foo; eprint_foo2]
               = Ok [Dict.set "note" (PStr "N2")
                       (format_entry plain_bibtex "C:Foo" c_foo);
                     format_entry plain_bibtex "EPRINT:Foo" eprint_foo])
    by (vm_compute; reflexivity).
  refine (conj Hnd (conj Hb (conj eq_refl _))).
  apply (published_takes_last_preprint_note plain_bibtex digits [c_foo; eprint_foo] []
           eprint_foo2 c_foo "X" "N2" "X" _ Hnd Hb eq_refl eq_refl eq_refl).
  - intros e' t' [].
  - now left.
  - reflexivity.
  - reflexivity.
  - reflexivity.
Defined.

Lemma published_without_preprint_keeps_note_witness :
  NoDup (map key [groth16; eprint_foo])
  /\ build_documents plain_bibtex digits [groth16; eprint_foo]
     = Ok [format_entry plain_bibtex "Groth16" groth16;
           format_entry plain_bibtex "EPRINT:Foo" eprint_foo]
  /\ In (format_entry plain_bibtex "Groth16" groth16)
        [format_entry plain_bibtex "Groth16" groth16;
         format_entry plain_bibtex "EPRINT:Foo" eprint_foo].
Proof.
  assert (Hnd : NoDup (map key [groth16; eprint_foo])).
  { repeat constructor; simpl; intuition discriminate. }
  assert (Hb : build_documents plain_bibtex digits [groth16; eprint_foo]
               = Ok [format_entry plain_bibtex "Groth16" groth16;
                     format_entry plain_bibtex "EPRINT:Foo" eprint_foo])
    by (vm_compute; reflexivity).
  refine (conj Hnd (conj Hb _)).
  apply (published_without_preprint_keeps_note plain_bibtex digits
           [groth16; eprint_foo] groth16 _ Hnd Hb (or_introl eq_refl) eq_refl).
  intros e t tp [<-|[<-|[]]] Hp Ht Htp; [discriminate|].
  injection Ht as <-. injection Htp as <-. discriminate.
Defined.

Lemma preprint_indexed_iff_witness :
  NoDup (map key [eprint_foo; c_foo])
  /\ build_documents plain_bibtex digits [eprint_foo; c_foo]
     = Ok [format_entry plain_bibtex "EPRINT:Foo" eprint_foo;
           Dict.set "note" (PStr "N") (format_entry plain_bibtex "C:Foo" c_foo)]
  /\ (In (format_entry plain_bibtex "EPRINT:Foo" eprint_foo)
         [format_entry plain_bibtex "EPRINT:Foo" eprint_foo;
          Dict.set "note" (PStr "N") (format_entry plain_bibtex "C:Foo" c_foo)]
      <-> existsb (points_at plain_bibtex (preprint_titles [eprint_foo; c_foo])
                     eprint_foo) [] = false).
Proof.
  assert (Hnd : NoDup (map key [eprint_foo; c_foo])).
  { repeat constructor; simpl; intuition discriminate. }
  assert (Hb : build_documents plain_bibtex digits [eprint_foo; c_foo]
               = Ok [format_entry plain_bibtex "EPRINT:Foo" eprint_foo;
                     Dict.set "note" (PStr "N")
                       (format_entry plain_bibtex "C:Foo" c_foo)])
    by (vm_compute; reflexivity).
  exact (conj Hnd (conj Hb
           (preprint_indexed_iff plain_bibtex digits [] [c_foo] eprint_foo _
              Hnd Hb eq_refl))).
Defined.

End RefineFacts.

(** ** The highlighting of the hits *)

Module RenderMore.
Import StrFacts DictFacts AcronymMore.

Lemma concat_empty_cons (x : string) (l : list string) :
  String.concat "" (x :: l) = (x ++ String.concat "" l)%string.
Proof. destruct l; simpl; [now rewrite append_empty_r|reflexivity]. Qed.

Lemma split_append_front (sep : ascii) (x s : string) :
  Str.mem sep x = false ->
  Str.split sep (x ++ s)
  = match Str.split sep s with
    | p :: ps => (x ++ p)%string :: ps
    | [] => [x]
    end.
Proof.
  induction x as [|c x IH]; simpl.
  - intros _. destruct (Str.split sep s) eqn:E; [|reflexivity].
    now destruct (split_not_nil sep s).
  - intros H. apply orb_false_iff in H as [Hc Hx].
    rewrite Ascii.eqb_sym, Hc, (IH Hx).
    destruct (Str.split sep s); reflexivity.
Qed.

Lemma split_pieces (sep : ascii) (s : string) :
  Forall (fun piece => Str.mem sep piece = false) (Str.split sep s).
Proof.
  induction s as [|c s IH]; simpl.
  - now constructor.
  - destruct (Ascii.eqb c sep) eqn:Hc; [now constructor|].
    destruct (Str.split sep s) as [|p ps].
    + constructor; [|constructor]. simpl. rewrite Ascii.eqb_sym, Hc. reflexivity.
    + inversion IH as [|? ? Hp Hps]; subst. constructor; [|exact Hps].
      simpl. now rewrite Ascii.eqb_sym, Hc.
Qed.

Lemma mem_substring (c : ascii) (s : string) :
  Str.mem c s = false -> forall n m, Str.mem c (substring n m s) = false.
Proof.
  induction s as [|x s IH]; intros H n m.
  - destruct n, m; reflexivity.
  - simpl in H. apply orb_false_iff in H as [Hx Hs].
    destruct n as [|n]; [destruct m as [|m]|]; simpl; [reflexivity| |now apply IH].
    rewrite Hx. now apply IH.
Qed.

Lemma mem_concat (c : ascii) (l : list string) :
  Forall (fun piece => Str.mem c piece = false) l ->
  Str.mem c (String.concat "" l) = false.
Proof.
  induction 1 as [|x l Hx _ IH]; [reflexivity|].
  now rewrite concat_empty_cons, mem_append, Hx, IH.
Qed.

Lemma prefix_angle_append (t p : string) :
  prefix "<" t = false -> prefix "<" p = false -> prefix "<" (t ++ p) = false.
Proof.
  destruct t as [|c t]; [now intros _|]. cbn [append prefix].
  destruct (ascii_dec "<" c); [|now intros]. now destruct t.
Qed.

Lemma split_token (t rest : string) :
  Str.mem "|" t = false ->
  Str.split "|" (format_token t ++ rest) = "" :: String "<" t :: Str.split "|" rest.
Proof.
  intros Hbar.
  replace (format_token t ++ rest)%string
    with (String "|" (String "<" t ++ String "|" rest))%string
    by (unfold format_token; cbn [append]; now rewrite append_assoc).
  cbn [Str.split]. rewrite Ascii.eqb_refl.
  now rewrite split_append_sep by (simpl; exact Hbar).
Qed.

Section WithTerminal.
Variable eng : Engine.
Variable isatty : bool.

Lemma highlight_str_no_bar (s : string) (color bold : bool) :
  Str.mem "|" s = false -> Str.mem "|" (highlight_str isatty s color bold) = false.
Proof.
  intros Hs. unfold highlight_str. destruct isatty; [|exact Hs].
  destruct color, bold; cbn [app String.concat];
    repeat (rewrite ?mem_append; cbn [Str.mem append]); now rewrite ?mem_append, Hs.
Qed.

Lemma paint_plain (token : string) :
  prefix "<" token = false -> paint isatty token = token.
Proof. unfold paint. now intros ->. Qed.

Lemma paint_marked (t : string) :
  paint isatty (String "<" t) = highlight_str isatty t true false.
Proof.
  unfold paint. replace (prefix "<" (String "<" t)) with true by (now destruct t).
  cbn [length]. rewrite Nat.sub_succ, Nat.sub_0_r. cbn [substring].
  now rewrite substring_whole.
Qed.

Lemma paint_no_bar (token : string) :
  Str.mem "|" token = false -> Str.mem "|" (paint isatty token) = false.
Proof.
  intros H. unfold paint. destruct (prefix "<" token); [|exact H].
  apply highlight_str_no_bar. now apply mem_substring.
Qed.

(** The token loop joins what it makes of each token. *)
Lemma colour_tokens_paint (tokens : list string) :
  colour_tokens isatty tokens = String.concat "" (map (paint isatty) tokens).
Proof.
  unfold colour_tokens.
  assert (Hacc : forall acc,
             fold_left
               (fun output token =>
                  if prefix "<" token
                  then (output
                        ++ highlight_str isatty
                             (substring 1 (length token - 1) token) true false)%string
                  else (output ++ token)%string) tokens acc
             = (acc ++ String.concat "" (map (paint isatty) tokens))%string).
  { induction tokens as [|t tokens IH]; intros acc.
    - simpl. now rewrite append_empty_r.
    - cbn [fold_left map]. rewrite IH, concat_empty_cons, <- append_assoc.
      unfold paint at 2. now destruct (prefix "<" t). }
  apply Hacc.
Qed.

(** The highlighted text of markable spans, cut at the marker: the first
    token is no marked one, and the tokens, painted, are the spans shown. *)
Lemma split_highlighted (sp : list (bool * string)) :
  Forall markable sp ->
  exists p ps,
    Str.split "|"
      (String.concat ""
         (map (fun span : bool * string =>
                 let (matched, t) := span in if matched then format_token t else t) sp))
    = p :: ps
    /\ prefix "<" p = false
    /\ String.concat "" (map (paint isatty) (p :: ps))
       = String.concat "" (map (shown isatty) sp).
Proof.
  induction 1 as [|[matched t] sp [Hbar Hangle] _ (p & ps & Hsplit & Hp & Hjoin)].
  - exists "", []. now repeat split.
  - cbn [fst snd] in Hbar, Hangle. cbn [map]. rewrite !concat_empty_cons.
    destruct matched.
    + exists "", (String "<" t :: p :: ps).
      rewrite split_token by exact Hbar. rewrite Hsplit.
      refine (conj eq_refl (conj eq_refl _)).
      cbn [map]. rewrite !concat_empty_cons, paint_marked.
      replace (paint isatty "") with "" by reflexivity.
      unfold shown at 1. cbn [fst snd append]. f_equal.
      rewrite <- Hjoin. cbn [map]. now rewrite concat_empty_cons.
    + exists (t ++ p)%string, ps.
      rewrite split_append_front by exact Hbar. rewrite Hsplit.
      assert (Htp : prefix "<" (t ++ p) = false)
        by (apply prefix_angle_append; [now apply Hangle|exact Hp]).
      refine (conj eq_refl (conj Htp _)).
      cbn [map]. rewrite concat_empty_cons, (paint_plain _ Htp), append_assoc.
      unfold shown at 1. cbn [fst snd]. f_equal.
      rewrite <- Hjoin. cbn [map]. now rewrite concat_empty_cons, (paint_plain _ Hp).
Qed.

(** X17: The markers of [format_token] are taken out again: when the spans of a
    stored text are markable, the text shown for the field is the texts of
    the spans in their order, each matched one coloured by [highlight_str]
    and each unmatched one as it is. *)
Theorem highlights_round_trip (q : Query) (hit : Document) (field text : string) :
  Dict.get field hit = Some (PStr text) ->
  Forall markable (spans eng q field text) ->
  field_body eng isatty q hit field
  = String.concat "" (map (shown isatty) (spans eng q field text)).
Proof.
  intros Hget Hsp. unfold field_body. rewrite Hget, colour_tokens_paint.
  unfold highlights.
  destruct (split_highlighted _ Hsp) as (p & ps & -> & _ & Hjoin). exact Hjoin.
Qed.

(** X18: The marker never reaches the output: whatever the stored text and the
    spans the engine finds in it, the text shown for a field holds no [|]. *)
Theorem field_body_without_marker (q : Query) (hit : Document) (field : string) :
  Str.mem "|" (field_body eng isatty q hit field) = false.
Proof.
  unfold field_body. destruct (Dict.get field hit) as [[text|b]|]; try reflexivity.
  rewrite colour_tokens_paint. apply mem_concat. apply Forall_map.
  eapply Forall_impl; [|apply split_pieces]. intros token. apply paint_no_bar.
Qed.

(** X19: A stored text that begins with [<] and has no match is taken for a
    matched token: it is shown without its [<] and, on a terminal, in the
    colour of a match. *)
Theorem unmatched_angle_shown_as_match (q : Query) (hit : Document)
    (field text t : string) :
  Dict.get field hit = Some (PStr text) ->
  spans eng q field text = [(false, String "<" t)] ->
  Str.mem "|" t = false ->
  field_body eng isatty q hit field = highlight_str isatty t true false.
Proof.
  intros Hget Hsp Hbar. unfold field_body, highlights. rewrite Hget, Hsp.
  cbn [map String.concat]. rewrite split_no_sep by (simpl; exact Hbar).
  rewrite colour_tokens_paint. cbn [map String.concat]. apply paint_marked.
Qed.

End WithTerminal.

Lemma highlights_round_trip_witness :
  Dict.get "title" hit_foo = Some (PStr "Zk proofs")
  /\ Forall markable (spans marking_engine (Term None "zk") "title" "Zk proofs")
  /\ field_body marking_engine true (Term None "zk") hit_foo "title"
     = (highlight_str true "Zk" true false ++ " proofs")%string.
Proof.
  assert (Hsp : Forall markable
                  (spans marking_engine (Term None "zk") "title" "Zk proofs")).
  { constructor; [split; [reflexivity|discriminate]|].
    constructor; [split; [reflexivity|reflexivity]|constructor]. }
  exact (conj eq_refl (conj Hsp
           (highlights_round_trip marking_engine true (Term None "zk") hit_foo
              "title" "Zk proofs" eq_refl Hsp))).
Defined.

Lemma unmatched_angle_shown_as_match_witness :
  spans word_engine (Term None "zk") "title" "<b>Zk" = [(false, "<b>Zk")]
  /\ field_body word_engine true (Term None "zk")
       [("ID", PStr "C:Foo12"); ("title", PStr "<b>Zk")] "title"
     = highlight_str true "b>Zk" true false.
Proof.
  exact (conj eq_refl
           (unmatched_angle_shown_as_match word_engine true (Term None "zk")
              [("ID", PStr "C:Foo12"); ("title", PStr "<b>Zk")] "title" "<b>Zk" "b>Zk"
              eq_refl eq_refl eq_refl)).
Defined.

End RenderMore.

(** ** Searching the index that was built *)

Module ComposeFacts.
Import DictFacts MergeFacts StoreFacts RankFacts RenderFacts BuildFacts.

Section WithEngine.
Variable eng : Engine.
Variable isatty : bool.
Variable fill : string -> string.

Lemma indexable_texts (k : string) (hit : Document) :
  indexable k hit ->
  forall field, In field (Dict.keys hit) ->
                exists s, Dict.get field hit = Some (PStr s).
Proof.
  intros (_ & Hall & _) field Hin.
  destruct (get_of_key hit field Hin) as (v & Hv & Hkv).
  rewrite Forall_forall in Hall. destruct (Hall _ Hkv) as (_ & s & Hs).
  cbn [snd] in Hs. subst v. now exists s.
Qed.

(** The body of the loop over the hits does not raise on a document the
    writer can take. *)
Lemma render_hit_indexable (q : Query) (outputbibtex : bool)
    (all_output : list string) (k : string) (hit : Document) :
  indexable k hit ->
  exists out, render_hit eng isatty fill q outputbibtex all_output hit = Ok out.
Proof.
  intros Hix. pose proof (indexable_texts k hit Hix) as Htexts.
  destruct Hix as (Hid & Hall & Hbib).
  unfold render_hit, get_str at 1. rewrite Hid. cbn [rbind].
  rewrite (render_fields_loop eng isatty fill q hit (Dict.keys hit) _ Htexts).
  cbn [rbind]. destruct outputbibtex; [|eexists; reflexivity].
  apply mem_get in Hbib as [v Hv].
  rewrite Forall_forall in Hall. destruct (Hall _ (get_In _ _ _ Hv)) as (_ & s & Hs).
  cbn [snd] in Hs. subst v. unfold get_str. rewrite Hv. cbn [rbind].
  eexists; reflexivity.
Qed.

Lemma render_hits_indexable (q : Query) (outputbibtex : bool) (hits : list Document) :
  Forall (fun hit => exists k, indexable k hit) hits ->
  forall all_output,
    exists out,
      for_each (render_hit eng isatty fill q outputbibtex) hits all_output = Ok out.
Proof.
  induction 1 as [|hit hits [k Hk] _ IH]; intros all_output.
  - eexists; reflexivity.
  - cbn [for_each].
    destruct (render_hit_indexable q outputbibtex all_output k hit Hk) as [out ->].
    cbn [rbind]. apply IH.
Qed.

(** The hits of a search are documents of the index. *)
Lemma search_hits_of_index (idx : list Document) (scope : list string) (q : Query)
    (limit : nat) (sortedby : string) (reverse : bool) (d : Document) :
  In d (search eng idx scope q limit sortedby reverse) -> In d idx.
Proof.
  unfold search. intros Hin.
  assert (Hr : In d (rank (ranks_before eng q sortedby reverse)
                       (filter (matches eng scope q) idx))).
  { rewrite <- (firstn_skipn limit (rank _ _)). apply in_or_app. now left. }
  apply (Permutation_in _ (rank_perm _ _)) in Hr.
  now apply filter_In in Hr.
Qed.

(** X20: Rendering the hits of a search over the documents the program built
    never raises: every field of every hit holds a text, every hit has its
    [ID] and its [bibtex], so the renderer raises no [KeyError] and
    [search_index] returns a text once the query parses, whatever the
    terminal, the limit and the options. *)
Theorem search_of_built_index_succeeds (to_bibtex : string -> Entry -> string)
    (numeric_ok : string -> bool) (db : list Entry) (docs : list Document)
    (query : string) (q : Query) (searchlimit : nat) (outputbibtex : bool) :
  NoDup (map key db) ->
  build_documents to_bibtex numeric_ok db = Ok docs ->
  parse_query eng query = Some q ->
  exists text,
    search_index eng isatty fill docs query searchlimit outputbibtex = Ok text.
Proof.
  intros Hnd Hb Hq. unfold search_index. rewrite Hq.
  pose proof (emitted_written _ _ _ _ (build_emitted to_bibtex numeric_ok db docs Hnd Hb))
    as Hw.
  destruct (render_hits_indexable q outputbibtex
              (search eng docs SEARCHABLE_FIELDS q searchlimit "year" true)) with
    (all_output := @nil string) as [out Hout].
  - apply Forall_forall. intros d Hd. apply search_hits_of_index in Hd.
    destruct (Hw d Hd) as (k & _ & Hix & _). now exists k.
  - rewrite Hout. cbn [rbind]. eexists; reflexivity.
Qed.

End WithEngine.

Lemma search_of_built_index_succeeds_witness :
  NoDup (map key [c_foo; eprint_foo])
  /\ build_documents plain_bibtex digits [c_foo; eprint_foo] = Ok [c_foo_merged]
  /\ parse_query word_engine "x" = Some (Term None "x")
  /\ exists text, search_index word_engine false fill_line [c_foo_merged] "x" 30 true
                  = Ok text.
Proof.
  assert (Hnd : NoDup (map key [c_foo; eprint_foo])).
  { repeat constructor; simpl; intuition discriminate. }
  exact (conj Hnd (conj eq_refl (conj eq_refl
           (search_of_built_index_succeeds word_engine false fill_line plain_bibtex
              digits [c_foo; eprint_foo] [c_foo_merged] "x" (Term None "x") 30 true
              Hnd eq_refl eq_refl)))).
Defined.

End ComposeFacts.

(** ** The command line *)

Module MainFacts.
Import StoreFacts.

Section WithWorld.
Variable w : World.
Variable eng : Engine.
Variable isatty : bool.
Variable fill : string -> string.

(** X21: A run without [-u] on a directory that exists builds nothing: the store
    is left as it was, whatever the run comes to, and a text that is paged is
    the result of a search over the index that was at the directory. *)
Theorem search_only_run_keeps_store (options : Options) (args : list string)
    (st : Storage) :
  path_exists st (opt_indexdir options) = true ->
  opt_update options = false ->
  snd (main w eng isatty fill options args st) = st
  /\ forall text,
       fst (main w eng isatty fill options args st) = Paged text ->
       exists idx searchlimit,
         open_dir st (opt_indexdir options) = Ok idx
         /\ opt_limit options = Some searchlimit
         /\ search_index eng isatty fill idx (String.concat " " args) searchlimit
              (opt_bibtex options) = Ok text.
Proof.
  intros Hdir Hup. unfold main, obtain_index. rewrite Hdir, Hup. cbn [negb orb andb].
  destruct (List.length args <? 1)%nat; cbn [andb]; [now split|].
  destruct (open_dir st (opt_indexdir options)) as [idx|e]; [|now split].
  destruct (1 <=? List.length args)%nat; [|now split].
  destruct (opt_limit options) as [searchlimit|]; [|now split].
  destruct (search_index eng isatty fill idx _ searchlimit _) as [text|e] eqn:Hs;
    (split; [reflexivity|]); cbn [fst]; [|discriminate].
  intros text' E. injection E as <-. now exists idx, searchlimit.
Qed.

(** X22: A run that builds the index searches what it has just built: with [-u]
    or a directory that is missing, a text that is paged is the result of a
    search over exactly the documents [build_documents] made of the parsed
    bibliography, each with its stored fields in the order of their names,
    and these are the documents left in the store. *)
Theorem rebuild_run_searches_new_index (options : Options) (args : list string)
    (st st' : Storage) (text : string) :
  opt_update options = true \/ path_exists st (opt_indexdir options) = false ->
  main w eng isatty fill options args st = (Paged text, st') ->
  exists f1 f2 db written searchlimit,
    read_file w (path_join w (path_dirname w (opt_cryptobib options)) ABBREV_DEFAULT)
    = Some f1
    /\ read_file w (opt_cryptobib options) = Some f2
    /\ parse_file w (f1 ++ String Str.newline f2) = Some db
    /\ build_documents (to_bibtex w) (numeric_ok w) db = Ok written
    /\ open_dir st' (opt_indexdir options) = Ok (map stored_fields written)
    /\ opt_limit options = Some searchlimit
    /\ search_index eng isatty fill (map stored_fields written)
         (String.concat " " args) searchlimit (opt_bibtex options) = Ok text.
Proof.
  intros Hbuild. unfold main, obtain_index.
  destruct ((List.length args <? 1)%nat && negb (opt_update options));
    [discriminate|].
  replace (negb (path_exists st (opt_indexdir options)) || opt_update options)
    with true
    by (destruct Hbuild as [-> | ->]; [now rewrite orb_true_r|reflexivity]).
  destruct (create_index w (opt_cryptobib options) (opt_indexdir options) _)
    as [[idx|e] st1] eqn:Hc; [|discriminate].
  destruct (create_index_commits _ _ _ _ _ _ Hc)
    as (f1 & f2 & db & written & Hf1 & Hf2 & Hdb & Hb & -> & Hopen).
  rewrite Hopen.
  destruct (1 <=? List.length args)%nat; [|discriminate].
  destruct (opt_limit options) as [searchlimit|] eqn:Hl; [|discriminate].
  destruct (search_index eng isatty fill (map stored_fields written) _ searchlimit _)
    as [text'|e] eqn:Hs; [|discriminate].
  intros E. injection E as <- <-.
  now exists f1, f2, db, written, searchlimit.
Qed.

End WithWorld.

Lemma search_only_run_keeps_store_witness :
  path_exists (storage_with [c_foo_merged]) (opt_indexdir search_options) = true
  /\ opt_update search_options = false
  /\ snd (main (world_of []) word_engine false fill_line search_options ["x"]
            (storage_with [c_foo_merged]))
     = storage_with [c_foo_merged].
Proof.
  exact (conj eq_refl (conj eq_refl
           (proj1 (search_only_run_keeps_store (world_of []) word_engine false
                     fill_line search_options ["x"] (storage_with [c_foo_merged])
                     eq_refl eq_refl)))).
Defined.

Lemma rebuild_run_searches_new_index_witness :
  path_exists (fun _ => Missing) (opt_indexdir search_options) = false
  /\ exists written text,
       build_documents plain_bibtex digits [c_foo; eprint_foo] = Ok written
       /\ open_dir (snd (main (world_of [c_foo; eprint_foo]) word_engine false
                           fill_line search_options ["x"] (fun _ => Missing)))
            "idx"
          = Ok (map stored_fields written)
       /\ search_index word_engine false fill_line (map stored_fields written)
            "x" 30 false
          = Ok text.
Proof.
  split; [reflexivity|].
  destruct (rebuild_run_searches_new_index (world_of [c_foo; eprint_foo]) word_engine
              false fill_line search_options ["x"] (fun _ => Missing) _ _
              (or_intror eq_refl) eq_refl)
    as (f1 & f2 & db & written & searchlimit & _ & _ & Hdb & Hb & Hopen & Hl & Hs).
  injection Hl as <-. injection Hdb as <-.
  exists written. eexists. split; [exact Hb|]. split; [exact Hopen|exact Hs].
Defined.

(** The run of the witness, written out: the fields of the one hit come in
    the order of their names, and [title], the last of them, has no comma. *)
Example rebuild_run_text :
  fst (main (world_of [c_foo; eprint_foo]) word_engine false fill_line
         search_options ["x"] (fun _ => Missing))
  = Paged (String.concat (String Str.newline "")
             [String Str.newline "C:Foo"; "        ,"; "        ,"; "        N,";
              "        X"]).
Proof. vm_compute. reflexivity. Qed.

End MainFacts.
